(** * Etbay: the eBay and Etsy extractors and the listing store

    A shallow embedding of [etbay.py].  Python values are an inductive type,
    exceptions are a result type, and the effects of the program (the log,
    the requests sent to the network, the SQLite file and the connection of
    [DatabaseManager]) are threaded through an explicit state. *)

From Stdlib Require Import ZArith Floats Ascii String.
From stdpp Require Import gmap strings list fin_maps pretty.

#[local] Set Warnings "-register-all".
#[local] Open Scope string_scope.
#[local] Open Scope list_scope.

(** ** Python values and exceptions *)

(** The values the program handles: what [response.json()] returns, the
    attribute values of a parsed tag, the fields of an item dict.  A Python
    [float] is an IEEE 754 double, as the kernel's primitive floats are. *)
Inductive pyval :=
| PyNone
| PyBool (b : bool)
| PyInt (z : Z)
| PyFloat (f : float)
| PyStr (s : string)
| PyList (l : list pyval)
| PyDict (d : gmap string pyval).

(** The exception classes that can be raised in the program.
    [RequestException] stands for [requests.RequestException] and its
    subclasses, [sqlite3_Error] for [sqlite3.Error] and its subclasses. *)
Inductive exn :=
| AttributeError
| TypeError
| ValueError
| KeyError
| OverflowError
| RequestException
| sqlite3_Error
| OtherException (name : string).

#[global] Instance exn_eq_dec : EqDecision exn.
Proof. solve_decision. Defined.

(** The outcome of evaluating an expression: a value, or a raised exception. *)
Inductive res (A : Type) :=
| Ret (a : A)
| Raise (e : exn).
Arguments Ret {A} a.
Arguments Raise {A} e.

#[global] Instance res_ret : MRet res := λ A a, Ret a.
#[global] Instance res_bind : MBind res := λ A B f m,
  match m with
  | Ret a => f a
  | Raise e => Raise e
  end.
#[global] Instance res_fmap : FMap res := λ A B f m,
  match m with
  | Ret a => Ret (f a)
  | Raise e => Raise e
  end.

(** The parts of the Python runtime and of its libraries that the program
    calls and that are not defined here: the parser and the printer of
    floats, the conversion of an integer to a float, [str.strip] (which
    knows Unicode white space), the [repr] of a list or a dict, and the text
    SQLite gives a floating-point value. *)
Class Runtime := {
  (** [float(s)] of a string; [None] when it raises [ValueError]. *)
  float_of_str : string → option float;
  (** [float(n)] of an integer; [None] when it raises [OverflowError]. *)
  float_of_int : Z → option float;
  (** [str(x)] of a float. *)
  str_of_float : float → string;
  (** [str(v)] of a list or a dict. *)
  str_of_container : pyval → string;
  (** [s.strip()]. *)
  str_strip : string → string;
  (** The text SQLite stores for a REAL value in a TEXT column (['7.5'],
      ['1.0e+20'], ['Inf']). *)
  text_of_real : float → string;
}.

Module builtins.
Section with_runtime.
Context {RT : Runtime}.

(** [float(v)]. *)
Definition float (v : pyval) : res float :=
  match v with
  | PyFloat f => Ret f
  | PyInt z =>
      match float_of_int z with
      | Some f => Ret f
      | None => Raise OverflowError
      end
  | PyBool b => Ret (if b then 1%float else 0%float)
  | PyStr s =>
      match float_of_str s with
      | Some f => Ret f
      | None => Raise ValueError
      end
  | PyNone | PyList _ | PyDict _ => Raise TypeError
  end.

(** [str(v)], which is also what [f'{v}'] formats. *)
Definition str (v : pyval) : string :=
  match v with
  | PyStr s => s
  | PyNone => "None"
  | PyBool true => "True"
  | PyBool false => "False"
  | PyInt z => pretty z
  | PyFloat f => str_of_float f
  | PyList _ | PyDict _ => str_of_container v
  end.
End with_runtime.

(** [v.get(key, default)]: only a dict has the method. *)
Definition get (v : pyval) (key : string) (default : pyval) : res pyval :=
  match v with
  | PyDict d => Ret (from_option id default (d !! key))
  | _ => Raise AttributeError
  end.

(** [v != 'N/A'] is false exactly on the string ['N/A']. *)
Definition is_NA (v : pyval) : bool :=
  match v with
  | PyStr s => bool_decide (s = "N/A")
  | _ => false
  end.

(** The one-character strings of a string (one per byte here). *)
Fixpoint chars (s : string) : list pyval :=
  match s with
  | EmptyString => []
  | String c s' => PyStr (String c EmptyString) :: chars s'
  end.

(** The elements [for item in v] runs over: the elements of a list, the
    characters of a string, the keys of a dict; other values are not
    iterable. *)
Definition iter (v : pyval) : res (list pyval) :=
  match v with
  | PyList l => Ret l
  | PyStr s => Ret (chars s)
  | PyDict d => Ret (PyStr <$> (map_to_list d).*1)
  | PyNone | PyBool _ | PyInt _ | PyFloat _ => Raise TypeError
  end.

(** [s.replace(c, '')] for a one-character [c]. *)
Fixpoint remove_char (c : Ascii.ascii) (s : string) : string :=
  match s with
  | EmptyString => EmptyString
  | String a s' =>
      if Ascii.eqb a c then remove_char c s' else String a (remove_char c s')
  end.
End builtins.

(** ** The state of the program and its monad *)

Inductive level := INFO | WARNING | ERROR.

#[global] Instance level_eq_dec : EqDecision level.
Proof. solve_decision. Defined.

(** One call of [logging.info], [logging.warning] or [logging.error]: the
    text of the message, and the exception formatted into it, if any. *)
Record log_record := LogRecord {
  levelname : level;
  message : string;
  exc : option exn;
}.

(** ** SQLite *)

(** The values of SQLite, by storage class (the program binds no bytes, so
    there is no BLOB). *)
Inductive sqlval :=
| NULL
| INTEGER (z : Z)
| REAL (f : float)
| TEXT (s : string).

(** A row of [listings]: the key in the column [id] and the values stored
    in the six other columns. *)
Record row := Row {
  row_id : Z;
  row_values : list sqlval;
}.

(** A table with an AUTOINCREMENT key: its rows, the new ones last, and the
    largest key given out so far, which SQLite keeps in [sqlite_sequence]
    (0 when it keeps none for the table). *)
Record table := Table {
  rows : list row;
  seq : Z;
}.

(** The schema of a database file: its tables by name, in creation order. *)
Definition database := list (string * table).

(** [self.conn]: unset before [__enter__]; once connected, the view of the
    open transaction, if one is open; closed after [close()]. *)
Inductive connection :=
| Unset
| Connected (txn : option database)
| Closed.

Record world := World {
  (** the records logged so far, oldest first *)
  log : list log_record;
  (** the URLs requested from the network so far, oldest first *)
  sent : list string;
  (** the committed content of [ebay_etsy_listings.db] *)
  file : database;
  (** the connection of the [DatabaseManager] *)
  conn : connection;
}.

Definition Py (A : Type) : Type := world → res A * world.

#[global] Instance Py_ret : MRet Py := λ A a w, (Ret a, w).
#[global] Instance Py_bind : MBind Py := λ A B f m w,
  match m w with
  | (Ret a, w') => f a w'
  | (Raise e, w') => (Raise e, w')
  end.

(** A computation without effects. *)
Definition lift {A} (r : res A) : Py A := λ w, (r, w).

Definition raise {A} (e : exn) : Py A := λ w, (Raise e, w).

(** [try: body / except <classes> as e: handler e]. *)
Definition try_except {A} (body : Py A) (classes : exn → bool)
    (handler : exn → Py A) : Py A := λ w,
  match body w with
  | (Ret a, w') => (Ret a, w')
  | (Raise e, w') => if classes e then handler e w' else (Raise e, w')
  end.

Definition logging (l : level) (msg : string) (e : option exn) : Py unit := λ w,
  (Ret tt, World (log w ++ [LogRecord l msg e]) (sent w) (file w) (conn w)).

(** The loop both extractors run:
    [for x in xs: try: body / except classes as e: logging.warning(f"{msg}{e}")],
    where the body works on the list [items]. *)
Fixpoint for_try {X D} (body : X → list D → res (list D)) (classes : exn → bool)
    (msg : string) (xs : list X) (items : list D) : Py (list D) :=
  match xs with
  | [] => mret items
  | x :: rest =>
      items' ← try_except (lift (body x items)) classes
                 (λ e, logging WARNING msg (Some e);; mret items);
      for_try body classes msg rest items'
  end.

(** ** BeautifulSoup trees *)

Module bs4.

(** The value of an attribute: a string, or a list of strings for a
    multi-valued attribute such as [class]. *)
Inductive attr :=
| AttrStr (s : string)
| AttrList (l : list string).

(** A node of the tree [html.parser] builds.  [Comment] stands for every
    string [get_text] leaves out (comments, declarations, the text of script
    and style elements).  The [BeautifulSoup] object itself is a [Tag]. *)
Inductive node :=
| NavigableString (s : string)
| Comment (s : string)
| Tag (name : string) (attrs : gmap string attr) (children : list node).

(** [node.descendants]: the nodes below [node], in document order. *)
Fixpoint descendants (n : node) : list node :=
  match n with
  | Tag _ _ cs =>
      (fix go (l : list node) : list node :=
         match l with
         | [] => []
         | c :: l' => c :: descendants c ++ go l'
         end) cs
  | NavigableString _ | Comment _ => []
  end.

(** Does the [class] attribute match the string [c]?  One of its values is
    [c], or the values joined by spaces are. *)
Definition has_class (c : string) (attrs : gmap string attr) : bool :=
  match attrs !! "class" with
  | Some (AttrList l) => existsb (String.eqb c) l || String.eqb (String.concat " " l) c
  | Some (AttrStr s) => String.eqb s c
  | None => false
  end.

(** The test of [find_all(name, class_=c)] on one node. *)
Definition matches (name c : string) (n : node) : bool :=
  match n with
  | Tag nm attrs _ => String.eqb nm name && has_class c attrs
  | NavigableString _ | Comment _ => false
  end.

Definition find_all (name c : string) (n : node) : list node :=
  List.filter (matches name c) (descendants n).

(** [find] is the first result of [find_all], or [None]. *)
Definition find (name c : string) (n : node) : option node :=
  head (find_all name c n).

(** The strings [get_text] joins. *)
Definition all_strings (n : node) : list string :=
  omap (λ d, match d with NavigableString s => Some s | _ => None end)
       (descendants n).

(** [node.get_text()]. *)
Definition get_text (n : node) : string :=
  String.concat "" (all_strings n).

Definition nonempty (s : string) : bool :=
  negb (String.eqb s "").

(** [node.get_text(strip=True)]: every string is stripped and the empty
    ones are dropped. *)
Definition get_text_strip {RT : Runtime} (n : node) : string :=
  String.concat "" (List.filter nonempty (str_strip <$> all_strings n)).

(** [tag[key]]. *)
Definition getitem (n : node) (key : string) : res attr :=
  match n with
  | Tag _ attrs _ =>
      match attrs !! key with
      | Some a => Ret a
      | None => Raise KeyError
      end
  | NavigableString _ | Comment _ => Raise TypeError
  end.

(** An attribute value as a Python value. *)
Definition attr_value (a : attr) : pyval :=
  match a with
  | AttrStr s => PyStr s
  | AttrList l => PyList (PyStr <$> l)
  end.

End bs4.

(** ** The network and the environment *)

(** What [requests.get] returns: the status code, the tree
    [BeautifulSoup(response.text, 'html.parser')] builds from the body, and
    what [response.json()] returns or raises. *)
Record Response := {
  status_code : Z;
  html_parser : bs4.node;
  json : res pyval;
}.

(** What the program reads and does not change: the process environment
    (after [load_dotenv()]) and the answers of the network, [network n url]
    being the outcome of [requests.get(url)] when [n] requests were sent
    before. *)
Record environment := {
  environ : gmap string string;
  network : nat → string → res Response;
}.

Section program.
Context {RT : Runtime} (E : environment).

(** [requests.get(url)]. *)
Definition requests_get (url : string) : Py Response := λ w,
  (network E (length (sent w)) url,
   World (log w) (sent w ++ [url]) (file w) (conn w)).

(** [response.raise_for_status()]: an [HTTPError] on a 4xx or 5xx status. *)
Definition raise_for_status (r : Response) : Py unit :=
  if bool_decide (400 ≤ status_code r < 600)%Z then raise RequestException
  else mret tt.

(** [@retry(stop_max_attempt_number=..., wait_fixed=...)]: the call is
    repeated while it raises, and the exception of the last attempt is
    raised again (the wait between two attempts is not modelled).  [more]
    is the number of attempts left after this one. *)
Fixpoint retry_from {A} (more : nat) (call : Py A) : Py A := λ w,
  match call w with
  | (Ret a, w') => (Ret a, w')
  | (Raise e, w') =>
      match more with
      | 0 => (Raise e, w')
      | S n => retry_from n call w'
      end
  end.

Definition retry {A} (stop_max_attempt_number : nat) (call : Py A) : Py A :=
  retry_from (pred stop_max_attempt_number) call.

Definition fetch_url (url : string) : Py Response :=
  retry 3 (response ← requests_get url;
           raise_for_status response;;
           mret response).
End program.

(** ** The extractors *)

(** The dict literal both extractors append. *)
Definition item_dict (title price link description : pyval) : gmap string pyval :=
  <["description" := description]>
    (<["link" := link]> (<["price" := price]> {["title" := title]})).

Section extractors.
Context {RT : Runtime} (E : environment).

(** The body of the [try] in the loop of [find_ebay_items], for one
    listing block: the list [items] after it, or the exception raised. *)
Definition ebay_try (max_price : option float) (item : bs4.node)
    (items : list (gmap string pyval)) : res (list (gmap string pyval)) :=
  (* None.get_text is an AttributeError *)
  h3 ← from_option Ret (Raise AttributeError) (bs4.find "h3" "s-item__title" item);
  let title := bs4.get_text_strip h3 in
  let price_text := bs4.find "span" "s-item__price" item in
  price ← match price_text with
          | Some t =>
              Some <$> builtins.float
                (PyStr (builtins.remove_char ","%char
                          (builtins.remove_char "$"%char (bs4.get_text t))))
          | None => Ret None
          end;
  (* None['href'] is a TypeError *)
  a ← from_option Ret (Raise TypeError) (bs4.find "a" "s-item__link" item);
  link ← bs4.getitem a "href";
  let description :=
    match bs4.find "div" "s-item__subtitle" item with
    | Some d => bs4.get_text_strip d
    | None => "N/A"
    end in
  if match max_price with
     | None => true
     | Some m => match price with Some p => PrimFloat.leb p m | None => false end
     end
  then Ret (items ++ [item_dict (PyStr title)
                        (PyStr (match price_text with
                                | Some t => bs4.get_text t
                                | None => "N/A"
                                end))
                        (bs4.attr_value link) (PyStr description)])
  else Ret items.

Definition find_ebay_items (search_query : string) (max_price : option float)
    : Py (list (gmap string pyval)) :=
  let url := "https://www.ebay.com/sch/i.html?_nkw=" +:+ search_query in
  fetched ← try_except
              (response ← fetch_url E url;
               mret (Some (html_parser response)))
              (λ e, bool_decide (e = RequestException))
              (λ e, logging ERROR "Failed to retrieve eBay items: " (Some e);;
                    mret None);
  match fetched with
  | None => mret []
  | Some soup =>
      items ← for_try (ebay_try max_price)
                (λ e, bool_decide (e = AttributeError))
                "Error parsing eBay item data: "
                (bs4.find_all "div" "s-item__info" soup) [];
      logging INFO ("Found " +:+ pretty (length items) +:+ " items on eBay.") None;;
      mret items
  end.

(** The body of the [try] in the loop of [find_etsy_items]. *)
Definition etsy_try (max_price : option float) (item : pyval)
    (items : list (gmap string pyval)) : res (list (gmap string pyval)) :=
  title ← builtins.get item "title" (PyStr "N/A");
  price ← builtins.get item "price" (PyStr "N/A");
  link ← builtins.get item "url" (PyStr "N/A");
  description ← builtins.get item "description" (PyStr "N/A");
  keep ← match max_price with
         | None => Ret true
         | Some m =>
             if builtins.is_NA price then Ret false
             else p ← builtins.float price; Ret (PrimFloat.leb p m)
         end;
  if keep : bool
  then Ret (items ++ [item_dict title (PyStr ("$" +:+ builtins.str price))
                        link description])
  else Ret items.

(** [not api_key]: the variable is unset, or set to the empty string. *)
Definition falsy (api_key : option string) : bool :=
  match api_key with
  | None => true
  | Some s => String.eqb s ""
  end.

Definition find_etsy_items (search_query : string) (max_price : option float)
    : Py (list (gmap string pyval)) :=
  let api_key := environ E !! "ETSY_API_KEY" in
  if falsy api_key then
    logging ERROR
      "Etsy API key not found. Please set the ETSY_API_KEY environment variable."
      None;;
    mret []
  else
    let url := "https://openapi.etsy.com/v2/listings/active?api_key="
               +:+ default "" api_key +:+ "&keywords=" +:+ search_query
               +:+ "&limit=10" in
    fetched ← try_except
                (response ← fetch_url E url;
                 data ← lift (json response);
                 mret (Some data))
                (λ e, bool_decide (e = RequestException))
                (λ e, logging ERROR "Failed to retrieve Etsy items: " (Some e);;
                      mret None);
    match fetched with
    | None => mret []
    | Some data =>
        results ← lift (builtins.get data "results" (PyList []));
        results ← lift (builtins.iter results);
        items ← for_try (etsy_try max_price)
                  (λ e, bool_decide (e = TypeError) || bool_decide (e = ValueError))
                  "Error parsing Etsy item data: "
                  results [];
        logging INFO ("Found " +:+ pretty (length items) +:+ " items on Etsy.") None;;
        mret items
    end.
End extractors.

(** ** The record store *)

Module sqlite3.

Definition has_table (name : string) (db : database) : bool :=
  existsb (λ p, String.eqb p.1 name) db.

(** The number of tables called [name]. *)
Definition count_tables (name : string) (db : database) : nat :=
  length (List.filter (λ p : string * table, String.eqb p.1 name) db).

(** [CREATE TABLE IF NOT EXISTS name (... AUTOINCREMENT ...)]: a new table
    is empty, and [sqlite_sequence] holds no key for it yet. *)
Definition create_table_if_not_exists (name : string) (db : database) : database :=
  if has_table name db then db else db ++ [(name, Table [] 0)].

(** Binding one parameter of a statement: a list or a dict is not a
    supported type, and an integer must fit 64 bits.  [None] is bound as
    NULL, a bool as the integer 0 or 1, a float as a REAL (a NaN as NULL), a
    string as TEXT. *)
Definition bind (v : pyval) : res sqlval :=
  match v with
  | PyList _ | PyDict _ => Raise sqlite3_Error
  | PyInt z =>
      if bool_decide (- 2 ^ 63 ≤ z < 2 ^ 63)%Z then Ret (INTEGER z)
      else Raise OverflowError
  | PyNone => Ret NULL
  | PyBool b => Ret (INTEGER (if b then 1 else 0))
  | PyFloat f => Ret (if PrimFloat.is_nan f then NULL else REAL f)
  | PyStr s => Ret (TEXT s)
  end.

Fixpoint bind_all (values : list pyval) : res (list sqlval) :=
  match values with
  | [] => Ret []
  | v :: rest =>
      b ← bind v;
      bound ← bind_all rest;
      Ret (b :: bound)
  end.

(** What a column declared TEXT stores for a value: a number is converted
    to its text, NULL and text are stored as they are.  The six columns the
    INSERT fills are all declared TEXT. *)
Definition text_affinity {RT : Runtime} (v : sqlval) : sqlval :=
  match v with
  | NULL => NULL
  | INTEGER z => TEXT (pretty z)
  | REAL f => TEXT (text_of_real f)
  | TEXT s => TEXT s
  end.

(** The values SQLite stores as NULL: [None], and a NaN. *)
Definition is_null (v : pyval) : bool :=
  match v with
  | PyNone => true
  | PyFloat f => PrimFloat.is_nan f
  | _ => false
  end.

(** The NOT NULL columns of [listings] among the six inserted ones:
    platform, title and link. *)
Definition not_null_ok (values : list pyval) : bool :=
  match values with
  | [platform; title; _; link; _; _] =>
      negb (is_null platform) && negb (is_null title) && negb (is_null link)
  | _ => false
  end.

(** The (first) table called [name]. *)
Definition table_named (name : string) (db : database) : option table :=
  snd <$> List.find (λ p : string * table, String.eqb p.1 name) db.

(** The largest key a row can have. *)
Definition MAX_ROWID : Z := 2 ^ 63 - 1.

(** The largest key among the rows of a table, if it has rows. *)
Definition largest_rowid (t : table) : option Z :=
  foldr (λ r m, Some (match m with
                      | Some k => Z.max (row_id r) k
                      | None => row_id r
                      end)) None (rows t).

(** The key AUTOINCREMENT gives a new row: one more than the largest key of
    the table (1 in an empty table), and more than the largest key given
    out before.  There is none when either of the two is the largest key
    there can be. *)
Definition new_rowid (t : table) : option Z :=
  if bool_decide (seq t = MAX_ROWID)
     || bool_decide (largest_rowid t = Some MAX_ROWID)
  then None
  else Some (Z.max (match largest_rowid t with
                    | Some k => k + 1
                    | None => 1
                    end) (seq t + 1)).

(** The row is appended to the (first) table called [name] under the key
    [key], which becomes the largest key given out. *)
Fixpoint insert_row (name : string) (key : Z) (values : list sqlval)
    (db : database) : database :=
  match db with
  | [] => []
  | (n, t) :: rest =>
      if String.eqb n name
      then (n, Table (rows t ++ [Row key values]) key) :: rest
      else (n, t) :: insert_row name key values rest
  end.

Definition set_conn (c : connection) (w : world) : world :=
  World (log w) (sent w) (file w) c.

(** What the statements of the connection see: the open transaction, or the
    file. *)
Definition view (w : world) : database :=
  match conn w with
  | Connected (Some t) => t
  | Unset | Connected None | Closed => file w
  end.

(** [self.cursor.execute('CREATE TABLE IF NOT EXISTS listings ...')]: data
    definition joins the open transaction, and takes effect at once when
    none is open. *)
Definition execute_create : Py unit := λ w,
  match conn w with
  | Unset => (Raise AttributeError, w)
  | Closed => (Raise sqlite3_Error, w)
  | Connected (Some t) =>
      (Ret tt, set_conn (Connected (Some (create_table_if_not_exists "listings" t))) w)
  | Connected None =>
      (Ret tt, World (log w) (sent w)
                 (create_table_if_not_exists "listings" (file w)) (Connected None))
  end.

(** [self.cursor.execute('INSERT INTO listings ... VALUES (?, ?, ?, ?, ?, ?)',
    values)]: the statement is prepared, a transaction is opened if none is,
    the values are bound, the new key is chosen, the NOT NULL columns are
    checked and the row is inserted.  A failed binding or a NULL in a NOT
    NULL column leaves the transaction open as it was.  When no key is left,
    SQLite reports that the database is full ([sqlite3.OperationalError]) and
    rolls the transaction back. *)
Definition execute_insert {RT : Runtime} (values : list pyval) : Py unit := λ w,
  match conn w with
  | Unset => (Raise AttributeError, w)
  | Closed => (Raise sqlite3_Error, w)
  | Connected txn =>
      let db := default (file w) txn in
      match table_named "listings" db with
      | None => (Raise sqlite3_Error, w)
      | Some t =>
          let w1 := set_conn (Connected (Some db)) w in
          match bind_all values with
          | Raise e => (Raise e, w1)
          | Ret bound =>
              match new_rowid t with
              | None => (Raise sqlite3_Error, set_conn (Connected None) w)
              | Some key =>
                  if not_null_ok values
                  then (Ret tt,
                        set_conn
                          (Connected
                             (Some (insert_row "listings" key
                                      (text_affinity <$> bound) db))) w)
                  else (Raise sqlite3_Error, w1)
              end
          end
      end
  end.

(** [self.conn.commit()]. *)
Definition commit : Py unit := λ w,
  match conn w with
  | Unset => (Raise AttributeError, w)
  | Closed => (Raise sqlite3_Error, w)
  | Connected (Some t) => (Ret tt, World (log w) (sent w) t (Connected None))
  | Connected None => (Ret tt, w)
  end.

(** [self.conn.close()]: what was not committed is lost. *)
Definition close : Py unit := λ w,
  match conn w with
  | Unset => (Raise AttributeError, w)
  | Closed | Connected _ => (Ret tt, set_conn Closed w)
  end.

End sqlite3.

Module DatabaseManager.

Definition __enter__ : Py unit := λ w,
  (Ret tt, sqlite3.set_conn (Connected None) w).

Definition __exit__ (exc_val : option exn) : Py unit :=
  match exc_val with
  | Some _ => logging ERROR "Database operation failed" exc_val
  | None => mret tt
  end;;
  sqlite3.commit;;
  sqlite3.close.

Definition setup_database : Py unit :=
  logging INFO "Setting up the database." None;;
  sqlite3.execute_create.

Definition save_to_database {RT : Runtime}
    (platform title price link description notes : pyval) : Py unit :=
  logging INFO ("Saving item '" +:+ builtins.str title +:+ "' to the database.") None;;
  sqlite3.execute_insert [platform; title; price; link; description; notes].

(** [with DatabaseManager() as db: body]: [__exit__] does not return a true
    value, so an exception of the body is raised again after it. *)
Definition with_ {A} (body : Py A) : Py A := λ w,
  match __enter__ w with
  | (Raise e, w1) => (Raise e, w1)
  | (Ret _, w1) =>
      match body w1 with
      | (Ret a, w2) =>
          match __exit__ None w2 with
          | (Ret _, w3) => (Ret a, w3)
          | (Raise e, w3) => (Raise e, w3)
          end
      | (Raise e, w2) =>
          match __exit__ (Some e) w2 with
          | (Ret _, w3) => (Raise e, w3)
          | (Raise e', w3) => (Raise e', w3)
          end
      end
  end.

End DatabaseManager.

(** ** A runtime to run the model on examples

    The statements below hold for every [Runtime].  To evaluate the program
    on concrete inputs, this one answers as CPython does on the inputs the
    examples use: [float] of an unsigned decimal literal that is short
    enough (at most 15 digits, the first before the point) for the one
    division below to round as the parser does, [float] of an integer, and
    [strip] of ASCII text.  Its other answers are arbitrary. *)

Module example_runtime.

Definition float_of_Z (z : Z) : float :=
  SF2Prim (binary_normalize prec emax z 0 false).

Definition float_of_int (z : Z) : option float :=
  let f := float_of_Z z in
  if PrimFloat.is_infinity f then None else Some f.

Definition digit (c : ascii) : option Z :=
  let n := Z.of_N (N_of_ascii c) in
  if bool_decide (48 ≤ n ≤ 57)%Z then Some (n - 48)%Z else None.

(** The digits of [s] as a number, with their count. *)
Fixpoint digits (s : string) (acc : Z) (count : nat) : option (Z * nat * string) :=
  match s with
  | EmptyString => Some (acc, count, EmptyString)
  | String c s' =>
      match digit c with
      | Some d => digits s' (10 * acc + d)%Z (S count)
      | None => Some (acc, count, s)
      end
  end.

(** The fraction digits go on from the integer digits. *)
Definition fraction (int_part : Z) (n_int : nat) (rest : string)
    : option (Z * nat * string) :=
  match rest with
  | String c frac =>
      if Ascii.eqb c "."%char then digits frac int_part n_int
      else Some (int_part, n_int, rest)
  | EmptyString => Some (int_part, n_int, rest)
  end.

Definition float_of_str (s : string) : option float :=
  match digits s 0 0 with
  | Some (int_part, n_int, rest) =>
      match fraction int_part n_int rest with
      | Some (mantissa, n_all, rest') =>
          if String.eqb rest' "" && (0 <? n_int)%nat && (n_all <=? 15)%nat
          then Some (float_of_Z mantissa
                     / float_of_Z (10 ^ Z.of_nat (n_all - n_int)))%float
          else None
      | None => None
      end
  | None => None
  end.

Definition is_space (c : ascii) : bool :=
  let n := N_of_ascii c in
  ((9 <=? n) && (n <=? 13) || (28 <=? n) && (n <=? 32))%N.

Fixpoint lstrip (s : string) : string :=
  match s with
  | EmptyString => EmptyString
  | String c s' => if is_space c then lstrip s' else s
  end.

Definition str_strip (s : string) : string :=
  String.rev (lstrip (String.rev (lstrip s))).

Definition runtime : Runtime :=
  Build_Runtime float_of_str float_of_int (λ _, "") (λ _, "") str_strip (λ _, "").

End example_runtime.

(** ** The vocabulary of the statements *)

Definition add_log (records : list log_record) (w : world) : world :=
  World (log w ++ records) (sent w) (file w) (conn w).

(** What one element contributes when the body of a loop runs on it alone:
    the record it appends, nothing, or the exception it raises. *)
Definition contribution {X D} (body : X → list D → res (list D)) (x : X)
    : res (option D) :=
  match body x [] with
  | Ret l => Ret (last l)
  | Raise e => Raise e
  end.

(** The record an element adds to the output, if it adds one. *)
Definition kept {X D} (body : X → list D → res (list D)) (x : X) : option D :=
  match contribution body x with
  | Ret o => o
  | Raise _ => None
  end.

(** The warning logged for an element whose exception is handled. *)
Definition warned {X D} (body : X → list D → res (list D)) (msg : string) (x : X)
    : option log_record :=
  match contribution body x with
  | Ret _ => None
  | Raise e => Some (LogRecord WARNING msg (Some e))
  end.

(** The body of a loop raises nothing on [x], or what the loop handles. *)
Definition handled {X D} (body : X → list D → res (list D)) (classes : exn → bool)
    (x : X) : Prop :=
  match contribution body x with
  | Ret _ => True
  | Raise e => classes e = true
  end.

(** The price ceiling as the code applies it: without a ceiling everything
    passes; with one, a known price that is not above it. *)
Definition within (max_price price : option float) : bool :=
  match max_price with
  | None => true
  | Some m =>
      match price with
      | Some p => PrimFloat.leb p m
      | None => false
      end
  end.

Definition is_dict (v : pyval) : bool :=
  match v with
  | PyDict _ => true
  | _ => false
  end.

Section vocabulary.
Context {RT : Runtime}.

Definition ebay_url (search_query : string) : string :=
  "https://www.ebay.com/sch/i.html?_nkw=" +:+ search_query.

Definition etsy_url (api_key search_query : string) : string :=
  "https://openapi.etsy.com/v2/listings/active?api_key=" +:+ api_key
  +:+ "&keywords=" +:+ search_query +:+ "&limit=10".

(** The loops of the two extractors. *)
Definition ebay_loop (max_price : option float) :=
  for_try (ebay_try max_price) (λ e, bool_decide (e = AttributeError))
    "Error parsing eBay item data: ".

Definition etsy_loop (max_price : option float) :=
  for_try (etsy_try max_price)
    (λ e, bool_decide (e = TypeError) || bool_decide (e = ValueError))
    "Error parsing Etsy item data: ".

(** The record logged at the end of a search. *)
Definition found (n : nat) (site : string) : log_record :=
  LogRecord INFO ("Found " +:+ pretty n +:+ " items on " +:+ site +:+ ".") None.

(** The listing blocks of a page, in document order. *)
Definition ebay_blocks (response : Response) : list bs4.node :=
  bs4.find_all "div" "s-item__info" (html_parser response).

(** The result objects of a payload, in the order of its [results]. *)
Definition etsy_results (response : Response) : res (list pyval) :=
  data ← json response;
  results ← builtins.get data "results" (PyList []);
  builtins.iter results.

(** The listing blocks [find_ebay_items] runs over: those of the page it
    fetched, none when the fetch failed. *)
Definition ebay_listing_blocks (E : environment) (search_query : string)
    (w : world) : list bs4.node :=
  match fetch_url E (ebay_url search_query) w with
  | (Ret response, _) => ebay_blocks response
  | (Raise _, _) => []
  end.

(** The result objects [find_etsy_items] runs over. *)
Definition etsy_result_objects (E : environment) (search_query : string)
    (w : world) : list pyval :=
  match fetch_url E (etsy_url (default "" (environ E !! "ETSY_API_KEY")) search_query) w with
  | (Ret response, _) =>
      match etsy_results response with
      | Ret results => results
      | Raise _ => []
      end
  | (Raise _, _) => []
  end.

Definition has_title (block : bs4.node) : bool :=
  match bs4.find "h3" "s-item__title" block with
  | Some _ => true
  | None => false
  end.

(** The block has its link, with an [href]. *)
Definition has_link (block : bs4.node) : bool :=
  match bs4.find "a" "s-item__link" block with
  | Some a =>
      match bs4.getitem a "href" with
      | Ret _ => true
      | Raise _ => false
      end
  | None => false
  end.

(** The numeric price of a block: absent without a price node, an
    exception when the text of the node is not a number. *)
Definition ebay_price_numeric (block : bs4.node) : res (option float) :=
  match bs4.find "span" "s-item__price" block with
  | Some t =>
      Some <$> builtins.float
        (PyStr (builtins.remove_char ","%char
                  (builtins.remove_char "$"%char (bs4.get_text t))))
  | None => Ret None
  end.

Definition ebay_price (block : bs4.node) : option float :=
  match ebay_price_numeric block with
  | Ret p => p
  | Raise _ => None
  end.

Definition price_parses (block : bs4.node) : bool :=
  match ebay_price_numeric block with
  | Ret _ => true
  | Raise _ => false
  end.

(** A block the extractor parses into a record. *)
Definition well_formed (block : bs4.node) : bool :=
  has_title block && price_parses block && has_link block.

(** The record of a block, whatever its price. *)
Definition ebay_record (block : bs4.node) : option (gmap string pyval) :=
  kept (ebay_try None) block.

(** The numeric price of a result object: absent when its price is
    ['N/A'] (or missing), an exception when [float] raises one. *)
Definition etsy_price_numeric (item : pyval) : res (option float) :=
  price ← builtins.get item "price" (PyStr "N/A");
  if builtins.is_NA price then Ret None else Some <$> builtins.float price.

Definition etsy_price (item : pyval) : option float :=
  match etsy_price_numeric item with
  | Ret p => p
  | Raise _ => None
  end.

(** The warning logged for a result object whose price [float] refuses. *)
Definition etsy_warning (item : pyval) : option log_record :=
  match etsy_price_numeric item with
  | Ret _ => None
  | Raise e => Some (LogRecord WARNING "Error parsing Etsy item data: " (Some e))
  end.

(** The price of a result object is ['N/A'], a number, or a value [float]
    refuses with a [TypeError] or a [ValueError]. *)
Definition etsy_price_handled (item : pyval) : Prop :=
  match etsy_price_numeric item with
  | Ret _ => True
  | Raise e => e = TypeError ∨ e = ValueError
  end.

(** The warning logged for a listing block without its title node. *)
Definition ebay_warning : log_record :=
  LogRecord WARNING "Error parsing eBay item data: " (Some AttributeError).

(** The record of a result object, whatever its price. *)
Definition etsy_record (item : pyval) : option (gmap string pyval) :=
  kept (etsy_try None) item.

(** The runtime with other conversions to [float]. *)
Definition with_float (fs : string → option float) (fi : Z → option float)
    : Runtime := {|
  float_of_str := fs;
  float_of_int := fi;
  str_of_float := str_of_float;
  str_of_container := str_of_container;
  str_strip := str_strip;
  text_of_real := text_of_real;
|}.
End vocabulary.

(** ** The vocabulary of the fetch and of the store *)

(** The outcome of one attempt of [fetch_url], the [n]-th request of the
    program: the response, or the exception of [requests.get] or of
    [raise_for_status]. *)
Definition attempt_outcome (E : environment) (n : nat) (url : string) : res Response :=
  match network E n url with
  | Ret r =>
      if bool_decide (400 ≤ status_code r < 600)%Z then Raise RequestException
      else Ret r
  | Raise e => Raise e
  end.

Definition add_sent (urls : list string) (w : world) : world :=
  World (log w) (sent w ++ urls) (file w) (conn w).

(** The table [listings] of a database. *)
Definition listings (db : database) : option table :=
  snd <$> List.find (λ p : string * table, String.eqb p.1 "listings") db.

(** The six values can be stored: each one binds, and platform, title and
    link are not NULL. *)
Definition storable (values : list pyval) : bool :=
  match sqlite3.bind_all values with
  | Ret _ => sqlite3.not_null_ok values
  | Raise _ => false
  end.

(** What the row of a save holds for the six values: each one as bound and
    then stored in a TEXT column. *)
Definition stored {RT : Runtime} (values : list pyval) : list sqlval :=
  match sqlite3.bind_all values with
  | Ret bound => sqlite3.text_affinity <$> bound
  | Raise _ => []
  end.

(** The table with one more row, under the key AUTOINCREMENT gives it, if
    a key is left. *)
Definition append_row (t : table) (values : list sqlval) : option table :=
  key ← sqlite3.new_rowid t;
  Some (Table (rows t ++ [Row key values]) key).

(** The table after rows with the given values were appended, one after
    the other. *)
Fixpoint append_rows (t : table) (values : list (list sqlval)) : option table :=
  match values with
  | [] => Some t
  | v :: rest => t' ← append_row t v; append_rows t' rest
  end.

(** The keys of a table are distinct and none is above the last one given
    out. *)
Definition keys_fresh (t : table) : Prop :=
  NoDup (row_id <$> rows t) ∧ Forall (λ r, (row_id r ≤ seq t)%Z) (rows t).

(** The keys of the table [listings] of a database, if it has the table. *)
Definition keys_fresh_in (db : database) : Prop :=
  ∀ t, listings db = Some t → keys_fresh t.

(** ** The terminal and the interactive session *)

(** What the program writes to the terminal: the prompt of an [input] call,
    or the argument of a [print] call. *)
Inductive event :=
| Prompted (s : string)
| Printed (s : string).

(** The terminal: the lines still to be read from standard input, and what
    was written so far, oldest first. *)
Record terminal := Terminal {
  stdin : list string;
  stdout : list event;
}.

(** [colorama.Fore]: the escape sequences of the colours. *)
Module Fore.
Definition RED : string := String "027"%char "[31m".
Definition GREEN : string := String "027"%char "[32m".
Definition YELLOW : string := String "027"%char "[33m".
Definition CYAN : string := String "027"%char "[36m".
End Fore.

(** The string methods the session calls that depend on Unicode case
    mappings. *)
Class StrMethods := {
  (** [s.lower()] *)
  str_lower : string → string;
  (** [s.capitalize()] *)
  str_capitalize : string → string;
}.

(** The computations of the session: they read and write the terminal and
    run the computations of [Py]. *)
Definition IO (A : Type) : Type := terminal → world → res A * terminal * world.

#[global] Instance IO_ret : MRet IO := λ A a t w, (Ret a, t, w).
#[global] Instance IO_bind : MBind IO := λ A B f m t w,
  match m t w with
  | (Ret a, t', w') => f a t' w'
  | (Raise e, t', w') => (Raise e, t', w')
  end.

Definition liftPy {A} (m : Py A) : IO A := λ t w,
  let (r, w') := m w in (r, t, w').

Definition liftres {A} (r : res A) : IO A := λ t w, (r, t, w).

(** [print(s)]. *)
Definition print (s : string) : IO unit := λ t w,
  (Ret tt, Terminal (stdin t) (stdout t ++ [Printed s]), w).

(** [EOFError], which [input] raises at the end of standard input. *)
Definition EOFError : exn := OtherException "EOFError".

(** [input(prompt)]: the prompt is written and one line is read. *)
Definition input (prompt : string) : IO string := λ t w,
  match stdin t with
  | [] => (Raise EOFError, Terminal [] (stdout t ++ [Prompted prompt]), w)
  | line :: rest => (Ret line, Terminal rest (stdout t ++ [Prompted prompt]), w)
  end.

Section session.
Context {RT : Runtime} {SM : StrMethods} (E : environment).

(** The loop of [get_user_input] on the lines of standard input: every
    iteration reads one line, so the loop is a recursion on the lines that
    are left (it ends at the latest when [input] raises [EOFError]). *)
Fixpoint get_user_input_lines (prompt : string)
    (validator : option (string → res bool)) (lines : list string)
    (out : list event) : res string * terminal :=
  let out := out ++ [Prompted (Fore.CYAN +:+ prompt)] in
  match lines with
  | [] => (Raise EOFError, Terminal [] out)
  | line :: rest =>
      let user_input := str_strip line in
      match
        match validator with
        | Some v => negb <$> v user_input
        | None => Ret false
        end
      with
      | Raise e => (Raise e, Terminal rest out)
      | Ret true =>
          get_user_input_lines prompt validator rest
            (out ++ [Printed (Fore.RED +:+ "Invalid input, please try again.")])
      | Ret false => (Ret user_input, Terminal rest out)
      end
  end.

Definition get_user_input (prompt : string)
    (validator : option (string → res bool)) : IO string := λ t w,
  let (r, t') := get_user_input_lines prompt validator (stdin t) (stdout t) in
  (r, t', w).

Definition is_float (value : pyval) : res bool :=
  match builtins.float value with
  | Ret _ => Ret true
  | Raise ValueError => Ret false
  | Raise e => Raise e
  end.

(** [lambda x: x.lower() in ['ebay', 'etsy']] *)
Definition platform_validator (x : string) : res bool :=
  Ret (String.eqb (str_lower x) "ebay" || String.eqb (str_lower x) "etsy").

(** [lambda x: len(x) > 0] *)
Definition query_validator (x : string) : res bool :=
  Ret (0 <? String.length x)%nat.

(** [lambda x: is_float(x) or x == ''] *)
Definition price_validator (x : string) : res bool :=
  b ← is_float (PyStr x);
  Ret (b || String.eqb x "").

(** [d[key]] on a dict. *)
Definition dict_getitem (d : gmap string pyval) (key : string) : res pyval :=
  match d !! key with
  | Some v => Ret v
  | None => Raise KeyError
  end.

(** [with DatabaseManager() as db: body] in the session. *)
Definition with_DatabaseManager {A} (body : IO A) : IO A := λ t w,
  match liftPy DatabaseManager.__enter__ t w with
  | (Raise e, t1, w1) => (Raise e, t1, w1)
  | (Ret _, t1, w1) =>
      match body t1 w1 with
      | (Ret a, t2, w2) =>
          match liftPy (DatabaseManager.__exit__ None) t2 w2 with
          | (Ret _, t3, w3) => (Ret a, t3, w3)
          | (Raise e, t3, w3) => (Raise e, t3, w3)
          end
      | (Raise e, t2, w2) =>
          match liftPy (DatabaseManager.__exit__ (Some e)) t2 w2 with
          | (Ret _, t3, w3) => (Raise e, t3, w3)
          | (Raise e', t3, w3) => (Raise e', t3, w3)
          end
      end
  end.

(** The [for item in items] loop of [main].  The item is not changed in
    the body, so its fields are read once. *)
Fixpoint save_items (platform : string) (items : list (gmap string pyval))
    : IO unit :=
  match items with
  | [] => mret tt
  | item :: rest =>
      title ← liftres (dict_getitem item "title");
      price ← liftres (dict_getitem item "price");
      link ← liftres (dict_getitem item "link");
      print (Fore.GREEN +:+ "Title: " +:+ builtins.str title +:+ ", Price: "
             +:+ builtins.str price +:+ ", Link: " +:+ builtins.str link);;
      let description := default (PyStr "N/A") (item !! "description") in
      notes ← get_user_input ("Enter notes for '" +:+ builtins.str title +:+ "': ")
                None;
      liftPy (DatabaseManager.save_to_database
                (PyStr (str_capitalize platform)) title price link description
                (PyStr (str_strip notes)));;
      save_items platform rest
  end.

Definition main : IO unit :=
  with_DatabaseManager
    (liftPy DatabaseManager.setup_database;;
     platform ← get_user_input "Enter the platform to search (eBay or Etsy): "
                  (Some platform_validator);
     search_query ← get_user_input "Enter the item you want to search for: "
                      (Some query_validator);
     max_price_input ← get_user_input
                         "Enter the maximum price (or leave blank for no limit): "
                         (Some price_validator);
     max_price ← (if String.eqb max_price_input "" then mret None
                  else liftres (Some <$> builtins.float (PyStr max_price_input)));
     items ← liftPy (if String.eqb (str_lower platform) "ebay"
                     then find_ebay_items E search_query max_price
                     else find_etsy_items E search_query max_price);
     match items with
     | [] => print (Fore.YELLOW +:+ "No items found.")
     | _ :: _ => save_items platform items
     end).
End session.

(** ** The vocabulary of the session *)

(** What the terminal shows for the lines [get_user_input] rejects: the
    prompt and the complaint, once for each. *)
Definition reprompts (prompt : string) (rejected : list string) : list event :=
  rejected ≫= λ _, [Prompted (Fore.CYAN +:+ prompt);
                    Printed (Fore.RED +:+ "Invalid input, please try again.")].

(** The validator accepts the input: there is none, or it answers true. *)
Definition accepts (validator : option (string → res bool)) (s : string) : Prop :=
  match validator with
  | Some v => v s = Ret true
  | None => True
  end.

(** The validator rejects the input. *)
Definition rejects (validator : option (string → res bool)) (s : string) : Prop :=
  match validator with
  | Some v => v s = Ret false
  | None => False
  end.

Section session_vocabulary.
Context {RT : Runtime} {SM : StrMethods}.

(** The search [main] runs for the platform the user entered. *)
Definition search (E : environment) (platform search_query : string)
    (max_price : option float) : Py (list (gmap string pyval)) :=
  if String.eqb (str_lower platform) "ebay"
  then find_ebay_items E search_query max_price
  else find_etsy_items E search_query max_price.

(** The ceiling for the entered text: none for the empty text. *)
Definition max_price_of (max_price_input : string) : option float :=
  if String.eqb max_price_input "" then None else float_of_str max_price_input.

(** The state once [main] has entered the store and set up the schema. *)
Definition ready (w : world) : world :=
  World (log w ++ [LogRecord INFO "Setting up the database." None]) (sent w)
    (sqlite3.create_table_if_not_exists "listings" (file w)) (Connected None).

(** The six values [main] saves for an item and the line of notes read for
    it. *)
Definition saved_values (platform : string) (item : gmap string pyval)
    (note : string) : list pyval :=
  [PyStr (str_capitalize platform);
   default PyNone (item !! "title");
   default PyNone (item !! "price");
   default PyNone (item !! "link");
   default (PyStr "N/A") (item !! "description");
   PyStr (str_strip (str_strip note))].

(** The item has the three fields [main] reads and its values can be
    stored. *)
Definition saveable (platform : string) (item : gmap string pyval)
    (note : string) : Prop :=
  is_Some (item !! "title") ∧ is_Some (item !! "price") ∧ is_Some (item !! "link")
  ∧ storable (saved_values platform item note) = true.

(** What the row of an item holds. *)
Definition stored_values (platform : string) (item : gmap string pyval)
    (note : string) : list sqlval :=
  stored (saved_values platform item note).

(** The exception of a save whose values cannot be stored: the one of the
    binding, or the one of the constraint. *)
Definition save_error (values : list pyval) : exn :=
  match sqlite3.bind_all values with
  | Raise e => e
  | Ret _ => sqlite3_Error
  end.

(** What [main] shows for the items and the notes it reads for them. *)
Definition shown (items : list (gmap string pyval)) : list event :=
  items ≫= λ item,
    [Printed (Fore.GREEN +:+ "Title: " +:+ builtins.str (default PyNone (item !! "title"))
              +:+ ", Price: " +:+ builtins.str (default PyNone (item !! "price"))
              +:+ ", Link: " +:+ builtins.str (default PyNone (item !! "link")));
     Prompted (Fore.CYAN +:+ "Enter notes for '"
               +:+ builtins.str (default PyNone (item !! "title")) +:+ "': ")].
End session_vocabulary.

(** ** String methods to run the session on examples

    [lower] and [capitalize] as CPython computes them on ASCII text; other
    bytes are left as they are. *)

Module example_methods.

Definition lower_char (c : ascii) : ascii :=
  let n := N_of_ascii c in
  if ((65 <=? n) && (n <=? 90))%N then ascii_of_N (n + 32) else c.

Definition upper_char (c : ascii) : ascii :=
  let n := N_of_ascii c in
  if ((97 <=? n) && (n <=? 122))%N then ascii_of_N (n - 32) else c.

Fixpoint lower (s : string) : string :=
  match s with
  | EmptyString => EmptyString
  | String c s' => String (lower_char c) (lower s')
  end.

Definition capitalize (s : string) : string :=
  match s with
  | EmptyString => EmptyString
  | String c s' => String (upper_char c) (lower s')
  end.

Definition methods : StrMethods := Build_StrMethods lower capitalize.

End example_methods.


(** ** Example inputs *)

Module examples.
Import bs4.

(** A tag with one class. *)
Definition tag (name class : string) (attrs : list (string * attr))
    (children : list node) : node :=
  Tag name (<["class" := AttrList [class]]> (list_to_map attrs)) children.

Definition title (text : string) : node :=
  tag "h3" "s-item__title" [] [NavigableString text].

Definition link (href : string) (children : list node) : node :=
  tag "a" "s-item__link" [("href", AttrStr href)] children.

Definition price (text : string) : node :=
  tag "span" "s-item__price" [] [NavigableString text].

Definition block (children : list node) : node :=
  tag "div" "s-item__info" [] children.

Definition document (children : list node) : node :=
  Tag "[document]" ∅ children.

(** The listing of the spec: title "Vintage Lamp", price "$45.00", link
    "http://x/1", no subtitle. *)
Definition lamp : node :=
  block [link "http://x/1" [title "Vintage Lamp"]; price "$45.00"].

(** A listing without a price node. *)
Definition sofa : node :=
  block [link "http://x/2" [title "Sofa"]].

(** A listing without its title node. *)
Definition untitled : node :=
  block [link "http://x/3" []; price "$5.00"].

(** A listing with a title and no link. *)
Definition unlinked : node :=
  block [title "Chair"].

(** A listing whose title node holds no text. *)
Definition blank : node :=
  block [link "http://x/4" [tag "h3" "s-item__title" [] []]].

Definition page (soup : node) : Response :=
  {| status_code := 200; html_parser := soup; json := Raise RequestException |}.

Definition api (payload : pyval) : Response :=
  {| status_code := 200; html_parser := document []; json := Ret payload |}.

(** An environment with the Etsy key set, in which every request is
    answered by [response]. *)
Definition serving (response : Response) : environment :=
  {| environ := {["ETSY_API_KEY" := "key"]}; network := λ _ _, Ret response |}.

(** The same network without the key. *)
Definition keyless (response : Response) : environment :=
  {| environ := ∅; network := λ _ _, Ret response |}.

Definition object (fields : list (string * pyval)) : pyval :=
  PyDict (list_to_map fields).

(** [{"results":[{"title":"Mug","price":"12","url":"http://y/2"}]}]. *)
Definition mug : pyval :=
  object [("title", PyStr "Mug"); ("price", PyStr "12"); ("url", PyStr "http://y/2")].

Definition mug_payload : pyval :=
  object [("results", PyList [mug])].

(** A result object whose price is not a number. *)
Definition vase : pyval :=
  object [("title", PyStr "Vase"); ("price", PyStr "call us"); ("url", PyStr "http://y/3")].

(** A result object with an empty title. *)
Definition nameless : pyval :=
  object [("title", PyStr ""); ("price", PyStr "3"); ("url", PyStr "http://y/4")].

(** A market: eBay answers with the page [soup], Etsy with [payload]. *)
Definition market (soup : node) (payload : pyval) : environment :=
  {| environ := {["ETSY_API_KEY" := "key"]};
     network := λ _ url,
       if String.prefix "https://www.ebay.com/" url
       then Ret (page soup) else Ret (api payload) |}.

Definition results (items : list pyval) : pyval :=
  object [("results", PyList items)].

(** A session that saves one listing and then fails to save another, whose
    title is [None]. *)
Definition session {RT : Runtime} : Py unit :=
  DatabaseManager.setup_database;;
  DatabaseManager.save_to_database (PyStr "Etsy") (PyStr "Mug") (PyStr "$12")
    (PyStr "http://y/2") (PyStr "N/A") (PyStr "a gift");;
  DatabaseManager.save_to_database (PyStr "Etsy") PyNone (PyStr "$3")
    (PyStr "http://y/4") (PyStr "N/A") (PyStr "").

(** The row the session saves. *)
Definition saved : database :=
  [("listings",
    Table [Row 1 [TEXT "Etsy"; TEXT "Mug"; TEXT "$12"; TEXT "http://y/2";
                  TEXT "N/A"; TEXT "a gift"]] 1)].

(** A listing whose price is a range. *)
Definition ranged : node :=
  block [link "http://x/5" [title "Desk"]; price "$10.00 to $20.00"].

(** The state at the start of the program. *)
Definition start : world :=
  World [] [] [] Unset.

(** The state after one request to [url]. *)
Definition after (url : string) : world :=
  World [] [url] [] Unset.


(** A server that answers every request with the status 503. *)
Definition unavailable : Response :=
  {| status_code := 503; html_parser := document []; json := Raise RequestException |}.

(** The terminal with the lines [lines] typed ahead and nothing written. *)
Definition typed (lines : list string) : terminal :=
  Terminal lines [].

(** The three prompts of [main]. *)
Definition ask_platform : event :=
  Prompted (Fore.CYAN +:+ "Enter the platform to search (eBay or Etsy): ").
Definition ask_query : event :=
  Prompted (Fore.CYAN +:+ "Enter the item you want to search for: ").
Definition ask_price : event :=
  Prompted (Fore.CYAN +:+ "Enter the maximum price (or leave blank for no limit): ").
Definition complaint : event :=
  Printed (Fore.RED +:+ "Invalid input, please try again.").

(** A result object whose title is [null]. *)
Definition untitled_object : pyval :=
  object [("title", PyNone); ("price", PyStr "3"); ("url", PyStr "http://y/5")].

(** A result object with a title only. *)
Definition bowl : pyval :=
  object [("title", PyStr "Bowl")].

(** A result object whose title is a number. *)
Definition numbered : pyval :=
  object [("title", PyInt 7); ("price", PyStr "3"); ("url", PyStr "http://y/7")].

(** The record of "Vintage Lamp" and the record of "Mug". *)
Definition lamp_record : gmap string pyval :=
  item_dict (PyStr "Vintage Lamp") (PyStr "$45.00") (PyStr "http://x/1") (PyStr "N/A").
Definition mug_record : gmap string pyval :=
  item_dict (PyStr "Mug") (PyStr "$12") (PyStr "http://y/2") (PyStr "N/A").
Definition untitled_record : gmap string pyval :=
  item_dict PyNone (PyStr "$3") (PyStr "http://y/5") (PyStr "N/A").
Definition numbered_record : gmap string pyval :=
  item_dict (PyInt 7) (PyStr "$3") (PyStr "http://y/7") (PyStr "N/A").

(** The table [listings] of a fresh file after "Mug" was saved with the
    notes "gift", and after the numbered item was saved too, with the
    notes "x". *)
Definition mug_saved : table :=
  Table [Row 1 [TEXT "Etsy"; TEXT "Mug"; TEXT "$12"; TEXT "http://y/2";
                TEXT "N/A"; TEXT "gift"]] 1.
Definition both_saved : table :=
  Table [Row 1 [TEXT "Etsy"; TEXT "Mug"; TEXT "$12"; TEXT "http://y/2";
                TEXT "N/A"; TEXT "gift"];
         Row 2 [TEXT "Etsy"; TEXT "7"; TEXT "$3"; TEXT "http://y/7";
                TEXT "N/A"; TEXT "x"]] 2.

(** The state of [main] after the schema was set up in a fresh file. *)
Definition set_up : world :=
  World [LogRecord INFO "Setting up the database." None] []
    [("listings", Table [] 0)] (Connected None).

(** The terminal after each of the three prompts of [main], when every
    answer was accepted at once and [lines] are left. *)
Definition after_platform (lines : list string) : terminal :=
  Terminal lines [ask_platform].
Definition after_query (lines : list string) : terminal :=
  Terminal lines [ask_platform; ask_query].
Definition after_price (lines : list string) : terminal :=
  Terminal lines [ask_platform; ask_query; ask_price].

(** The state of [main] after a search that logged [records] and sent
    [urls]. *)
Definition searched (records : list log_record) (urls : list string) : world :=
  World (LogRecord INFO "Setting up the database." None :: records) urls
    [("listings", Table [] 0)] (Connected None).
End examples.

(** Case analysis on what the body of the eBay loop consults. *)
Ltac body_step :=
  match goal with
  | |- context [bs4.find ?n ?c ?b] => destruct (bs4.find n c b)
  | |- context [float_of_str ?s] => destruct (float_of_str s)
  | |- context [bs4.getitem ?a ?k] => destruct (bs4.getitem a k)
  | |- context [PrimFloat.leb ?p ?m] => destruct (PrimFloat.leb p m)
  end; cbn.

(** A [Forall] over a literal list, each element by evaluation. *)
Ltac each_by_computation :=
  repeat match goal with
         | |- Forall _ (_ :: _) => constructor; [vm_compute; reflexivity|]
         | |- Forall _ [] => constructor
         end.

(** ** The loop of the extractors *)

Lemma add_log_nil w : add_log [] w = w.
Proof. destruct w. unfold add_log. simpl. by rewrite app_nil_r. Qed.

Lemma add_log_app l1 l2 w : add_log l2 (add_log l1 w) = add_log (l1 ++ l2) w.
Proof. unfold add_log. simpl. by rewrite app_assoc. Qed.

Section for_try_lemmas.
Context {X D : Type} (body : X → list D → res (list D)).
Context (classes : exn → bool) (msg : string).

(** The body appends what the element contributes, and nothing else. *)
Hypothesis appends : ∀ x items,
  body x items = o ← contribution body x; Ret (items ++ option_list o).

Lemma for_try_step x rest items w :
  for_try body classes msg (x :: rest) items w =
    match contribution body x with
    | Ret o => for_try body classes msg rest (items ++ option_list o) w
    | Raise e =>
        if classes e
        then for_try body classes msg rest items
               (add_log [LogRecord WARNING msg (Some e)] w)
        else (Raise e, w)
    end.
Proof.
  cbn [for_try]. unfold mbind at 1, Py_bind, try_except, lift.
  rewrite appends. destruct (contribution body x) as [o|e]; [done|].
  cbn. by destruct (classes e).
Qed.

Lemma for_try_handled xs : ∀ items w,
  Forall (handled body classes) xs →
  for_try body classes msg xs items w =
    (Ret (items ++ omap (kept body) xs), add_log (omap (warned body msg) xs) w).
Proof.
  induction xs as [|x xs IH]; intros items w Hall.
  - cbn. by rewrite app_nil_r, add_log_nil.
  - apply Forall_cons in Hall as [Hx Hxs]. rewrite for_try_step.
    unfold handled in Hx. cbn [omap list_omap]. unfold kept, warned.
    destruct (contribution body x) as [o|e].
    + rewrite IH by done. destruct o; cbn; by rewrite <-?app_assoc, ?app_nil_r.
    + rewrite Hx, IH by done. by rewrite add_log_app.
Qed.

Lemma for_try_inv xs : ∀ items w out w',
  for_try body classes msg xs items w = (Ret out, w') →
  ∃ sel recs,
    sel `sublist_of` xs
    ∧ Forall2 (λ x d, contribution body x = Ret (Some d)) sel recs
    ∧ out = items ++ recs.
Proof.
  induction xs as [|x xs IH]; intros items w out w' Hrun.
  - cbn in Hrun. inversion Hrun; subst. exists [], []. by rewrite app_nil_r.
  - rewrite for_try_step in Hrun.
    destruct (contribution body x) as [[d|]|e] eqn:Hx.
    + apply IH in Hrun as (sel & recs & Hsub & Hall & ->).
      exists (x :: sel), (d :: recs). split_and!.
      * by apply sublist_skip.
      * by constructor.
      * cbn. by rewrite <-app_assoc.
    + apply IH in Hrun as (sel & recs & Hsub & Hall & ->).
      exists sel, recs. cbn. rewrite app_nil_r. split_and!; [|done..].
      by apply sublist_cons.
    + destruct (classes e); [|done].
      apply IH in Hrun as (sel & recs & Hsub & Hall & ->).
      exists sel, recs. split_and!; [|done..]. by apply sublist_cons.
Qed.

(** A loop that returns has met only exceptions it handles. *)
Lemma for_try_returns xs : ∀ items w out w',
  for_try body classes msg xs items w = (Ret out, w') →
  Forall (handled body classes) xs.
Proof.
  induction xs as [|x xs IH]; intros items w out w' Hrun; [constructor|].
  rewrite for_try_step in Hrun. unfold handled at 1.
  destruct (contribution body x) as [o|e] eqn:Hx.
  - constructor; [by rewrite Hx|]. by eapply IH.
  - destruct (classes e) eqn:He; [|done].
    constructor; [by rewrite Hx|]. by eapply IH.
Qed.
End for_try_lemmas.

(** ** The bodies of the two loops *)

Section bodies.
Context {RT : Runtime}.

Lemma ebay_try_appends max_price block items :
  ebay_try max_price block items =
    o ← contribution (ebay_try max_price) block; Ret (items ++ option_list o).
Proof.
  unfold contribution, ebay_try. destruct max_price; cbn;
    repeat body_step; by rewrite ?app_nil_r.
Qed.

(** With a ceiling, the block contributes its record when its price is
    known and within the ceiling, and nothing otherwise. *)
Lemma ebay_kept max_price block :
  kept (ebay_try max_price) block =
    if within max_price (ebay_price block) then ebay_record block else None.
Proof.
  unfold ebay_record, kept, contribution, ebay_try, ebay_price,
    ebay_price_numeric, within.
  destruct max_price; cbn; repeat body_step; done.
Qed.

Lemma etsy_try_appends max_price item items :
  etsy_try max_price item items =
    o ← contribution (etsy_try max_price) item; Ret (items ++ option_list o).
Proof.
  unfold contribution, etsy_try.
  destruct item; try done. cbn.
  destruct max_price as [m|]; cbn; [|done].
  destruct (builtins.is_NA _); cbn; [by rewrite app_nil_r|].
  destruct (builtins.float _) as [p|e]; [|done]. cbn.
  destruct (p <=? m)%float; cbn; by rewrite ?app_nil_r.
Qed.

Lemma etsy_kept max_price item :
  kept (etsy_try max_price) item =
    if within max_price (etsy_price item) then etsy_record item else None.
Proof.
  unfold etsy_record, kept, contribution, etsy_try, etsy_price,
    etsy_price_numeric, within.
  destruct item; cbn; try by repeat case_match.
  destruct max_price as [m|]; cbn; [|done].
  destruct (builtins.is_NA _); cbn; [done|].
  destruct (builtins.float _) as [p|e]; cbn; [|done].
  by destruct (p <=? m)%float.
Qed.
End bodies.

(** ** Running the monad *)

Lemma bind_run {A B} (m : Py A) (f : A → Py B) w :
  (m ≫= f) w =
    match m w with
    | (Ret a, w') => f a w'
    | (Raise e, w') => (Raise e, w')
    end.
Proof. reflexivity. Qed.

Lemma ret_run {A} (a : A) w : (mret a : Py A) w = (Ret a, w).
Proof. reflexivity. Qed.

Lemma try_except_run {A} (body : Py A) classes handler w :
  try_except body classes handler w =
    match body w with
    | (Ret a, w') => (Ret a, w')
    | (Raise e, w') => if classes e then handler e w' else (Raise e, w')
    end.
Proof. reflexivity. Qed.

Lemma logging_run l msg e w :
  logging l msg e w = (Ret tt, add_log [LogRecord l msg e] w).
Proof. reflexivity. Qed.

(** ** The two searches, by the outcome of the fetch *)

Section searches.
Context {RT : Runtime} (E : environment).

Lemma find_ebay_items_fetched q mp w response w1 :
  fetch_url E (ebay_url q) w = (Ret response, w1) →
  find_ebay_items E q mp w =
    match ebay_loop mp (ebay_blocks response) [] w1 with
    | (Ret items, w2) => (Ret items, add_log [found (length items) "eBay"] w2)
    | (Raise e, w2) => (Raise e, w2)
    end.
Proof.
  intros Hfetch. unfold find_ebay_items. cbv zeta. fold (ebay_url q).
  rewrite bind_run, try_except_run, bind_run, Hfetch.
  cbv beta iota. rewrite ret_run. cbv beta iota. rewrite bind_run.
  unfold ebay_loop, ebay_blocks.
  destruct (for_try _ _ _ _ _ _) as [[items|e] w2]; done.
Qed.

Lemma find_ebay_items_failed q mp w e w1 :
  fetch_url E (ebay_url q) w = (Raise e, w1) →
  find_ebay_items E q mp w =
    if bool_decide (e = RequestException)
    then (Ret [], add_log [LogRecord ERROR "Failed to retrieve eBay items: " (Some e)] w1)
    else (Raise e, w1).
Proof.
  intros Hfetch. unfold find_ebay_items. cbv zeta. fold (ebay_url q).
  rewrite bind_run, try_except_run, bind_run, Hfetch.
  cbv beta iota. by destruct (bool_decide (e = RequestException)).
Qed.

Lemma find_etsy_items_no_key q mp w :
  falsy (environ E !! "ETSY_API_KEY") = true →
  find_etsy_items E q mp w =
    (Ret [],
     add_log [LogRecord ERROR
                "Etsy API key not found. Please set the ETSY_API_KEY environment variable."
                None] w).
Proof. intros Hkey. unfold find_etsy_items. cbv zeta. by rewrite Hkey. Qed.

Lemma find_etsy_items_fetched q mp w response w1 :
  falsy (environ E !! "ETSY_API_KEY") = false →
  fetch_url E (etsy_url (default "" (environ E !! "ETSY_API_KEY")) q) w
    = (Ret response, w1) →
  find_etsy_items E q mp w =
    match json response with
    | Raise e =>
        if bool_decide (e = RequestException)
        then (Ret [], add_log [LogRecord ERROR "Failed to retrieve Etsy items: " (Some e)] w1)
        else (Raise e, w1)
    | Ret data =>
        match results ← builtins.get data "results" (PyList []); builtins.iter results with
        | Raise e => (Raise e, w1)
        | Ret results =>
            match etsy_loop mp results [] w1 with
            | (Ret items, w2) => (Ret items, add_log [found (length items) "Etsy"] w2)
            | (Raise e, w2) => (Raise e, w2)
            end
        end
    end.
Proof.
  intros Hkey Hfetch. unfold find_etsy_items. cbv zeta. rewrite Hkey.
  fold (etsy_url (default "" (environ E !! "ETSY_API_KEY")) q).
  rewrite bind_run, try_except_run, bind_run, Hfetch.
  cbv beta iota. rewrite bind_run. unfold lift at 1.
  destruct (json response) as [data|e]; cbv beta iota.
  - rewrite ret_run. cbv beta iota. rewrite bind_run. unfold lift at 1.
    destruct (builtins.get data "results" (PyList [])) as [results|e]; [|done].
    cbn [mbind res_bind]. rewrite bind_run. unfold lift at 1.
    destruct (builtins.iter results) as [l|e]; [|done].
    rewrite bind_run. unfold etsy_loop.
    destruct (for_try _ _ _ _ _ _) as [[items|e] w2]; done.
  - by destruct (bool_decide (e = RequestException)).
Qed.

Lemma find_etsy_items_failed q mp w e w1 :
  falsy (environ E !! "ETSY_API_KEY") = false →
  fetch_url E (etsy_url (default "" (environ E !! "ETSY_API_KEY")) q) w
    = (Raise e, w1) →
  find_etsy_items E q mp w =
    if bool_decide (e = RequestException)
    then (Ret [], add_log [LogRecord ERROR "Failed to retrieve Etsy items: " (Some e)] w1)
    else (Raise e, w1).
Proof.
  intros Hkey Hfetch. unfold find_etsy_items. cbv zeta. rewrite Hkey.
  fold (etsy_url (default "" (environ E !! "ETSY_API_KEY")) q).
  rewrite bind_run, try_except_run, bind_run, Hfetch.
  cbv beta iota. by destruct (bool_decide (e = RequestException)).
Qed.

(** A search that returns, returns records of sources it ran over, in
    their order. *)
Lemma find_ebay_items_inv q mp w out w' :
  find_ebay_items E q mp w = (Ret out, w') →
  ∃ sel,
    sel `sublist_of` ebay_listing_blocks E q w
    ∧ Forall2 (λ b d, contribution (ebay_try mp) b = Ret (Some d)) sel out.
Proof.
  intros Hrun. unfold ebay_listing_blocks.
  destruct (fetch_url E (ebay_url q) w) as [[response|e] w1] eqn:Hfetch.
  - rewrite (find_ebay_items_fetched _ _ _ _ _ Hfetch) in Hrun.
    destruct (ebay_loop mp (ebay_blocks response) [] w1) as [[items|e] w2] eqn:Hloop;
      [|done].
    inversion Hrun; subst. unfold ebay_loop in Hloop.
    apply for_try_inv in Hloop as (sel & recs & Hsub & Hall & ->);
      [|apply ebay_try_appends].
    by exists sel.
  - rewrite (find_ebay_items_failed _ _ _ _ _ Hfetch) in Hrun.
    destruct (bool_decide (e = RequestException)); [|done].
    inversion Hrun; subst. exists []. split; [apply sublist_nil_l|constructor].
Qed.

Lemma find_etsy_items_inv q mp w out w' :
  find_etsy_items E q mp w = (Ret out, w') →
  ∃ sel,
    sel `sublist_of` etsy_result_objects E q w
    ∧ Forall2 (λ x d, contribution (etsy_try mp) x = Ret (Some d)) sel out.
Proof.
  intros Hrun.
  assert (Hnil : out = [] → ∃ sel,
    sel `sublist_of` etsy_result_objects E q w
    ∧ Forall2 (λ x d, contribution (etsy_try mp) x = Ret (Some d)) sel out).
  { intros ->. exists []. split; [apply sublist_nil_l|constructor]. }
  destruct (falsy (environ E !! "ETSY_API_KEY")) eqn:Hkey.
  { rewrite find_etsy_items_no_key in Hrun by done. simplify_eq. by apply Hnil. }
  unfold etsy_result_objects, etsy_results in *.
  destruct (fetch_url E _ w) as [[response|e] w1] eqn:Hfetch.
  - rewrite (find_etsy_items_fetched _ _ _ _ _ Hkey Hfetch) in Hrun.
    destruct (json response) as [data|e]; cbn [mbind res_bind].
    + destruct (results ← builtins.get data "results" (PyList []); builtins.iter results)
        as [results|e]; [|done].
      destruct (etsy_loop mp results [] w1) as [[items|e] w2] eqn:Hloop; [|done].
      inversion Hrun; subst. unfold etsy_loop in Hloop.
      apply for_try_inv in Hloop as (sel & recs & Hsub & Hall & ->);
        [|apply etsy_try_appends].
      by exists sel.
    + destruct (bool_decide (e = RequestException)); [|done].
      simplify_eq. by apply Hnil.
  - rewrite (find_etsy_items_failed _ _ _ _ _ Hkey Hfetch) in Hrun.
    destruct (bool_decide (e = RequestException)); [|done].
    simplify_eq. by apply Hnil.
Qed.
End searches.

(** ** Listing blocks *)

Lemma omap_filter {A B} (f : A → option B) (P : A → bool) (l : list A) :
  omap f (List.filter P l) = omap (λ x, if P x then f x else None) l.
Proof.
  induction l as [|x l IH]; [done|]. cbn. destruct (P x); cbn; by rewrite IH.
Qed.

Section blocks.
Context {RT : Runtime}.

Lemma well_formed_record block :
  well_formed block = true → is_Some (ebay_record block).
Proof.
  unfold well_formed, has_title, price_parses, has_link, ebay_price_numeric,
    ebay_record, kept, contribution, ebay_try.
  repeat body_step; intros; by eauto.
Qed.

Lemma well_formed_handled max_price block :
  well_formed block = true →
  ∃ o, contribution (ebay_try max_price) block = Ret o.
Proof.
  unfold well_formed, has_title, price_parses, has_link, ebay_price_numeric,
    contribution, ebay_try.
  destruct max_price; repeat body_step; intros; by eauto.
Qed.

Lemma untitled_contribution max_price block :
  has_title block = false →
  contribution (ebay_try max_price) block = Raise AttributeError.
Proof.
  unfold has_title, contribution, ebay_try.
  by destruct (bs4.find "h3" "s-item__title" block).
Qed.

Lemma untitled_not_well_formed block :
  has_title block = false → well_formed block = false.
Proof. unfold well_formed. by intros ->. Qed.

(** The blocks that have a record are the well-formed ones. *)
Lemma record_well_formed block :
  is_Some (ebay_record block) ↔ well_formed block = true.
Proof.
  split; [|apply well_formed_record].
  unfold well_formed, has_title, price_parses, has_link, ebay_price_numeric,
    ebay_record, kept, contribution, ebay_try.
  repeat body_step; by intros [? [=]].
Qed.

Lemma getitem_raises a key e :
  bs4.getitem a key = Raise e → e ≠ AttributeError.
Proof.
  unfold bs4.getitem. destruct a; repeat case_match; congruence.
Qed.

(** The loop handles a block only when it lacks its title or is well
    formed. *)
Lemma handled_block max_price block :
  handled (ebay_try max_price) (λ e, bool_decide (e = AttributeError)) block →
  has_title block = false ∨ well_formed block = true.
Proof.
  unfold handled, contribution, ebay_try, well_formed, has_title, price_parses,
    has_link, ebay_price_numeric.
  destruct (bs4.find "h3" "s-item__title" block) as [h3|]; cbn; [|by left].
  destruct (bs4.find "span" "s-item__price" block) as [t|]; cbn.
  - destruct (float_of_str _) as [p|]; cbn; [|done].
    destruct (bs4.find "a" "s-item__link" block) as [a|]; cbn; [|done].
    destruct (bs4.getitem a "href") as [href|e] eqn:Hhref; cbn; [by right|].
    intros He. apply bool_decide_eq_true in He. by apply getitem_raises in Hhref.
  - destruct (bs4.find "a" "s-item__link" block) as [a|]; cbn; [|done].
    destruct (bs4.getitem a "href") as [href|e] eqn:Hhref; cbn; [by right|].
    intros He. apply bool_decide_eq_true in He. by apply getitem_raises in Hhref.
Qed.

(** What the loop does on a page whose blocks are well formed or lack
    their title. *)
Lemma ebay_loop_blocks max_price blocks w :
  Forall (λ b, has_title b = false ∨ well_formed b = true) blocks →
  ebay_loop max_price blocks [] w =
    (Ret (omap ebay_record
            (List.filter (λ b, within max_price (ebay_price b)) blocks)),
     add_log (replicate (length (List.filter (λ b, negb (has_title b)) blocks))
                ebay_warning) w).
Proof.
  intros Hall. unfold ebay_loop.
  rewrite (for_try_handled _ _ _ (ebay_try_appends max_price)).
  - cbn [app]. f_equal.
    + f_equal. rewrite omap_filter. apply list_omap_ext.
      induction blocks; constructor; [apply ebay_kept|].
      apply IHblocks. by eapply Forall_inv_tail.
    + f_equal. induction Hall as [|b blocks [Hb|Hb] _ IH]; [done|..]; cbn.
      * unfold warned at 1. rewrite untitled_contribution, Hb by done.
        cbn. by rewrite IH.
      * unfold warned at 1.
        destruct (well_formed_handled max_price b Hb) as [o ->].
        assert (has_title b = true) as ->; [|done].
        unfold well_formed in Hb. by destruct (has_title b).
  - eapply Forall_impl; [done|]. intros b [Hb|Hb]; unfold handled.
    + by rewrite untitled_contribution.
    + by destruct (well_formed_handled max_price b Hb) as [o ->].
Qed.
End blocks.

(** ** Result objects *)

Section results.
Context {RT : Runtime}.

Lemma etsy_contribution max_price item :
  is_dict item = true →
  contribution (etsy_try max_price) item =
    match max_price with
    | None => Ret (etsy_record item)
    | Some m =>
        match etsy_price_numeric item with
        | Ret p => Ret (if within (Some m) p then etsy_record item else None)
        | Raise e => Raise e
        end
    end.
Proof.
  destruct item; try done. intros _.
  unfold etsy_record, kept, contribution, etsy_try, etsy_price_numeric, within.
  cbn. destruct max_price as [m|]; cbn; [|done].
  destruct (builtins.is_NA _); cbn; [done|].
  destruct (builtins.float _) as [p|e]; cbn; [|done].
  by destruct (p <=? m)%float.
Qed.

Lemma dict_record item : is_dict item = true → is_Some (etsy_record item).
Proof.
  unfold etsy_record, kept, contribution, etsy_try.
  destruct item; cbn; by eauto.
Qed.

(** The loop handles a result object only when it is a dict whose price,
    under a ceiling, is ['N/A'], a number, or refused with a [TypeError] or
    a [ValueError]. *)
Lemma handled_result max_price item :
  handled (etsy_try max_price)
    (λ e, bool_decide (e = TypeError) || bool_decide (e = ValueError)) item →
  is_dict item = true ∧ (is_Some max_price → etsy_price_handled item).
Proof.
  destruct (is_dict item) eqn:Hdict.
  - unfold handled. rewrite etsy_contribution by done.
    intros Hh. split; [done|]. intros [m ->]. unfold etsy_price_handled.
    destruct (etsy_price_numeric item) as [p|e]; [done|].
    apply orb_true_iff in Hh as [He|He]; apply bool_decide_eq_true in He; auto.
  - unfold handled, contribution, etsy_try. by destruct item.
Qed.

(** What the loop does on result objects that are dicts and, under a
    ceiling, have a price that [float] takes or refuses with a handled
    exception. *)
Lemma etsy_loop_results max_price results w :
  Forall (λ x, is_dict x = true ∧ (is_Some max_price → etsy_price_handled x))
    results →
  etsy_loop max_price results [] w =
    (Ret (omap etsy_record
            (List.filter (λ x, within max_price (etsy_price x)) results)),
     add_log (if max_price is Some _ then omap etsy_warning results else []) w).
Proof.
  intros Hall. unfold etsy_loop.
  rewrite (for_try_handled _ _ _ (etsy_try_appends max_price)).
  - cbn [app]. f_equal.
    + f_equal. rewrite omap_filter. apply list_omap_ext.
      induction results; constructor; [apply etsy_kept|].
      apply IHresults. by eapply Forall_inv_tail.
    + f_equal. induction Hall as [|x results [Hx Hp] _ IH]; cbn.
      { by destruct max_price. }
      unfold warned at 1, etsy_warning at 1.
      rewrite etsy_contribution by done.
      destruct max_price as [m|]; [|done].
      destruct (etsy_price_numeric x); by rewrite IH.
  - eapply Forall_impl; [done|]. intros x [Hx Hp]. unfold handled.
    rewrite etsy_contribution by done.
    destruct max_price as [m|]; [|done].
    unfold etsy_price_handled in Hp.
    destruct (etsy_price_numeric x) as [p|e]; [done|].
    destruct Hp as [->| ->]; by eauto.
Qed.
End results.

(** ** The price ceiling *)

Lemma etsy_results_fetched {RT : Runtime} E q max_price w response w1 results :
  falsy (environ E !! "ETSY_API_KEY") = false →
  fetch_url E (etsy_url (default "" (environ E !! "ETSY_API_KEY")) q) w
    = (Ret response, w1) →
  etsy_results response = Ret results →
  find_etsy_items E q max_price w =
    match etsy_loop max_price results [] w1 with
    | (Ret items, w2) => (Ret items, add_log [found (length items) "Etsy"] w2)
    | (Raise e, w2) => (Raise e, w2)
    end.
Proof.
  intros Hkey Hfetch Hresults.
  rewrite (find_etsy_items_fetched _ _ _ _ _ _ Hkey Hfetch).
  unfold etsy_results in Hresults.
  destruct (json response) as [data|e]; [|done]. cbn in Hresults.
  by rewrite Hresults.
Qed.

(** C1 (amended).  Under a price ceiling, a successfully parsed item is in
    the output exactly when its numeric price is known and at most the
    ceiling ([within]): an item whose price is absent is left out.  Without
    a ceiling every successfully parsed item is in the output.

    This holds for every extraction that returns.  The eBay extraction
    returns exactly on the pages each of whose listing blocks is well formed
    or lacks its title (which is skipped with a warning); the parsed items
    are the well-formed blocks: they are the ones that have a record.  The
    Etsy extraction returns exactly on the payloads each of whose result
    objects is a dict whose price, under a ceiling, is ['N/A'], a number, or
    a value refused with a handled exception (which has no numeric price and
    is skipped with a warning); every dict has a record.  In both, the
    output is the records of the items that pass [within], in order. *)
Theorem price_ceiling_filter {RT : Runtime} E q max_price w :
  (∀ response w1,
     fetch_url E (ebay_url q) w = (Ret response, w1) →
     ((∃ items w', find_ebay_items E q max_price w = (Ret items, w'))
      ↔ Forall (λ b, has_title b = false ∨ well_formed b = true)
          (ebay_blocks response))
     ∧ (Forall (λ b, has_title b = false ∨ well_formed b = true)
          (ebay_blocks response) →
        Forall (λ b, is_Some (ebay_record b) ↔ well_formed b = true)
          (ebay_blocks response)
        ∧ (find_ebay_items E q max_price w).1 =
            Ret (omap ebay_record
                   (List.filter (λ b, within max_price (ebay_price b))
                      (ebay_blocks response)))))
  ∧ (∀ response w1 results,
       falsy (environ E !! "ETSY_API_KEY") = false →
       fetch_url E (etsy_url (default "" (environ E !! "ETSY_API_KEY")) q) w
         = (Ret response, w1) →
       etsy_results response = Ret results →
       ((∃ items w', find_etsy_items E q max_price w = (Ret items, w'))
        ↔ Forall (λ x, is_dict x = true
                       ∧ (is_Some max_price → etsy_price_handled x)) results)
       ∧ (Forall (λ x, is_dict x = true
                       ∧ (is_Some max_price → etsy_price_handled x)) results →
          Forall (λ x, is_Some (etsy_record x)) results
          ∧ (find_etsy_items E q max_price w).1 =
              Ret (omap etsy_record
                     (List.filter (λ x, within max_price (etsy_price x)) results)))).
Proof.
  split.
  - intros response w1 Hfetch.
    rewrite (find_ebay_items_fetched _ _ _ _ _ _ Hfetch). split; [split|].
    + intros (items & w' & Hrun).
      destruct (ebay_loop max_price (ebay_blocks response) [] w1)
        as [[items'|e] w2] eqn:Hloop; [|done].
      unfold ebay_loop in Hloop.
      apply for_try_returns in Hloop; [|apply ebay_try_appends].
      eapply Forall_impl; [done|]. apply handled_block.
    + intros Hall. rewrite ebay_loop_blocks by done. by eexists _, _.
    + intros Hall. split.
      * apply Forall_forall. intros b _. apply record_well_formed.
      * by rewrite ebay_loop_blocks.
  - intros response w1 results Hkey Hfetch Hresults.
    rewrite (etsy_results_fetched _ _ _ _ _ _ _ Hkey Hfetch Hresults).
    split; [split|].
    + intros (items & w' & Hrun).
      destruct (etsy_loop max_price results [] w1) as [[items'|e] w2] eqn:Hloop;
        [|done].
      unfold etsy_loop in Hloop.
      apply for_try_returns in Hloop; [|apply etsy_try_appends].
      eapply Forall_impl; [done|]. apply handled_result.
    + intros Hall. rewrite etsy_loop_results by done. by eexists _, _.
    + intros Hall. split.
      * eapply Forall_impl; [done|]. intros x [Hx _]. by apply dict_record.
      * by rewrite etsy_loop_results.
Qed.

(** ** Malformed listing blocks *)

Lemma untitled_record {RT : Runtime} block :
  has_title block = false → ebay_record block = None.
Proof.
  intros Hb. unfold ebay_record, kept. by rewrite untitled_contribution.
Qed.

Lemma length_records {RT : Runtime} (P : bs4.node → bool) blocks :
  Forall (λ b, has_title b = false ∨ well_formed b = true) blocks →
  length (omap ebay_record (List.filter P blocks)) =
    length (List.filter (λ b, well_formed b && P b) blocks).
Proof.
  induction 1 as [|b blocks Hb _ IH]; [done|]. cbn.
  destruct (P b); cbn.
  - destruct Hb as [Hb|Hb].
    + by rewrite untitled_record, untitled_not_well_formed.
    + destruct (well_formed_record b Hb) as [d ->]. rewrite Hb. cbn. by f_equal.
  - by rewrite andb_false_r.
Qed.

(** C2 (amended).  On a page each of whose listing blocks either lacks its
    title node or is well formed (a title node, a link with an href, and a
    price node that is absent or holds a number), the eBay extractor
    returns one record for each well-formed block that passes the price
    ceiling, so exactly one per well-formed block when no ceiling is
    supplied; each block without its title is skipped with one logged
    warning and does not stop the extraction. *)
Theorem malformed_blocks_skipped {RT : Runtime} E q max_price w response w1 :
  fetch_url E (ebay_url q) w = (Ret response, w1) →
  Forall (λ b, has_title b = false ∨ well_formed b = true) (ebay_blocks response) →
  ∃ items,
    find_ebay_items E q max_price w =
      (Ret items,
       add_log (replicate
                  (length (List.filter (λ b, negb (has_title b)) (ebay_blocks response)))
                  ebay_warning
                ++ [found (length items) "eBay"]) w1)
    ∧ length items =
        length (List.filter (λ b, well_formed b && within max_price (ebay_price b))
                  (ebay_blocks response))
    ∧ (max_price = None →
       length items = length (List.filter well_formed (ebay_blocks response))).
Proof.
  intros Hfetch Hall. eexists. split_and!.
  - rewrite (find_ebay_items_fetched _ _ _ _ _ _ Hfetch).
    rewrite ebay_loop_blocks by done. by rewrite add_log_app.
  - by apply length_records.
  - intros ->. rewrite length_records by done. f_equal.
    apply filter_ext. intros b. cbn. by rewrite andb_true_r.
Qed.

(** ** Prices that are not numbers *)

(** C4 (amended).  The Etsy extractor converts the price of a result object
    with [float] only when a ceiling is supplied and the price is not
    ['N/A']: without a ceiling, or on an ['N/A'] price, its result does not
    depend on what [float] answers, and without a ceiling every result
    object that is a dict is kept, whatever its price.  When a ceiling is
    supplied, every result object whose price is neither ['N/A'] nor
    convertible ([float] raises a [TypeError] or a [ValueError]) is left out
    of the output with one logged warning, and the extraction goes on. *)
Theorem non_numeric_price_skipped {RT : Runtime} E q max_price w :
  (∀ fs fi item items,
     max_price = None
     ∨ (∃ price, builtins.get item "price" (PyStr "N/A") = Ret price
                 ∧ builtins.is_NA price = true) →
     etsy_try (RT := with_float fs fi) max_price item items
       = etsy_try max_price item items)
  ∧ (∀ item,
       is_dict item = true →
       is_Some (etsy_record item)
       ∧ contribution (etsy_try None) item = Ret (etsy_record item))
  ∧ (∀ m response w1 results,
       max_price = Some m →
       falsy (environ E !! "ETSY_API_KEY") = false →
       fetch_url E (etsy_url (default "" (environ E !! "ETSY_API_KEY")) q) w
         = (Ret response, w1) →
       etsy_results response = Ret results →
       Forall (λ x, is_dict x = true ∧ etsy_price_handled x) results →
       (∃ items,
          find_etsy_items E q max_price w =
            (Ret items,
             add_log (omap etsy_warning results ++ [found (length items) "Etsy"]) w1)
          ∧ items = omap etsy_record
                      (List.filter (λ x, within max_price (etsy_price x)) results))
       ∧ ∀ x e, etsy_price_numeric x = Raise e →
           within max_price (etsy_price x) = false
           ∧ etsy_warning x =
               Some (LogRecord WARNING "Error parsing Etsy item data: " (Some e))).
Proof.
  split_and!.
  - intros fs fi item items Hcase. unfold etsy_try.
    destruct item; try done. cbn.
    destruct Hcase as [->|(price & Hprice & HNA)]; [done|].
    cbn in Hprice. simplify_eq. rewrite HNA.
    by destruct max_price.
  - intros item Hitem. split; [by apply dict_record|].
    by rewrite etsy_contribution.
  - intros m response w1 results -> Hkey Hfetch Hresults Hall. split.
    + eexists. split; [|done].
      rewrite (etsy_results_fetched _ _ _ _ _ _ _ Hkey Hfetch Hresults).
      rewrite etsy_loop_results.
      * by rewrite add_log_app.
      * eapply Forall_impl; [done|]. by intros x [Hx Hp].
    + intros x e Hraise. unfold etsy_price, etsy_warning. by rewrite Hraise.
Qed.

(** ** The Etsy credential *)

Lemma fetch_url_network {RT : Runtime} E E' url w :
  network E' = network E → fetch_url E' url w = fetch_url E url w.
Proof.
  intros Hnet. unfold fetch_url, retry, requests_get. by rewrite Hnet.
Qed.

(** C5.  When [ETSY_API_KEY] is absent from the environment, the Etsy
    extractor returns the empty list and logs one error, whatever the
    query and the ceiling, and sends no request; the eBay extractor does
    not depend on the environment variables. *)
Theorem etsy_missing_credential {RT : Runtime} E q max_price w :
  environ E !! "ETSY_API_KEY" = None →
  find_etsy_items E q max_price w =
    (Ret [],
     add_log [LogRecord ERROR
                "Etsy API key not found. Please set the ETSY_API_KEY environment variable."
                None] w)
  ∧ sent (find_etsy_items E q max_price w).2 = sent w
  ∧ ∀ E', network E' = network E →
      find_ebay_items E' q max_price w = find_ebay_items E q max_price w.
Proof.
  intros Hkey.
  assert (falsy (environ E !! "ETSY_API_KEY") = true) as Hfalsy by by rewrite Hkey.
  rewrite find_etsy_items_no_key by done. split_and!; [done..|].
  intros E' Hnet.
  destruct (fetch_url E (ebay_url q) w) as [[response|e] w1] eqn:Hfetch.
  - rewrite (find_ebay_items_fetched E _ _ _ _ _ Hfetch).
    apply find_ebay_items_fetched. by rewrite (fetch_url_network E).
  - rewrite (find_ebay_items_failed E _ _ _ _ _ Hfetch).
    apply find_ebay_items_failed. by rewrite (fetch_url_network E).
Qed.

(** ** Titles *)

Lemma item_dict_title title price link description :
  item_dict title price link description !! "title" = Some title.
Proof.
  unfold item_dict. rewrite !lookup_insert_ne by done. apply lookup_singleton_eq.
Qed.

Lemma Forall2_elem_of_r {A B} (P : A → B → Prop) l k y :
  Forall2 P l k → y ∈ k → ∃ x, x ∈ l ∧ P x y.
Proof.
  induction 1 as [|x y' l k Hxy _ IH]; intros Hy.
  - by apply elem_of_nil in Hy.
  - apply elem_of_cons in Hy as [->|Hy].
    + exists x. split; [apply list_elem_of_here|done].
    + destruct (IH Hy) as (x' & Hx' & HP). exists x'.
      split; [by apply list_elem_of_further|done].
Qed.

Lemma ebay_contribution_title {RT : Runtime} max_price block d :
  contribution (ebay_try max_price) block = Ret (Some d) →
  ∃ h3, bs4.find "h3" "s-item__title" block = Some h3
        ∧ d !! "title" = Some (PyStr (bs4.get_text_strip h3)).
Proof.
  unfold contribution, ebay_try.
  destruct (bs4.find "h3" "s-item__title" block) as [h3|]; [|done]. cbn.
  intros Hd. exists h3. split; [done|]. revert Hd.
  destruct max_price; repeat body_step; intros; simplify_eq;
    apply item_dict_title.
Qed.

Lemma etsy_contribution_title {RT : Runtime} max_price item d :
  contribution (etsy_try max_price) item = Ret (Some d) →
  ∃ t, builtins.get item "title" (PyStr "N/A") = Ret t ∧ d !! "title" = Some t.
Proof.
  unfold contribution, etsy_try. destruct item; try done. cbn.
  intros Hd. eexists. split; [done|]. revert Hd.
  destruct max_price as [m|]; cbn.
  - destruct (builtins.is_NA _); cbn; [done|].
    destruct (builtins.float _) as [p|e]; cbn; [|done].
    destruct (p <=? m)%float; intros; simplify_eq. apply item_dict_title.
  - intros; simplify_eq. apply item_dict_title.
Qed.

(** C8 (amended).  Every record either extractor returns has a title
    field, and it holds the title of the source: the stripped text of the
    title node of a listing block of the page (eBay), or the title value of
    a result object of the payload, ['N/A'] when the object has none
    (Etsy).  It is the empty string when that text or value is. *)
Theorem title_present {RT : Runtime} E q max_price w out w' d :
  d ∈ out →
  (find_ebay_items E q max_price w = (Ret out, w') →
   ∃ block h3,
     block ∈ ebay_listing_blocks E q w
     ∧ bs4.find "h3" "s-item__title" block = Some h3
     ∧ d !! "title" = Some (PyStr (bs4.get_text_strip h3)))
  ∧ (find_etsy_items E q max_price w = (Ret out, w') →
     ∃ item t,
       item ∈ etsy_result_objects E q w
       ∧ builtins.get item "title" (PyStr "N/A") = Ret t
       ∧ d !! "title" = Some t).
Proof.
  intros Hd. split; intros Hrun.
  - apply find_ebay_items_inv in Hrun as (sel & Hsub & Hall).
    destruct (Forall2_elem_of_r _ _ _ _ Hall Hd) as (block & Hblock & Hc).
    apply ebay_contribution_title in Hc as (h3 & Hh3 & Htitle).
    exists block, h3. split_and!; [|done..]. by eapply elem_of_sublist.
  - apply find_etsy_items_inv in Hrun as (sel & Hsub & Hall).
    destruct (Forall2_elem_of_r _ _ _ _ Hall Hd) as (item & Hitem & Hc).
    apply etsy_contribution_title in Hc as (t & Ht & Htitle).
    exists item, t. split_and!; [|done..]. by eapply elem_of_sublist.
Qed.

(** ** The example of the spec *)


(** ** Source order *)

(** C10.  Both extractors keep the order of their source: the records of
    the output are, one for one and in the same order, the records
    contributed by a subsequence of the listing blocks of the page in
    document order (eBay), or of the result objects of the payload in the
    order of its [results] (Etsy). *)
Theorem source_order_preserved {RT : Runtime} E q max_price w out w' :
  (find_ebay_items E q max_price w = (Ret out, w') →
   ∃ sel,
     sel `sublist_of` ebay_listing_blocks E q w
     ∧ Forall2 (λ block d, contribution (ebay_try max_price) block = Ret (Some d))
         sel out)
  ∧ (find_etsy_items E q max_price w = (Ret out, w') →
     ∃ sel,
       sel `sublist_of` etsy_result_objects E q w
       ∧ Forall2 (λ item d, contribution (etsy_try max_price) item = Ret (Some d))
           sel out).
Proof.
  split; [apply find_ebay_items_inv|apply find_etsy_items_inv].
Qed.

(** ** The record store *)

Lemma has_table_created name db :
  sqlite3.has_table name (sqlite3.create_table_if_not_exists name db) = true.
Proof.
  unfold sqlite3.create_table_if_not_exists.
  destruct (sqlite3.has_table name db) eqn:Hhas; [done|].
  unfold sqlite3.has_table. rewrite existsb_app. cbn.
  rewrite String.eqb_refl. by rewrite orb_true_r.
Qed.

Lemma create_table_idempotent name db :
  sqlite3.create_table_if_not_exists name
    (sqlite3.create_table_if_not_exists name db)
  = sqlite3.create_table_if_not_exists name db.
Proof.
  unfold sqlite3.create_table_if_not_exists at 1. by rewrite has_table_created.
Qed.

Lemma count_tables_has_table name db :
  sqlite3.has_table name db = negb (Nat.eqb (sqlite3.count_tables name db) 0).
Proof.
  unfold sqlite3.has_table, sqlite3.count_tables.
  induction db as [|[n t] db IH]; [done|]. cbn.
  by destruct (String.eqb n name).
Qed.

Lemma count_tables_created name db :
  (sqlite3.count_tables name db ≤ 1)%nat →
  sqlite3.count_tables name (sqlite3.create_table_if_not_exists name db) = 1.
Proof.
  intros Hle. unfold sqlite3.create_table_if_not_exists.
  rewrite count_tables_has_table.
  destruct (Nat.eqb_spec (sqlite3.count_tables name db) 0) as [Hz|Hnz]; cbn.
  - unfold sqlite3.count_tables in *. rewrite List.filter_app, length_app, Hz.
    cbn. by rewrite String.eqb_refl.
  - fold (sqlite3.count_tables name db). lia.
Qed.

(** C7.  Schema creation is idempotent: on an open connection, setting up
    the database twice raises nothing, and the second call leaves the store
    (the file and the open transaction) as the first left it; a store with
    at most one table [listings] has exactly one afterwards. *)
Theorem setup_database_idempotent w txn :
  conn w = Connected txn →
  ∃ w1 w2,
    DatabaseManager.setup_database w = (Ret tt, w1)
    ∧ DatabaseManager.setup_database w1 = (Ret tt, w2)
    ∧ file w2 = file w1
    ∧ conn w2 = conn w1
    ∧ ((sqlite3.count_tables "listings" (sqlite3.view w) ≤ 1)%nat →
       sqlite3.count_tables "listings" (sqlite3.view w2) = 1).
Proof.
  intros Hconn. destruct w as [l s f c]. cbn in Hconn. subst c.
  unfold DatabaseManager.setup_database, sqlite3.view.
  destruct txn as [t|]; eexists _, _; (split_and!; [reflexivity|reflexivity|..]);
    cbn; rewrite ?create_table_idempotent; try done;
    intros Hle; rewrite <-(count_tables_created "listings" _ Hle);
    by rewrite ?create_table_idempotent.
Qed.

Lemma exit_run exc_val w txn :
  conn w = Connected txn →
  DatabaseManager.__exit__ exc_val w =
    (Ret tt,
     World (log w ++ match exc_val with
                     | Some e => [LogRecord ERROR "Database operation failed" (Some e)]
                     | None => []
                     end)
       (sent w) (sqlite3.view w) Closed).
Proof.
  intros Hconn. destruct w as [l s f c]. cbn in Hconn. subst c.
  unfold DatabaseManager.__exit__, sqlite3.view.
  destruct exc_val, txn; cbn; by rewrite ?app_nil_r.
Qed.

(** C6.  On exit of [with DatabaseManager() as db], what the session wrote
    is committed, whether the body ended normally or raised: the file then
    holds what the statements of the session saw at its end, the
    connection is closed, an exception of the body is logged (and raised
    again after the commit). *)
Theorem commit_on_exit {A} (body : Py A) w r w2 txn :
  body (sqlite3.set_conn (Connected None) w) = (r, w2) →
  conn w2 = Connected txn →
  DatabaseManager.with_ body w =
    (r,
     World (log w2 ++ match r with
                      | Raise e => [LogRecord ERROR "Database operation failed" (Some e)]
                      | Ret _ => []
                      end)
       (sent w2) (sqlite3.view w2) Closed).
Proof.
  intros Hbody Hconn. unfold DatabaseManager.with_, DatabaseManager.__enter__.
  rewrite Hbody. destruct r as [a|e]; by rewrite (exit_run _ _ _ Hconn).
Qed.

(** ** The statements on the example inputs *)

(** ** The fetch *)

Lemma attempt_run E url w :
  (response ← requests_get E url; raise_for_status response;; mret response) w
  = (attempt_outcome E (length (sent w)) url, add_sent [url] w).
Proof.
  rewrite bind_run. unfold requests_get, attempt_outcome, add_sent.
  destruct (network E (length (sent w)) url) as [r|e]; [|done].
  rewrite bind_run. unfold raise_for_status.
  by destruct (bool_decide (400 ≤ status_code r < 600)%Z).
Qed.

Lemma add_sent_app l1 l2 w : add_sent l2 (add_sent l1 w) = add_sent (l1 ++ l2) w.
Proof. unfold add_sent. cbn. by rewrite app_assoc. Qed.

Lemma length_sent_add_sent l w :
  length (sent (add_sent l w)) = (length (sent w) + length l)%nat.
Proof. unfold add_sent. cbn. by rewrite length_app. Qed.

(** The three attempts of [fetch_url], one by one. *)
Lemma fetch_url_run E url w :
  fetch_url E url w =
    match attempt_outcome E (length (sent w)) url with
    | Ret r => (Ret r, add_sent [url] w)
    | Raise _ =>
        match attempt_outcome E (length (sent w) + 1) url with
        | Ret r => (Ret r, add_sent [url; url] w)
        | Raise _ =>
            (attempt_outcome E (length (sent w) + 2) url,
             add_sent [url; url; url] w)
        end
    end.
Proof.
  unfold fetch_url, retry. cbn [pred retry_from].
  rewrite attempt_run.
  destruct (attempt_outcome E (length (sent w)) url) as [r1|e1]; [done|].
  rewrite attempt_run, length_sent_add_sent, add_sent_app. cbn [length app].
  destruct (attempt_outcome E (length (sent w) + 1) url) as [r2|e2]; [done|].
  rewrite attempt_run, length_sent_add_sent, add_sent_app. cbn [length app].
  by destruct (attempt_outcome E (length (sent w) + 2) url).
Qed.

Lemma fetch_url_sent E url w :
  ∃ k, (1 ≤ k ≤ 3)%nat ∧ (fetch_url E url w).2 = add_sent (replicate k url) w.
Proof.
  rewrite fetch_url_run.
  destruct (attempt_outcome E (length (sent w)) url) as [r1|e1].
  { exists 1%nat. split; [lia|done]. }
  destruct (attempt_outcome E (length (sent w) + 1) url) as [r2|e2].
  { exists 2%nat. split; [lia|done]. }
  exists 3%nat. split; [lia|done].
Qed.

(** X1.  [fetch_url] sends at least one request and at most three, all to
    the given URL, and, when it raises, exactly three; it changes nothing
    else of the state (the log, the file and the connection stay as they
    are). *)
Theorem fetch_url_bounded E url w :
  ∃ k, (1 ≤ k ≤ 3)%nat
       ∧ (fetch_url E url w).2 = add_sent (replicate k url) w
       ∧ ((∃ e, (fetch_url E url w).1 = Raise e) → k = 3%nat).
Proof.
  rewrite fetch_url_run.
  destruct (attempt_outcome E (length (sent w)) url) as [r1|e1].
  { exists 1%nat. split_and!; [lia..|done|]. by intros [e [=]]. }
  destruct (attempt_outcome E (length (sent w) + 1) url) as [r2|e2].
  { exists 2%nat. split_and!; [lia..|done|]. by intros [e [=]]. }
  exists 3%nat. split_and!; [lia..|done|done].
Qed.

(** X2.  [fetch_url] returns the response of the first of its three
    attempts that succeeds (a response whose status is not 4xx or 5xx),
    and raises exactly when all three fail, with the exception of the
    third. *)
Theorem fetch_url_outcome E url w :
  (∀ r, (fetch_url E url w).1 = Ret r ↔
        ∃ k, (k < 3)%nat
             ∧ attempt_outcome E (length (sent w) + k) url = Ret r
             ∧ ∀ j, (j < k)%nat →
                 ∃ e, attempt_outcome E (length (sent w) + j) url = Raise e)
  ∧ (∀ e, (fetch_url E url w).1 = Raise e ↔
          attempt_outcome E (length (sent w) + 2) url = Raise e
          ∧ ∀ j, (j < 2)%nat →
              ∃ e', attempt_outcome E (length (sent w) + j) url = Raise e').
Proof.
  rewrite fetch_url_run.
  destruct (attempt_outcome E (length (sent w)) url) as [r1|e1] eqn:H1;
    [|destruct (attempt_outcome E (length (sent w) + 1) url) as [r2|e2] eqn:H2;
      [|destruct (attempt_outcome E (length (sent w) + 2) url) as [r3|e3] eqn:H3]];
    rewrite <-(Nat.add_0_r (length (sent w))) in H1 at 1;
    cbn [fst]; (split; [intros r|intros e]); split.
  all: try (intros [=]; subst).
  all: try (intros (k & Hk & Hr & Hj); destruct k as [|[|[|k]]]; [..|lia]).
  all: try (intros (He & Hj)).
  all: try (pose proof (Hj 0%nat ltac:(lia)) as [? ?]).
  all: try (pose proof (Hj 1%nat ltac:(lia)) as [? ?]).
  all: try congruence.
  all: try (split; [done|]).
  all: try (first [exists 0%nat; split_and!; [lia|done|]
                  |exists 1%nat; split_and!; [lia|done|]
                  |exists 2%nat; split_and!; [lia|done|]]).
  all: intros j Hlt; destruct j as [|[|j]]; eauto; lia.
Qed.

(** ** What a search changes *)

Lemma for_try_frame {X D} (body : X → list D → res (list D)) classes msg xs :
  ∀ items w,
    ∃ records,
      (for_try body classes msg xs items w).2 = add_log records w
      ∧ Forall (λ record, levelname record = WARNING) records.
Proof.
  induction xs as [|x xs IH]; intros items w.
  - exists []. by rewrite add_log_nil.
  - cbn [for_try]. rewrite bind_run, try_except_run. unfold lift.
    destruct (body x items) as [items'|e].
    + apply IH.
    + destruct (classes e).
      * rewrite bind_run, logging_run, ret_run.
        destruct (IH items (add_log [LogRecord WARNING msg (Some e)] w))
          as (records & -> & Hall).
        exists (LogRecord WARNING msg (Some e) :: records).
        split; [by rewrite add_log_app|by constructor].
      * exists []. by rewrite add_log_nil.
Qed.

Lemma add_log_add_sent records urls w :
  add_log records (add_sent urls w) = add_sent urls (add_log records w).
Proof. done. Qed.

Lemma find_ebay_items_frame {RT : Runtime} E q max_price w :
  ∃ k records,
    (1 ≤ k ≤ 3)%nat
    ∧ (find_ebay_items E q max_price w).2 =
        add_log records (add_sent (replicate k (ebay_url q)) w).
Proof.
  destruct (fetch_url_sent E (ebay_url q) w) as (k & Hk & Hw).
  exists k.
  destruct (fetch_url E (ebay_url q) w) as [[response|e] w1] eqn:Hfetch;
    cbn in Hw; subst w1.
  + rewrite (find_ebay_items_fetched _ _ _ _ _ _ Hfetch). unfold ebay_loop.
    destruct (for_try_frame (ebay_try max_price)
                (λ e, bool_decide (e = AttributeError))
                "Error parsing eBay item data: " (ebay_blocks response) []
                (add_sent (replicate k (ebay_url q)) w)) as (records & Hw & _).
    destruct (for_try _ _ _ _ _ _) as [[items|e] w2]; cbn in Hw; subst w2.
    * eexists. split; [done|]. cbn [snd]. by rewrite add_log_app.
    * by eexists.
  + rewrite (find_ebay_items_failed _ _ _ _ _ _ Hfetch).
    destruct (bool_decide (e = RequestException)).
    * by eexists.
    * exists []. by rewrite add_log_nil.
Qed.

Lemma find_etsy_items_frame {RT : Runtime} E q max_price w :
  ∃ k records,
    (k ≤ 3)%nat
    ∧ (falsy (environ E !! "ETSY_API_KEY") = true → k = 0%nat)
    ∧ (find_etsy_items E q max_price w).2 =
        add_log records
          (add_sent
             (replicate k (etsy_url (default "" (environ E !! "ETSY_API_KEY")) q))
             w).
Proof.
  destruct (falsy (environ E !! "ETSY_API_KEY")) eqn:Hkey.
  { exists 0%nat. eexists. rewrite find_etsy_items_no_key by done.
    split_and!; [lia|done|]. cbn [snd replicate]. unfold add_sent.
    by rewrite app_nil_r. }
  destruct (fetch_url_sent E
              (etsy_url (default "" (environ E !! "ETSY_API_KEY")) q) w)
    as (k & Hk & Hw).
  exists k.
  destruct (fetch_url E _ w) as [[response|e] w1] eqn:Hfetch;
    cbn in Hw; subst w1.
  + rewrite (find_etsy_items_fetched _ _ _ _ _ _ Hkey Hfetch).
    destruct (json response) as [data|e].
    * destruct (results ← builtins.get data "results" (PyList []);
                builtins.iter results) as [results|e].
      -- unfold etsy_loop.
         destruct (for_try_frame (etsy_try max_price)
                     (λ e, bool_decide (e = TypeError) || bool_decide (e = ValueError))
                     "Error parsing Etsy item data: " results []
                     (add_sent (replicate k
                        (etsy_url (default "" (environ E !! "ETSY_API_KEY")) q)) w))
           as (records & Hw & _).
         destruct (for_try _ _ _ _ _ _) as [[items|e] w2]; cbn in Hw; subst w2.
         ++ eexists. split_and!; [lia|done|]. cbn [snd]. by rewrite add_log_app.
         ++ eexists. split_and!; [lia|done|done].
      -- exists []. rewrite add_log_nil. split_and!; [lia|done|done].
    * destruct (bool_decide (e = RequestException)).
      -- eexists. split_and!; [lia|done|done].
      -- exists []. rewrite add_log_nil. split_and!; [lia|done|done].
  + rewrite (find_etsy_items_failed _ _ _ _ _ _ Hkey Hfetch).
    destruct (bool_decide (e = RequestException)).
    * eexists. split_and!; [lia|done|done].
    * exists []. rewrite add_log_nil. split_and!; [lia|done|done].
Qed.

(** X3.  A search changes the log and the list of requests and nothing
    else: the file and the connection of the store stay as they are.  The
    eBay search sends one to three requests, all to its search URL; the
    Etsy search sends at most three, all to its API URL, and none when the
    key is not set. *)
Theorem searches_frame {RT : Runtime} E q max_price w :
  (∃ k records,
     (1 ≤ k ≤ 3)%nat
     ∧ (find_ebay_items E q max_price w).2 =
         add_log records (add_sent (replicate k (ebay_url q)) w))
  ∧ (∃ k records,
       (k ≤ 3)%nat
       ∧ (falsy (environ E !! "ETSY_API_KEY") = true → k = 0%nat)
       ∧ (find_etsy_items E q max_price w).2 =
           add_log records
             (add_sent
                (replicate k (etsy_url (default "" (environ E !! "ETSY_API_KEY")) q))
                w)).
Proof.
  split; [apply find_ebay_items_frame|apply find_etsy_items_frame].
Qed.

(** ** Failures of the fetch *)

(** X4.  When the three attempts of the eBay search fail, a
    [RequestException] of the last one (a transport error, or a 4xx or 5xx
    status) is logged as an error and the search returns the empty list;
    any other exception is raised to the caller. *)
Theorem ebay_fetch_failure {RT : Runtime} E q max_price w e1 e2 e3 :
  attempt_outcome E (length (sent w)) (ebay_url q) = Raise e1 →
  attempt_outcome E (length (sent w) + 1) (ebay_url q) = Raise e2 →
  attempt_outcome E (length (sent w) + 2) (ebay_url q) = Raise e3 →
  find_ebay_items E q max_price w =
    if bool_decide (e3 = RequestException)
    then (Ret [],
          add_log [LogRecord ERROR "Failed to retrieve eBay items: " (Some e3)]
            (add_sent [ebay_url q; ebay_url q; ebay_url q] w))
    else (Raise e3, add_sent [ebay_url q; ebay_url q; ebay_url q] w).
Proof.
  intros H1 H2 H3. apply find_ebay_items_failed.
  by rewrite fetch_url_run, H1, H2, H3.
Qed.

(** X5.  The Etsy search, with its key set: when the three attempts fail,
    or when the body of the response is not JSON, a [RequestException] is
    logged as an error and the search returns the empty list. *)
Theorem etsy_fetch_failure {RT : Runtime} E q max_price w :
  falsy (environ E !! "ETSY_API_KEY") = false →
  (∀ e1 e2,
     attempt_outcome E (length (sent w))
       (etsy_url (default "" (environ E !! "ETSY_API_KEY")) q) = Raise e1 →
     attempt_outcome E (length (sent w) + 1)
       (etsy_url (default "" (environ E !! "ETSY_API_KEY")) q) = Raise e2 →
     attempt_outcome E (length (sent w) + 2)
       (etsy_url (default "" (environ E !! "ETSY_API_KEY")) q)
       = Raise RequestException →
     find_etsy_items E q max_price w =
       (Ret [],
        add_log [LogRecord ERROR "Failed to retrieve Etsy items: "
                   (Some RequestException)]
          (add_sent (replicate 3
                       (etsy_url (default "" (environ E !! "ETSY_API_KEY")) q)) w)))
  ∧ (∀ response w1,
       fetch_url E (etsy_url (default "" (environ E !! "ETSY_API_KEY")) q) w
         = (Ret response, w1) →
       json response = Raise RequestException →
       find_etsy_items E q max_price w =
         (Ret [],
          add_log [LogRecord ERROR "Failed to retrieve Etsy items: "
                     (Some RequestException)] w1)).
Proof.
  intros Hkey. split.
  - intros e1 e2 H1 H2 H3.
    rewrite (find_etsy_items_failed E q max_price w RequestException
               (add_sent (replicate 3
                  (etsy_url (default "" (environ E !! "ETSY_API_KEY")) q)) w));
      [done..|].
    by rewrite fetch_url_run, H1, H2, H3.
  - intros response w1 Hfetch Hjson.
    by rewrite (find_etsy_items_fetched _ _ _ _ _ _ Hkey Hfetch), Hjson.
Qed.

(** X6.  A payload that is an object without the key [results], or with
    an empty [results] list, gives the empty list and no error: only the
    count of zero items is logged, whatever the ceiling. *)
Theorem etsy_no_results {RT : Runtime} E q max_price w response w1 d :
  falsy (environ E !! "ETSY_API_KEY") = false →
  fetch_url E (etsy_url (default "" (environ E !! "ETSY_API_KEY")) q) w
    = (Ret response, w1) →
  json response = Ret (PyDict d) →
  d !! "results" = None ∨ d !! "results" = Some (PyList []) →
  find_etsy_items E q max_price w = (Ret [], add_log [found 0 "Etsy"] w1).
Proof.
  intros Hkey Hfetch Hjson Hresults.
  rewrite (etsy_results_fetched E q max_price w response w1 []); [done..|].
  unfold etsy_results. rewrite Hjson. cbn.
  by destruct Hresults as [-> | ->].
Qed.

(** ** Saving a listing *)

Lemma has_table_listings db :
  sqlite3.has_table "listings" db = if listings db is Some _ then true else false.
Proof.
  unfold sqlite3.has_table, listings.
  induction db as [|[n t] db IH]; [done|]. cbn.
  by destruct (String.eqb n "listings").
Qed.

Lemma listings_insert_row key values db :
  listings (sqlite3.insert_row "listings" key values db) =
    (λ t, Table (rows t ++ [Row key values]) key) <$> listings db.
Proof.
  unfold listings. induction db as [|[n t] db IH]; [done|]. cbn.
  destruct (String.eqb n "listings") eqn:Hn; cbn; rewrite Hn; [done|apply IH].
Qed.

Lemma listings_app db t :
  listings (db ++ [("listings", t)]) = Some (default t (listings db)).
Proof.
  unfold listings. induction db as [|[n t'] db IH]; [done|]. cbn.
  by destruct (String.eqb n "listings").
Qed.

Lemma listings_created db :
  listings (sqlite3.create_table_if_not_exists "listings" db)
  = Some (default (Table [] 0) (listings db)).
Proof.
  unfold sqlite3.create_table_if_not_exists.
  rewrite has_table_listings.
  destruct (listings db) as [t|] eqn:Ht; [by rewrite Ht|].
  by rewrite listings_app, Ht.
Qed.

Lemma view_set_conn db w :
  sqlite3.view (sqlite3.set_conn (Connected (Some db)) w) = db.
Proof. done. Qed.

(** The largest key of a table bounds the keys of its rows. *)
Lemma largest_rowid_bound l s :
  match sqlite3.largest_rowid (Table l s) with
  | Some k => Forall (λ r, (row_id r ≤ k)%Z) l
  | None => l = []
  end.
Proof.
  induction l as [|r l IH]; [done|].
  change (sqlite3.largest_rowid (Table (r :: l) s))
    with (Some (match sqlite3.largest_rowid (Table l s) with
                | Some k => Z.max (row_id r) k
                | None => row_id r
                end)).
  cbv beta iota. destruct (sqlite3.largest_rowid (Table l s)) as [k|].
  - constructor; [lia|]. eapply Forall_impl; [done|]. intros r' Hr'. cbn in Hr'. lia.
  - subst l. constructor; [lia|constructor].
Qed.

(** A new key is above every key of the table and above the last key given
    out. *)
Lemma new_rowid_above t key :
  sqlite3.new_rowid t = Some key →
  Forall (λ r, (row_id r < key)%Z) (rows t) ∧ (seq t < key)%Z.
Proof.
  unfold sqlite3.new_rowid. destruct (_ || _); [done|]. intros [= <-].
  split; [|lia]. destruct t as [l s]. cbn [rows seq].
  pose proof (largest_rowid_bound l s) as Hl.
  destruct (sqlite3.largest_rowid (Table l s)) as [k|].
  - eapply Forall_impl; [done|]. intros r Hr. cbn in Hr. lia.
  - subst l. constructor.
Qed.

Section saving.
Context {RT : Runtime}.

Lemma bind_all_lookup values : ∀ bound i v,
  sqlite3.bind_all values = Ret bound →
  values !! i = Some v →
  ∃ b, sqlite3.bind v = Ret b ∧ bound !! i = Some b.
Proof.
  induction values as [|v0 values IH]; intros bound i v Hbind Hi; [done|].
  cbn in Hbind. destruct (sqlite3.bind v0) as [b0|e] eqn:Hb0; [|done].
  cbn in Hbind. destruct (sqlite3.bind_all values) as [bound0|e]; [|done].
  cbn in Hbind. injection Hbind as <-.
  destruct i as [|i]; cbn in *.
  - injection Hi as <-. by exists b0.
  - by eapply IH.
Qed.

(** What a row holds for each of the values of a save that binds. *)
Lemma stored_lookup values bound i v :
  sqlite3.bind_all values = Ret bound →
  values !! i = Some v →
  ∃ b, sqlite3.bind v = Ret b ∧ stored values !! i = Some (sqlite3.text_affinity b).
Proof.
  intros Hbind Hi. unfold stored. rewrite Hbind.
  destruct (bind_all_lookup _ _ _ _ Hbind Hi) as (b & Hb & Hlook).
  exists b. split; [done|]. by rewrite list_lookup_fmap, Hlook.
Qed.

(** [save_to_database] on an open connection, case by case. *)
Lemma save_run platform title price link description notes w txn :
  conn w = Connected txn →
  DatabaseManager.save_to_database platform title price link description notes w =
    let values := [platform; title; price; link; description; notes] in
    let w0 := add_log [LogRecord INFO
                         ("Saving item '" +:+ builtins.str title
                          +:+ "' to the database.") None] w in
    match listings (sqlite3.view w) with
    | None => (Raise sqlite3_Error, w0)
    | Some t =>
        match sqlite3.bind_all values with
        | Raise e => (Raise e, sqlite3.set_conn (Connected (Some (sqlite3.view w))) w0)
        | Ret _ =>
            match sqlite3.new_rowid t with
            | None => (Raise sqlite3_Error, sqlite3.set_conn (Connected None) w0)
            | Some key =>
                if sqlite3.not_null_ok values
                then (Ret tt,
                      sqlite3.set_conn
                        (Connected (Some (sqlite3.insert_row "listings" key
                                            (stored values) (sqlite3.view w)))) w0)
                else (Raise sqlite3_Error,
                      sqlite3.set_conn (Connected (Some (sqlite3.view w))) w0)
            end
        end
    end.
Proof.
  intros Hconn. destruct w as [l s f c]. cbn in Hconn. subst c.
  unfold DatabaseManager.save_to_database. rewrite bind_run, logging_run.
  unfold sqlite3.execute_insert, sqlite3.view, add_log, stored.
  cbn [conn file log sent]. change (sqlite3.table_named "listings") with listings.
  destruct txn as [t|]; cbn [default from_option id];
    (destruct (listings _) as [tbl|]; [|done]);
    (destruct (sqlite3.bind_all _) as [bound|e]; [|done]);
    (destruct (sqlite3.new_rowid tbl); [|done]);
    by destruct (sqlite3.not_null_ok _).
Qed.

Lemma save_ok platform title price link description notes w txn t key :
  conn w = Connected txn →
  listings (sqlite3.view w) = Some t →
  storable [platform; title; price; link; description; notes] = true →
  sqlite3.new_rowid t = Some key →
  DatabaseManager.save_to_database platform title price link description notes w =
    (Ret tt,
     sqlite3.set_conn
       (Connected
          (Some (sqlite3.insert_row "listings" key
                   (stored [platform; title; price; link; description; notes])
                   (sqlite3.view w))))
       (add_log [LogRecord INFO
                   ("Saving item '" +:+ builtins.str title
                    +:+ "' to the database.") None] w)).
Proof.
  intros Hconn Ht Hst Hkey. rewrite (save_run _ _ _ _ _ _ _ _ Hconn). cbv zeta.
  rewrite Ht, Hkey.
  unfold storable in Hst. destruct (sqlite3.bind_all _); [|done]. by rewrite Hst.
Qed.

(** X7.  On an open connection whose database has the table [listings],
    saving six storable values while a key is left appends one row to the
    table and nothing else: its key is new, above every key of the table
    and above the last one given out, and the file is not changed before
    the commit.  Each column holds the value as it was bound and as a TEXT
    column stores it: a string as given, an integer as its decimal text,
    [None] as NULL. *)
Theorem save_appends_row platform title price link description notes w txn t key :
  conn w = Connected txn →
  listings (sqlite3.view w) = Some t →
  storable [platform; title; price; link; description; notes] = true →
  sqlite3.new_rowid t = Some key →
  ∃ w',
    DatabaseManager.save_to_database platform title price link description notes w
      = (Ret tt, w')
    ∧ listings (sqlite3.view w') =
        Some (Table (rows t
                     ++ [Row key (stored [platform; title; price; link;
                                          description; notes])])
                key)
    ∧ Forall (λ r, (row_id r < key)%Z) (rows t)
    ∧ (seq t < key)%Z
    ∧ file w' = file w
    ∧ (∀ i v,
         [platform; title; price; link; description; notes] !! i = Some v →
         ∃ b, sqlite3.bind v = Ret b
              ∧ stored [platform; title; price; link; description; notes] !! i
                = Some (sqlite3.text_affinity b))
    ∧ (∀ i s,
         [platform; title; price; link; description; notes] !! i = Some (PyStr s) →
         stored [platform; title; price; link; description; notes] !! i
         = Some (TEXT s))
    ∧ (∀ i z,
         [platform; title; price; link; description; notes] !! i = Some (PyInt z) →
         stored [platform; title; price; link; description; notes] !! i
         = Some (TEXT (pretty z)))
    ∧ (∀ i,
         [platform; title; price; link; description; notes] !! i = Some PyNone →
         stored [platform; title; price; link; description; notes] !! i
         = Some NULL).
Proof.
  intros Hconn Ht Hst Hkey. rewrite (save_ok _ _ _ _ _ _ _ _ _ _ Hconn Ht Hst Hkey).
  destruct (new_rowid_above _ _ Hkey) as [Hrows Hseq].
  assert (Hbind : ∃ bound,
            sqlite3.bind_all [platform; title; price; link; description; notes]
            = Ret bound).
  { unfold storable in Hst. destruct (sqlite3.bind_all _); [by eexists|done]. }
  destruct Hbind as [bound Hbind].
  eexists. split_and!; [done| |done..| | | |].
  - by rewrite view_set_conn, listings_insert_row, Ht.
  - intros i v Hi. by eapply stored_lookup.
  - intros i s Hi.
    destruct (stored_lookup _ _ _ _ Hbind Hi) as (b & Hb & ->). cbn in Hb.
    by injection Hb as <-.
  - intros i z Hi.
    destruct (stored_lookup _ _ _ _ Hbind Hi) as (b & Hb & ->). cbn in Hb.
    destruct (bool_decide _); [|done]. by injection Hb as <-.
  - intros i Hi.
    destruct (stored_lookup _ _ _ _ Hbind Hi) as (b & Hb & ->). cbn in Hb.
    by injection Hb as <-.
Qed.

End saving.

(** ** Keys *)

Lemma setup_run w txn :
  conn w = Connected txn →
  ∃ w',
    DatabaseManager.setup_database w = (Ret tt, w')
    ∧ sqlite3.view w' = sqlite3.create_table_if_not_exists "listings" (sqlite3.view w)
    ∧ (∃ txn', conn w' = Connected txn' ∧ (txn = None → txn' = None))
    ∧ (txn = None →
       file w' = sqlite3.create_table_if_not_exists "listings" (file w))
    ∧ (is_Some txn → file w' = file w)
    ∧ log w' = log w ++ [LogRecord INFO "Setting up the database." None]
    ∧ sent w' = sent w.
Proof.
  intros Hconn. destruct w as [l s f c]. cbn in Hconn. subst c.
  unfold DatabaseManager.setup_database. rewrite bind_run, logging_run.
  destruct txn as [t|]; eexists; (split; [reflexivity|]); cbn;
    split_and!; try done; try (by intros [? [=]]); eexists; by split.
Qed.

Lemma keys_fresh_append t key values :
  keys_fresh t →
  sqlite3.new_rowid t = Some key →
  keys_fresh (Table (rows t ++ [Row key values]) key).
Proof.
  intros [Hdup Hle] Hkey. destruct (new_rowid_above _ _ Hkey) as [Hrows Hseq].
  split; cbn.
  - rewrite fmap_app. apply NoDup_app. split_and!; [done| |apply NoDup_singleton].
    intros k Hk Hk'. apply list_elem_of_singleton in Hk'. subst k.
    apply list_elem_of_fmap in Hk as (r & Hr & Hin).
    eapply Forall_forall in Hrows; [|done]. cbn in Hr, Hrows. lia.
  - apply Forall_app. split.
    + eapply Forall_impl; [exact Hrows|]. intros r Hr. cbn in Hr. lia.
    + constructor; [cbn; lia|constructor].
Qed.

Lemma keys_fresh_created db :
  keys_fresh_in db →
  keys_fresh_in (sqlite3.create_table_if_not_exists "listings" db).
Proof.
  intros Hfresh t'. rewrite listings_created.
  destruct (listings db) as [t|] eqn:Ht; cbn; intros [= <-].
  - by apply Hfresh.
  - split; cbn; [apply NoDup_nil_2|constructor].
Qed.

(** X9.  The keys of [listings] stay distinct.  On an open connection,
    when the keys of the table are distinct and none is above the last key
    given out, both in the database the session sees and in the file, this
    still holds in both after [setup_database] and after [save_to_database],
    whether the save succeeds or raises.  A table that [setup_database]
    creates starts empty, with no key given out. *)
Theorem keys_stay_fresh {RT : Runtime}
    platform title price link description notes w txn :
  conn w = Connected txn →
  keys_fresh_in (sqlite3.view w) →
  keys_fresh_in (file w) →
  (keys_fresh_in (sqlite3.view (DatabaseManager.setup_database w).2)
   ∧ keys_fresh_in (file (DatabaseManager.setup_database w).2))
  ∧ (listings (sqlite3.view w) = None →
     listings (sqlite3.view (DatabaseManager.setup_database w).2)
     = Some (Table [] 0))
  ∧ (keys_fresh_in
       (sqlite3.view
          (DatabaseManager.save_to_database platform title price link
             description notes w).2)
     ∧ keys_fresh_in
         (file
            (DatabaseManager.save_to_database platform title price link
               description notes w).2)).
Proof.
  intros Hconn Hview Hfile. split_and!.
  - destruct (setup_run w txn Hconn) as (w' & -> & Hv & _). cbn [snd].
    rewrite Hv. by apply keys_fresh_created.
  - destruct (setup_run w txn Hconn) as (w' & -> & _ & _ & Hnone & Hsome & _).
    cbn [snd]. destruct txn as [t|].
    + by rewrite Hsome.
    + rewrite Hnone by done. apply keys_fresh_created.
      unfold sqlite3.view in Hview. by rewrite Hconn in Hview.
  - destruct (setup_run w txn Hconn) as (w' & -> & Hv & _). cbn [snd].
    rewrite Hv, listings_created. by intros ->.
  - rewrite (save_run _ _ _ _ _ _ _ _ Hconn). cbv zeta.
    destruct (listings (sqlite3.view w)) as [t|] eqn:Ht; [|done].
    destruct (sqlite3.bind_all _) as [bound|e]; [|done].
    destruct (sqlite3.new_rowid t) as [key|] eqn:Hkey.
    + destruct (sqlite3.not_null_ok _); [|done].
      cbn [snd]. rewrite view_set_conn. intros t'.
      rewrite listings_insert_row, Ht. cbn. intros [= <-].
      apply keys_fresh_append; [by apply Hview|done].
    + done.
  - rewrite (save_run _ _ _ _ _ _ _ _ Hconn). cbv zeta.
    destruct (listings (sqlite3.view w)) as [t|] eqn:Ht; [|done].
    destruct (sqlite3.bind_all _) as [bound|e]; [|done].
    destruct (sqlite3.new_rowid t) as [key|] eqn:Hkey; [|done].
    by destruct (sqlite3.not_null_ok _).
Qed.

(** ** A session *)

(** X10.  A listing saved in a session is in the file after the session.
    When the table [listings] of the file (an empty one when the file has
    none) has a key left, [with DatabaseManager() as db:
    db.setup_database(); db.save_to_database(...)] with six storable values
    returns, closes the connection and leaves in the file the table
    [listings] with its former rows followed by one row under the new key,
    which holds the six values as a TEXT column stores them. *)
Theorem saved_listing_persists {RT : Runtime}
    platform title price link description notes w key :
  storable [platform; title; price; link; description; notes] = true →
  sqlite3.new_rowid (default (Table [] 0) (listings (file w))) = Some key →
  ∃ w',
    DatabaseManager.with_
      (DatabaseManager.setup_database;;
       DatabaseManager.save_to_database platform title price link description notes)
      w = (Ret tt, w')
    ∧ conn w' = Closed
    ∧ listings (file w') =
        Some (Table (rows (default (Table [] 0) (listings (file w)))
                     ++ [Row key (stored [platform; title; price; link;
                                          description; notes])])
                key).
Proof.
  intros Hst Hkey. unfold DatabaseManager.with_, DatabaseManager.__enter__.
  destruct (setup_run (sqlite3.set_conn (Connected None) w) None eq_refl)
    as (w1 & Hsetup & Hview1 & (txn1 & Hconn1 & Hnone) & Hfile1 & _).
  rewrite (Hnone eq_refl) in Hconn1.
  assert (Hlist : listings (sqlite3.view w1)
                  = Some (default (Table [] 0) (listings (file w)))).
  { rewrite Hview1. apply listings_created. }
  rewrite bind_run, Hsetup.
  rewrite (save_ok platform title price link description notes w1 None _ _
             Hconn1 Hlist Hst Hkey).
  erewrite exit_run by reflexivity. eexists. split_and!; [done..|].
  cbn [file]. by rewrite view_set_conn, listings_insert_row, Hlist.
Qed.

(** ** The fields of a record *)

Lemma ebay_contribution_fields {RT : Runtime} max_price block d :
  contribution (ebay_try max_price) block = Ret (Some d) →
  ∃ h3 a href,
    bs4.find "h3" "s-item__title" block = Some h3
    ∧ bs4.find "a" "s-item__link" block = Some a
    ∧ bs4.getitem a "href" = Ret href
    ∧ d = item_dict (PyStr (bs4.get_text_strip h3))
            (PyStr (match bs4.find "span" "s-item__price" block with
                    | Some t => bs4.get_text t
                    | None => "N/A"
                    end))
            (bs4.attr_value href)
            (PyStr (match bs4.find "div" "s-item__subtitle" block with
                    | Some s => bs4.get_text_strip s
                    | None => "N/A"
                    end)).
Proof.
  unfold contribution, ebay_try.
  destruct (bs4.find "h3" "s-item__title" block) as [h3|]; [|done]. cbn.
  destruct (bs4.find "a" "s-item__link" block) as [a|] eqn:Ha;
    [|by repeat body_step].
  destruct (bs4.getitem a "href") as [href|e] eqn:Hhref; cbn.
  - intros Hd. exists h3, a, href. split_and!; [done..|]. revert Hd.
    destruct max_price; repeat body_step; intros; by simplify_eq.
  - by repeat body_step.
Qed.


(** X12.  A record of the Etsy extractor comes from a result object that
    is a dict: its title, link and description are the values under
    [title], [url] and [description], its price is "$" followed by the
    value under [price] as [str] prints it, and a missing key counts as
    "N/A", so that a missing price is shown as "$N/A". *)
Theorem etsy_record_fields {RT : Runtime} max_price item r :
  contribution (etsy_try max_price) item = Ret (Some r) →
  ∃ d,
    item = PyDict d
    ∧ r = item_dict (default (PyStr "N/A") (d !! "title"))
            (PyStr ("$" +:+ builtins.str (default (PyStr "N/A") (d !! "price"))))
            (default (PyStr "N/A") (d !! "url"))
            (default (PyStr "N/A") (d !! "description"))
    ∧ (d !! "price" = None → r !! "price" = Some (PyStr "$N/A")).
Proof.
  unfold contribution, etsy_try. destruct item as [| | | | | |d]; try done. cbn.
  intros Hr. exists d. split; [done|].
  assert (r = item_dict (default (PyStr "N/A") (d !! "title"))
                (PyStr ("$" +:+ builtins.str (default (PyStr "N/A") (d !! "price"))))
                (default (PyStr "N/A") (d !! "url"))
                (default (PyStr "N/A") (d !! "description"))) as ->.
  { revert Hr. destruct max_price as [m|]; cbn.
    - destruct (builtins.is_NA _); cbn; [done|].
      destruct (builtins.float _) as [p|e]; cbn; [|done].
      destruct (p <=? m)%float; intros; by simplify_eq.
    - intros; by simplify_eq. }
  split; [done|]. intros ->. cbn.
  unfold item_dict. rewrite lookup_insert_ne, lookup_insert_ne by done.
  by rewrite lookup_insert_eq.
Qed.

(** X13.  Every record of the eBay extractor whose link is a single
    string can be saved by [main], whatever the platform name and the
    notes: its fields are there and its values are storable. *)
Theorem ebay_records_saveable {RT : Runtime} {SM : StrMethods}
    max_price block d platform note :
  contribution (ebay_try max_price) block = Ret (Some d) →
  (∃ s, d !! "link" = Some (PyStr s)) →
  saveable platform d note.
Proof.
  intros Hd [s Hlink].
  apply ebay_contribution_fields in Hd as (h3 & a & href & _ & _ & _ & ->).
  unfold saveable, saved_values, item_dict in *.
  rewrite lookup_insert_ne, lookup_insert_eq in Hlink by done.
  rewrite !lookup_insert_eq.
  rewrite (lookup_insert_ne _ "description" "link") by done.
  rewrite (lookup_insert_ne _ "description" "price") by done.
  rewrite (lookup_insert_ne _ "description" "title") by done.
  rewrite (lookup_insert_ne _ "link" "price") by done.
  rewrite (lookup_insert_ne _ "link" "title") by done.
  rewrite (lookup_insert_ne _ "price" "title") by done.
  rewrite !lookup_insert_eq, lookup_singleton_eq.
  simplify_eq. rewrite Hlink. by split_and!; eauto.
Qed.

(** ** The count that is logged *)

(** X14.  A search that returns has logged, last, either the count of the
    records it returns, or, when the fetch failed, the error, and then it
    returns the empty list (so has the Etsy search without its key). *)
Theorem found_count_logged {RT : Runtime} E q max_price w items w' :
  (find_ebay_items E q max_price w = (Ret items, w') →
   last (log w') = Some (found (length items) "eBay")
   ∨ (items = [] ∧ ∃ record, last (log w') = Some record
                             ∧ levelname record = ERROR))
  ∧ (find_etsy_items E q max_price w = (Ret items, w') →
     last (log w') = Some (found (length items) "Etsy")
     ∨ (items = [] ∧ ∃ record, last (log w') = Some record
                               ∧ levelname record = ERROR)).
Proof.
  split; intros Hrun.
  - destruct (fetch_url E (ebay_url q) w) as [[response|e] w1] eqn:Hfetch.
    + rewrite (find_ebay_items_fetched _ _ _ _ _ _ Hfetch) in Hrun.
      destruct (ebay_loop _ _ _ _) as [[items'|e] w2]; [|done].
      simplify_eq. left. cbn. by rewrite last_snoc.
    + rewrite (find_ebay_items_failed _ _ _ _ _ _ Hfetch) in Hrun.
      destruct (bool_decide (e = RequestException)); [|done].
      simplify_eq. right. split; [done|]. eexists. cbn. by rewrite last_snoc.
  - destruct (falsy (environ E !! "ETSY_API_KEY")) eqn:Hkey.
    { rewrite find_etsy_items_no_key in Hrun by done.
      simplify_eq. right. split; [done|]. eexists. cbn. by rewrite last_snoc. }
    destruct (fetch_url E
                (etsy_url (default "" (environ E !! "ETSY_API_KEY")) q) w)
      as [[response|e] w1] eqn:Hfetch.
    + rewrite (find_etsy_items_fetched _ _ _ _ _ _ Hkey Hfetch) in Hrun.
      destruct (json response) as [data|e].
      * destruct (results ← builtins.get data "results" (PyList []);
                  builtins.iter results) as [results|e]; [|done].
        destruct (etsy_loop _ _ _ _) as [[items'|e] w2]; [|done].
        simplify_eq. left. cbn. by rewrite last_snoc.
      * destruct (bool_decide (e = RequestException)); [|done].
        simplify_eq. right. split; [done|]. eexists. cbn. by rewrite last_snoc.
    + rewrite (find_etsy_items_failed _ _ _ _ _ _ Hkey Hfetch) in Hrun.
      destruct (bool_decide (e = RequestException)); [|done].
      simplify_eq. right. split; [done|]. eexists. cbn. by rewrite last_snoc.
Qed.

(** ** Reading the terminal *)

Lemma io_bind_run {A B} (m : IO A) (f : A → IO B) t w :
  (m ≫= f) t w =
    match m t w with
    | (Ret a, t', w') => f a t' w'
    | (Raise e, t', w') => (Raise e, t', w')
    end.
Proof. reflexivity. Qed.

Section reading.
Context {RT : Runtime}.

(** The loop of [get_user_input] is the loop of the source: read a line,
    strip it, and either complain and start again or return it. *)
Lemma get_user_input_loop prompt validator t w :
  get_user_input prompt validator t w =
    (line ← input (Fore.CYAN +:+ prompt);
     let user_input := str_strip line in
     bad ← liftres (match validator with
                    | Some v => negb <$> v user_input
                    | None => Ret false
                    end);
     if bad : bool
     then print (Fore.RED +:+ "Invalid input, please try again.");;
          get_user_input prompt validator
     else mret user_input) t w.
Proof.
  unfold get_user_input. rewrite io_bind_run. unfold input.
  destruct t as [[|line rest] out]; cbn [stdin stdout get_user_input_lines]; [done|].
  rewrite io_bind_run. unfold liftres.
  destruct (match validator with Some v => _ | None => _ end) as [[]|e]; [|done..].
  by rewrite io_bind_run.
Qed.

(** What the loop does on lines that start with rejected ones. *)
Lemma get_user_input_lines_rejected prompt validator rejected :
  ∀ lines out,
    Forall (λ l, rejects validator (str_strip l)) rejected →
    get_user_input_lines prompt validator (rejected ++ lines) out =
      get_user_input_lines prompt validator lines (out ++ reprompts prompt rejected).
Proof.
  induction rejected as [|l rejected IH]; intros lines out Hall.
  - cbn. by rewrite app_nil_r.
  - apply Forall_cons in Hall as [Hl Hall]. cbn [app get_user_input_lines].
    destruct validator as [v|]; [|done]. cbn in Hl. rewrite Hl. cbn.
    rewrite IH by done. f_equal. by rewrite <-!app_assoc.
Qed.

(** Every outcome of the loop comes from a split of the lines. *)
Lemma get_user_input_lines_inv prompt validator :
  ∀ lines out r t',
    get_user_input_lines prompt validator lines out = (r, t') →
    ∃ rejected,
      Forall (λ l, rejects validator (str_strip l)) rejected
      ∧ stdout t' = out ++ reprompts prompt rejected ++ [Prompted (Fore.CYAN +:+ prompt)]
      ∧ ((lines = rejected ∧ r = Raise EOFError ∧ stdin t' = [])
         ∨ ∃ line,
             lines = rejected ++ line :: stdin t'
             ∧ ((r = Ret (str_strip line) ∧ accepts validator (str_strip line))
                ∨ ∃ v e, validator = Some v ∧ v (str_strip line) = Raise e
                         ∧ r = Raise e)).
Proof.
  induction lines as [|line lines IH]; intros out r t' Hrun.
  - cbn in Hrun. simplify_eq. exists []. cbn. split_and!; [done..|]. by left.
  - cbn [get_user_input_lines] in Hrun.
    destruct validator as [v|].
    + destruct (v (str_strip line)) as [[]|e] eqn:Hv; cbn in Hrun.
      * simplify_eq. exists []. cbn. split_and!; [done..|].
        right. exists line. split; [done|]. by left.
      * apply IH in Hrun as (rejected & Hall & Hout & Hcase).
        exists (line :: rejected). split_and!.
        -- by constructor.
        -- rewrite Hout. cbn. by rewrite <-!app_assoc.
        -- destruct Hcase as [(-> & -> & Hin)|(line' & -> & Hcase)];
             [by left|right; by exists line'].
      * simplify_eq. exists []. cbn. split_and!; [done..|].
        right. exists line. split; [done|]. right. by exists v, e.
    + cbn in Hrun. simplify_eq. exists []. cbn. split_and!; [done..|].
      right. exists line. split; [done|]. by left.
Qed.

(** X15.  [get_user_input] returns the first line of standard input that
    its validator accepts, stripped: the lines before it were all rejected,
    each one answered by the prompt and the complaint, they and the
    accepted line are consumed and nothing more, and nothing but the
    terminal changes.  Without a validator the first line is returned,
    whatever it is. *)
Theorem get_user_input_first_accepted prompt validator t w s t' w' :
  get_user_input prompt validator t w = (Ret s, t', w') →
  ∃ rejected line,
    stdin t = rejected ++ line :: stdin t'
    ∧ s = str_strip line
    ∧ accepts validator s
    ∧ Forall (λ l, rejects validator (str_strip l)) rejected
    ∧ (validator = None → rejected = [])
    ∧ stdout t' =
        stdout t ++ reprompts prompt rejected ++ [Prompted (Fore.CYAN +:+ prompt)]
    ∧ w' = w.
Proof.
  unfold get_user_input.
  destruct (get_user_input_lines _ _ _ _) as [r t1] eqn:Hrun. intros [= -> -> ->].
  apply get_user_input_lines_inv in Hrun as (rejected & Hall & Hout & Hcase).
  destruct Hcase as [(_ & [=] & _)|(line & Hlines & [[[= ->] Hacc]|(v & e & _ & _ & [=])])].
  exists rejected, line. split_and!; try done.
  intros ->. destruct rejected as [|l rejected]; [done|].
  by apply Forall_cons in Hall as [[] _].
Qed.

(** X16.  When every line left on standard input is rejected (or none is
    left), [get_user_input] raises [EOFError], after one prompt and one
    complaint for each line and a last prompt. *)
Theorem get_user_input_eof prompt validator t w :
  Forall (λ l, rejects validator (str_strip l)) (stdin t) →
  get_user_input prompt validator t w =
    (Raise EOFError,
     Terminal [] (stdout t ++ reprompts prompt (stdin t)
                  ++ [Prompted (Fore.CYAN +:+ prompt)]),
     w).
Proof.
  intros Hall. unfold get_user_input.
  rewrite <-(app_nil_r (stdin t)) at 1.
  rewrite get_user_input_lines_rejected by done. cbn.
  by rewrite <-app_assoc.
Qed.
End reading.

(** ** The inputs of the session *)

Section inputs.
Context {RT : Runtime} {SM : StrMethods}.

Lemma price_validator_float s :
  price_validator s = Ret true →
  s ≠ "" →
  ∃ f, float_of_str s = Some f ∧ builtins.float (PyStr s) = Ret f.
Proof.
  unfold price_validator, is_float. cbn.
  destruct (float_of_str s) as [f|]; cbn; [by eauto|].
  intros [= Hs] Hne. by apply String.eqb_eq in Hs.
Qed.

(** X17.  What [main] reads is valid when it is used: the platform it gets
    is "ebay" or "etsy" in lower case, the query is not empty, and the text
    of the ceiling is empty or a number, so that the conversion
    [float(max_price_input)] of [main] does not raise. *)
Theorem validated_inputs prompt t w s t' w' :
  (get_user_input prompt (Some platform_validator) t w = (Ret s, t', w') →
   str_lower s = "ebay" ∨ str_lower s = "etsy")
  ∧ (get_user_input prompt (Some query_validator) t w = (Ret s, t', w') →
     s ≠ "")
  ∧ (get_user_input prompt (Some price_validator) t w = (Ret s, t', w') →
     s = "" ∨ ∃ f, builtins.float (PyStr s) = Ret f).
Proof.
  unfold get_user_input. split_and!;
    (destruct (get_user_input_lines _ _ _ _) as [r t1] eqn:Hrun;
     intros [= -> -> ->];
     apply get_user_input_lines_inv in Hrun as (rejected & _ & _ & Hcase);
     destruct Hcase as [(_ & [=] & _)
                       |(line & _ & [[[= ->] Hacc]|(v & e & _ & _ & [=])])];
     cbn in Hacc).
  - unfold platform_validator in Hacc. injection Hacc as Hacc.
    apply orb_true_iff in Hacc as [Hacc|Hacc]; apply String.eqb_eq in Hacc; auto.
  - unfold query_validator in Hacc. injection Hacc as Hacc.
    apply Nat.ltb_lt in Hacc. intros Hs. rewrite Hs in Hacc. cbn in Hacc. lia.
  - destruct (decide (str_strip line = "")) as [Hs|Hs]; [by left|right].
    destruct (price_validator_float _ Hacc Hs) as (f & _ & Hf). by exists f.
Qed.
End inputs.

(** ** The session *)

Section main_program.
Context {RT : Runtime} {SM : StrMethods}.

Lemma search_store E platform query max_price w r w2 :
  search E platform query max_price w = (r, w2) →
  file w2 = file w ∧ conn w2 = conn w.
Proof.
  unfold search. destruct (String.eqb (str_lower platform) "ebay"); intros Hrun.
  - destruct (find_ebay_items_frame E query max_price w) as (k & records & _ & Hw).
    rewrite Hrun in Hw. cbn in Hw. by subst w2.
  - destruct (find_etsy_items_frame E query max_price w) as (k & records & _ & _ & Hw).
    rewrite Hrun in Hw. cbn in Hw. by subst w2.
Qed.

(** [main] up to the search: the schema is set up, the three inputs are
    read, the ceiling is converted and the search runs; the rest is the
    branch on the items and the exit of the store. *)
Lemma main_run E t w platform query price_in t1 t2 t3 items w2 :
  get_user_input_lines "Enter the platform to search (eBay or Etsy): "
    (Some platform_validator) (stdin t) (stdout t) = (Ret platform, t1) →
  get_user_input_lines "Enter the item you want to search for: "
    (Some query_validator) (stdin t1) (stdout t1) = (Ret query, t2) →
  get_user_input_lines "Enter the maximum price (or leave blank for no limit): "
    (Some price_validator) (stdin t2) (stdout t2) = (Ret price_in, t3) →
  search E platform query (max_price_of price_in) (ready w) = (Ret items, w2) →
  main E t w =
    match
      match items with
      | [] => print (Fore.YELLOW +:+ "No items found.")
      | _ :: _ => save_items platform items
      end t3 w2
    with
    | (Ret a, t4, w4) =>
        match liftPy (DatabaseManager.__exit__ None) t4 w4 with
        | (Ret _, t5, w5) => (Ret a, t5, w5)
        | (Raise e, t5, w5) => (Raise e, t5, w5)
        end
    | (Raise e, t4, w4) =>
        match liftPy (DatabaseManager.__exit__ (Some e)) t4 w4 with
        | (Ret _, t5, w5) => (Raise e, t5, w5)
        | (Raise e', t5, w5) => (Raise e', t5, w5)
        end
    end.
Proof.
  intros H1 H2 H3 Hsearch. unfold main, with_DatabaseManager.
  assert (Henter : liftPy DatabaseManager.__enter__ t w
                   = (Ret tt, t, sqlite3.set_conn (Connected None) w)) by done.
  rewrite Henter. rewrite io_bind_run.
  assert (Hsetup : liftPy DatabaseManager.setup_database t
                     (sqlite3.set_conn (Connected None) w)
                   = (Ret tt, t, ready w)) by by destruct w.
  rewrite Hsetup.
  rewrite io_bind_run. unfold get_user_input at 1. rewrite H1.
  rewrite io_bind_run. unfold get_user_input at 1. rewrite H2.
  rewrite io_bind_run. unfold get_user_input at 1. rewrite H3.
  rewrite io_bind_run.
  assert (Hprice : (if String.eqb price_in "" then mret None
                    else liftres (Some <$> builtins.float (PyStr price_in))) t3 (ready w)
                   = (Ret (max_price_of price_in), t3, ready w)).
  { unfold max_price_of. destruct (String.eqb price_in "") eqn:Hempty; [done|].
    apply get_user_input_lines_inv in H3 as (rejected & _ & _ & Hcase).
    destruct Hcase as [(_ & [=] & _)
                      |(line & _ & [[[= ->] Hacc]|(v & e & _ & _ & [=])])].
    cbn in Hacc. apply String.eqb_neq in Hempty.
    destruct (price_validator_float _ Hacc Hempty) as (f & Hf & Hfloat).
    unfold liftres. by rewrite Hfloat, Hf. }
  rewrite Hprice. rewrite io_bind_run.
  fold (search E platform query (max_price_of price_in)).
  unfold liftPy at 1. rewrite Hsearch. done.
Qed.

Lemma liftres_run {A} (r : res A) t w : liftres r t w = (r, t, w).
Proof. done. Qed.

Lemma liftPy_run {A} (m : Py A) t w :
  liftPy m t w = let (r, w') := m w in (r, t, w').
Proof. done. Qed.

Lemma print_run s t w :
  print s t w = (Ret tt, Terminal (stdin t) (stdout t ++ [Printed s]), w).
Proof. done. Qed.

Lemma get_user_input_none prompt t w line rest :
  stdin t = line :: rest →
  get_user_input prompt None t w =
    (Ret (str_strip line),
     Terminal rest (stdout t ++ [Prompted (Fore.CYAN +:+ prompt)]), w).
Proof. intros Hin. unfold get_user_input. by rewrite Hin. Qed.

Lemma append_rows_cons t v values t' :
  append_rows t (v :: values) = Some t' →
  ∃ key,
    sqlite3.new_rowid t = Some key
    ∧ append_rows (Table (rows t ++ [Row key v]) key) values = Some t'.
Proof.
  cbn. unfold append_row. destruct (sqlite3.new_rowid t) as [key|]; [|done].
  cbn. intros Happ. by exists key.
Qed.

(** Appended rows come after the rows of the table, one for each list of
    values, in order, each under a key above the keys before it. *)
Lemma append_rows_rows values : ∀ t t',
  append_rows t values = Some t' →
  ∃ keys,
    rows t' = rows t ++ zip_with Row keys values
    ∧ length keys = length values
    ∧ Forall (λ k, Forall (λ r, (row_id r < k)%Z) (rows t)) keys.
Proof.
  induction values as [|v values IH]; intros t t' Happ.
  - cbn in Happ. injection Happ as <-. exists []. cbn.
    by rewrite app_nil_r.
  - apply append_rows_cons in Happ as (key & Hkey & Happ).
    destruct (new_rowid_above _ _ Hkey) as [Habove _].
    apply IH in Happ as (keys & Hrows & Hlen & Hall). cbn [rows] in Hrows, Hall.
    exists (key :: keys). cbn. split_and!.
    + by rewrite Hrows, <-app_assoc.
    + by rewrite Hlen.
    + constructor; [done|]. eapply Forall_impl; [done|].
      intros k Hk. by apply Forall_app in Hk as [Hk _].
Qed.

(** The loop of [main] on items that start with ones that can be saved,
    with their notes on standard input. *)
Lemma save_items_app platform good notes :
  Forall2 (saveable platform) good notes →
  ∀ more rest t w txn tbl tbl',
    stdin t = notes ++ rest →
    conn w = Connected txn →
    listings (sqlite3.view w) = Some tbl →
    append_rows tbl (zip_with (stored_values platform) good notes) = Some tbl' →
    ∃ w',
      save_items platform (good ++ more) t w =
        save_items platform more (Terminal rest (stdout t ++ shown good)) w'
      ∧ listings (sqlite3.view w') = Some tbl'
      ∧ file w' = file w
      ∧ sent w' = sent w
      ∧ ∃ txn', conn w' = Connected txn'.
Proof.
  induction 1 as [|item note items notes Hsave Hall IH];
    intros more rest t w txn tbl tbl' Hin Hconn Htbl Happ.
  - cbn in Hin, Happ. injection Happ as <-. destruct t as [i o]. cbn in *. subst i.
    exists w. rewrite app_nil_r. split_and!; by eauto.
  - destruct Hsave as ([ti Hti] & [pr Hpr] & [li Hli] & Hst).
    cbn [zip_with] in Happ. apply append_rows_cons in Happ as (key & Hkey & Happ).
    unfold stored_values at 1 in Happ.
    unfold saved_values in Hst, Happ. rewrite Hti, Hpr, Hli in Hst, Happ.
    cbn [default from_option id] in Hst, Happ.
    cbn [app save_items]. unfold dict_getitem. rewrite Hti, Hpr, Hli.
    do 3 (rewrite io_bind_run, liftres_run; cbv beta iota).
    rewrite io_bind_run, print_run. cbv beta iota.
    rewrite io_bind_run.
    rewrite (get_user_input_none _ _ _ note (notes ++ rest)) by done.
    cbv beta iota. rewrite io_bind_run, liftPy_run.
    rewrite (save_ok _ _ _ _ _ _ w txn tbl key Hconn Htbl Hst Hkey). cbv beta iota.
    match goal with
    | |- context [save_items platform (items ++ more) ?t1 ?w1] =>
        edestruct (IH more rest t1 w1)
          as (w' & Hrun & Hrows & Hfile & Hsent & Hconn');
          [done|done| |exact Happ|]
    end.
    { by rewrite view_set_conn, listings_insert_row, Htbl. }
    exists w'. rewrite Hrun. split_and!.
    + f_equal. f_equal. cbn [stdout]. unfold shown. cbn [mbind list_bind].
      rewrite Hti, Hpr, Hli. cbn [default from_option id]. by rewrite <-!app_assoc.
    + done.
    + by rewrite Hfile.
    + by rewrite Hsent.
    + done.
Qed.

Lemma save_items_run platform items notes :
  Forall2 (saveable platform) items notes →
  ∀ rest t w txn tbl tbl',
    stdin t = notes ++ rest →
    conn w = Connected txn →
    listings (sqlite3.view w) = Some tbl →
    append_rows tbl (zip_with (stored_values platform) items notes) = Some tbl' →
    ∃ w',
      save_items platform items t w =
        (Ret tt, Terminal rest (stdout t ++ shown items), w')
      ∧ listings (sqlite3.view w') = Some tbl'
      ∧ file w' = file w
      ∧ sent w' = sent w
      ∧ ∃ txn', conn w' = Connected txn'.
Proof.
  intros Hall rest t w txn tbl tbl' Hin Hconn Htbl Happ.
  destruct (save_items_app platform items notes Hall [] rest t w txn tbl tbl'
              Hin Hconn Htbl Happ) as (w' & Hrun & Hrest).
  exists w'. rewrite app_nil_r in Hrun. by rewrite Hrun.
Qed.

(** The loop of [main] on an item whose values cannot be stored, while a
    key is left in the table. *)
Lemma save_items_fails platform item note more rest t w txn tbl :
  is_Some (item !! "title") → is_Some (item !! "price") → is_Some (item !! "link") →
  storable (saved_values platform item note) = false →
  stdin t = note :: rest →
  conn w = Connected txn →
  listings (sqlite3.view w) = Some tbl →
  is_Some (sqlite3.new_rowid tbl) →
  ∃ w',
    save_items platform (item :: more) t w =
      (Raise (save_error (saved_values platform item note)),
       Terminal rest (stdout t ++ shown [item]), w')
    ∧ sqlite3.view w' = sqlite3.view w
    ∧ sent w' = sent w
    ∧ ∃ txn', conn w' = Connected txn'.
Proof.
  intros [ti Hti] [pr Hpr] [li Hli] Hst Hin Hconn Htbl [key Hkey].
  unfold save_error. unfold storable in Hst.
  unfold saved_values in *. rewrite Hti, Hpr, Hli in *. cbn [default from_option id] in *.
  cbn [save_items]. unfold dict_getitem. rewrite Hti, Hpr, Hli.
  do 3 (rewrite io_bind_run, liftres_run; cbv beta iota).
  rewrite io_bind_run, print_run. cbv beta iota.
  rewrite io_bind_run.
  rewrite (get_user_input_none _ _ _ note rest) by done.
  cbv beta iota. rewrite io_bind_run, liftPy_run.
  rewrite (save_run _ _ _ _ _ _ w txn Hconn). cbv zeta.
  rewrite Htbl, Hkey.
  assert (Hshown : stdout t ++ shown [item] =
            (stdout t ++ [Printed (Fore.GREEN +:+ "Title: " +:+ builtins.str ti
                                   +:+ ", Price: " +:+ builtins.str pr
                                   +:+ ", Link: " +:+ builtins.str li)])
            ++ [Prompted (Fore.CYAN +:+ "Enter notes for '" +:+ builtins.str ti
                          +:+ "': ")]).
  { unfold shown. cbn [mbind list_bind]. rewrite Hti, Hpr, Hli.
    cbn [default from_option id]. by rewrite <-!app_assoc. }
  rewrite Hshown.
  destruct (sqlite3.bind_all _) as [bound|e].
  - rewrite Hst. eexists. split_and!; [done|by rewrite view_set_conn|done|by eexists].
  - eexists. split_and!; [done|by rewrite view_set_conn|done|by eexists].
Qed.

(** X18.  When the search finds nothing, [main] says so and saves
    nothing, and still returns normally with the store committed and
    closed: the file then holds its former content, with the table
    [listings] created if it was not there. *)
Theorem main_no_items E t w platform query price_in t1 t2 t3 w2 :
  get_user_input_lines "Enter the platform to search (eBay or Etsy): "
    (Some platform_validator) (stdin t) (stdout t) = (Ret platform, t1) →
  get_user_input_lines "Enter the item you want to search for: "
    (Some query_validator) (stdin t1) (stdout t1) = (Ret query, t2) →
  get_user_input_lines "Enter the maximum price (or leave blank for no limit): "
    (Some price_validator) (stdin t2) (stdout t2) = (Ret price_in, t3) →
  search E platform query (max_price_of price_in) (ready w) = (Ret [], w2) →
  main E t w =
    (Ret tt,
     Terminal (stdin t3) (stdout t3 ++ [Printed (Fore.YELLOW +:+ "No items found.")]),
     World (log w2) (sent w2)
       (sqlite3.create_table_if_not_exists "listings" (file w)) Closed).
Proof.
  intros H1 H2 H3 Hsearch.
  rewrite (main_run E t w _ _ _ _ _ _ _ _ H1 H2 H3 Hsearch).
  destruct (search_store _ _ _ _ _ _ _ Hsearch) as [Hfile Hconn].
  rewrite print_run, liftPy_run, (exit_run None w2 None Hconn).
  unfold sqlite3.view. rewrite Hconn, Hfile. cbn. by rewrite app_nil_r.
Qed.

(** X19.  When the search finds items that can be saved, a line of notes
    is there for each and the keys of the table do not run out, [main]
    shows each item, reads its notes and saves it: it returns normally,
    consumes exactly those lines, and the committed file holds the table
    [listings] with its former rows followed by one row for each item, in
    the order of the search, each under a key above the keys of the former
    rows.  A row holds, as TEXT columns store them, the platform
    capitalized, the title, price, link and description of the item, and
    the notes stripped. *)
Theorem main_saves_items E t w platform query price_in t1 t2 t3 item items
    notes rest w2 tbl :
  get_user_input_lines "Enter the platform to search (eBay or Etsy): "
    (Some platform_validator) (stdin t) (stdout t) = (Ret platform, t1) →
  get_user_input_lines "Enter the item you want to search for: "
    (Some query_validator) (stdin t1) (stdout t1) = (Ret query, t2) →
  get_user_input_lines "Enter the maximum price (or leave blank for no limit): "
    (Some price_validator) (stdin t2) (stdout t2) = (Ret price_in, t3) →
  search E platform query (max_price_of price_in) (ready w)
    = (Ret (item :: items), w2) →
  stdin t3 = notes ++ rest →
  Forall2 (saveable platform) (item :: items) notes →
  append_rows (default (Table [] 0) (listings (file w)))
    (zip_with (stored_values platform) (item :: items) notes) = Some tbl →
  ∃ w' keys,
    main E t w =
      (Ret tt, Terminal rest (stdout t3 ++ shown (item :: items)), w')
    ∧ conn w' = Closed
    ∧ sent w' = sent w2
    ∧ listings (file w') = Some tbl
    ∧ rows tbl =
        rows (default (Table [] 0) (listings (file w)))
        ++ zip_with Row keys (zip_with (stored_values platform) (item :: items) notes)
    ∧ length keys = length (item :: items)
    ∧ Forall (λ k, Forall (λ r, (row_id r < k)%Z)
                     (rows (default (Table [] 0) (listings (file w))))) keys.
Proof.
  intros H1 H2 H3 Hsearch Hin Hall Happ.
  rewrite (main_run E t w _ _ _ _ _ _ _ _ H1 H2 H3 Hsearch).
  destruct (search_store _ _ _ _ _ _ _ Hsearch) as [Hfile Hconn].
  assert (Htbl : listings (sqlite3.view w2)
                 = Some (default (Table [] 0) (listings (file w)))).
  { unfold sqlite3.view. rewrite Hconn, Hfile. apply listings_created. }
  destruct (save_items_run platform _ _ Hall rest t3 w2 None _ _ Hin Hconn Htbl Happ)
    as (w4 & -> & Hrows & _ & Hsent & txn4 & Hconn4).
  rewrite liftPy_run, (exit_run None w4 txn4 Hconn4).
  destruct (append_rows_rows _ _ _ Happ) as (keys & Hkeys & Hlen & Habove).
  exists (World (log w4 ++ []) (sent w4) (sqlite3.view w4) Closed), keys.
  split_and!; [done..| |done| |done].
  - cbn [file]. by rewrite Hrows.
  - rewrite Hlen, length_zip_with.
    apply Forall2_length in Hall. cbn [length] in *. lia.
Qed.

(** X20.  When a save fails in [main] because its values cannot be stored
    (one does not bind, or a NOT NULL column would be NULL) while a key is
    left, what was saved before it is committed all the same: [main] raises
    the exception of the failed save after logging it as an error, the
    store is closed, and the committed file holds the former rows of
    [listings] followed by one row for each item saved before the failure,
    and none for the item that failed nor for those after it. *)
Theorem main_failed_save_commits E t w platform query price_in t1 t2 t3 good bad
    more notes note rest w2 tbl :
  get_user_input_lines "Enter the platform to search (eBay or Etsy): "
    (Some platform_validator) (stdin t) (stdout t) = (Ret platform, t1) →
  get_user_input_lines "Enter the item you want to search for: "
    (Some query_validator) (stdin t1) (stdout t1) = (Ret query, t2) →
  get_user_input_lines "Enter the maximum price (or leave blank for no limit): "
    (Some price_validator) (stdin t2) (stdout t2) = (Ret price_in, t3) →
  search E platform query (max_price_of price_in) (ready w)
    = (Ret (good ++ bad :: more), w2) →
  stdin t3 = notes ++ note :: rest →
  Forall2 (saveable platform) good notes →
  append_rows (default (Table [] 0) (listings (file w)))
    (zip_with (stored_values platform) good notes) = Some tbl →
  is_Some (bad !! "title") ∧ is_Some (bad !! "price") ∧ is_Some (bad !! "link") →
  storable (saved_values platform bad note) = false →
  is_Some (sqlite3.new_rowid tbl) →
  ∃ w' keys,
    main E t w =
      (Raise (save_error (saved_values platform bad note)),
       Terminal rest (stdout t3 ++ shown (good ++ [bad])), w')
    ∧ conn w' = Closed
    ∧ last (log w') =
        Some (LogRecord ERROR "Database operation failed"
                (Some (save_error (saved_values platform bad note))))
    ∧ listings (file w') = Some tbl
    ∧ rows tbl =
        rows (default (Table [] 0) (listings (file w)))
        ++ zip_with Row keys (zip_with (stored_values platform) good notes)
    ∧ length keys = length good.
Proof.
  intros H1 H2 H3 Hsearch Hin Hall Happ (Hti & Hpr & Hli) Hst Hleft.
  rewrite (main_run E t w _ _ _ _ _ _ _ _ H1 H2 H3 Hsearch).
  destruct (search_store _ _ _ _ _ _ _ Hsearch) as [Hfile Hconn].
  assert (Htbl : listings (sqlite3.view w2)
                 = Some (default (Table [] 0) (listings (file w)))).
  { unfold sqlite3.view. rewrite Hconn, Hfile. apply listings_created. }
  assert (Hbranch : match good ++ bad :: more with
                    | [] => print (Fore.YELLOW +:+ "No items found.")
                    | _ :: _ => save_items platform (good ++ bad :: more)
                    end = save_items platform (good ++ bad :: more))
    by by destruct good.
  rewrite Hbranch.
  destruct (save_items_app platform good notes Hall (bad :: more) (note :: rest)
              t3 w2 None _ _ Hin Hconn Htbl Happ)
    as (w3 & -> & Hrows & _ & _ & txn3 & Hconn3).
  destruct (save_items_fails platform bad note more rest
              (Terminal (note :: rest) (stdout t3 ++ shown good)) w3 txn3 _
              Hti Hpr Hli Hst eq_refl Hconn3 Hrows Hleft)
    as (w4 & -> & Hview & _ & txn4 & Hconn4).
  rewrite liftPy_run, (exit_run _ w4 txn4 Hconn4).
  destruct (append_rows_rows _ _ _ Happ) as (keys & Hkeys & Hlen & _).
  eexists _, keys. split_and!.
  - f_equal. f_equal. cbn [stdout]. unfold shown.
    by rewrite bind_app, app_assoc.
  - done.
  - cbn [log]. by rewrite last_snoc.
  - cbn [file]. by rewrite Hview, Hrows.
  - done.
  - rewrite Hlen, length_zip_with.
    apply Forall2_length in Hall. lia.
Qed.
End main_program.

Import examples.
#[local] Existing Instance example_runtime.runtime.

(** C1, as stated, fails: the listing "Sofa" parses (without a ceiling its
    record is returned) and its numeric price is absent, yet under the
    ceiling 50.0 it is not in the output. *)
Lemma price_ceiling_counterexample :
  ebay_price_numeric sofa = Ret None
  ∧ (find_ebay_items (market (document [sofa]) (results [])) "sofa" None start).1
    = Ret [item_dict (PyStr "Sofa") (PyStr "N/A") (PyStr "http://x/2") (PyStr "N/A")]
  ∧ (find_ebay_items (market (document [sofa]) (results [])) "sofa"
       (Some 50%float) start).1
    = Ret [].
Proof. split_and!; vm_compute; reflexivity. Qed.

(** The statement of C1 under a ceiling, on a page with "Vintage Lamp",
    a block without its title and "Sofa" (ceiling 50.0), and on the payload
    of "Mug", "Vase", whose price is no number, and a nameless object
    (ceiling 10.0). *)
Lemma price_ceiling_filter_witness :
  (fetch_url (market (document [lamp; untitled; sofa]) (results [mug; vase; nameless]))
     (ebay_url "lamp") start
     = (Ret (page (document [lamp; untitled; sofa])), after (ebay_url "lamp"))
   ∧ Forall (λ b, has_title b = false ∨ well_formed b = true)
       (ebay_blocks (page (document [lamp; untitled; sofa])))
   ∧ Forall (λ b, is_Some (ebay_record b) ↔ well_formed b = true)
       (ebay_blocks (page (document [lamp; untitled; sofa])))
   ∧ (find_ebay_items
        (market (document [lamp; untitled; sofa]) (results [mug; vase; nameless]))
        "lamp" (Some 50%float) start).1
     = Ret (omap ebay_record
              (List.filter (λ b, within (Some 50%float) (ebay_price b))
                 (ebay_blocks (page (document [lamp; untitled; sofa]))))))
  ∧ (etsy_results (api (results [mug; vase; nameless])) = Ret [mug; vase; nameless]
     ∧ Forall (λ x, is_dict x = true
                    ∧ (is_Some (Some 10%float) → etsy_price_handled x))
         [mug; vase; nameless]
     ∧ Forall (λ x, is_Some (etsy_record x)) [mug; vase; nameless]
     ∧ (find_etsy_items
          (market (document [lamp; untitled; sofa]) (results [mug; vase; nameless]))
          "mug" (Some 10%float) start).1
       = Ret (omap etsy_record
                (List.filter (λ x, within (Some 10%float) (etsy_price x))
                   [mug; vase; nameless]))).
Proof.
  assert (Hfetch : fetch_url
                     (market (document [lamp; untitled; sofa])
                        (results [mug; vase; nameless]))
                     (ebay_url "lamp") start
                   = (Ret (page (document [lamp; untitled; sofa])),
                      after (ebay_url "lamp")))
    by (vm_compute; reflexivity).
  assert (Hblocks : ebay_blocks (page (document [lamp; untitled; sofa]))
                    = [lamp; untitled; sofa])
    by (vm_compute; reflexivity).
  assert (Hall : Forall (λ b, has_title b = false ∨ well_formed b = true)
                   (ebay_blocks (page (document [lamp; untitled; sofa])))).
  { rewrite Hblocks.
    repeat (constructor;
            [first [left; vm_compute; reflexivity|right; vm_compute; reflexivity]|]).
    constructor. }
  assert (Hkey : falsy (environ (market (document [lamp; untitled; sofa])
                                   (results [mug; vase; nameless]))
                          !! "ETSY_API_KEY") = false)
    by (vm_compute; reflexivity).
  assert (Hfetch' : fetch_url
                      (market (document [lamp; untitled; sofa])
                         (results [mug; vase; nameless]))
                      (etsy_url (default "" (environ (market (document [lamp; untitled; sofa])
                                                        (results [mug; vase; nameless]))
                                             !! "ETSY_API_KEY")) "mug") start
                    = (Ret (api (results [mug; vase; nameless])),
                       after (etsy_url "key" "mug")))
    by (vm_compute; reflexivity).
  assert (Hresults : etsy_results (api (results [mug; vase; nameless]))
                     = Ret [mug; vase; nameless])
    by (vm_compute; reflexivity).
  assert (Hall' : Forall (λ x, is_dict x = true
                               ∧ (is_Some (Some 10%float) → etsy_price_handled x))
                    [mug; vase; nameless]).
  { repeat (constructor; [split; [reflexivity|intros _; vm_compute; auto]|]).
    constructor. }
  destruct (price_ceiling_filter
              (market (document [lamp; untitled; sofa]) (results [mug; vase; nameless]))
              "lamp" (Some 50%float) start) as [Hebay _].
  destruct (price_ceiling_filter
              (market (document [lamp; untitled; sofa]) (results [mug; vase; nameless]))
              "mug" (Some 10%float) start) as [_ Hetsy].
  split; [split_and!; [exact Hfetch|exact Hall|..]|split_and!; [exact Hresults|exact Hall'|..]].
  - exact (proj1 (proj2 (Hebay _ _ Hfetch) Hall)).
  - exact (proj2 (proj2 (Hebay _ _ Hfetch) Hall)).
  - exact (proj1 (proj2 (Hetsy _ _ _ Hkey Hfetch' Hresults) Hall')).
  - exact (proj2 (proj2 (Hetsy _ _ _ Hkey Hfetch' Hresults) Hall')).
Defined.

(** C2, as stated, fails: the page has one well-formed listing block and no
    malformed one, and under the ceiling 40.0 the extractor returns no
    record (the second example of the spec). *)
Lemma malformed_blocks_counterexample :
  List.filter well_formed (ebay_blocks (page (document [lamp]))) = [lamp]
  ∧ List.filter (λ b, negb (has_title b && has_link b))
      (ebay_blocks (page (document [lamp]))) = []
  ∧ (find_ebay_items (market (document [lamp]) (results [])) "lamp"
       (Some 40%float) start).1
    = Ret [].
Proof. split_and!; vm_compute; reflexivity. Qed.

(** The statement of C2 on a page with two well-formed blocks and one
    without its title, no ceiling. *)
Lemma malformed_blocks_skipped_witness :
  fetch_url (market (document [lamp; untitled; sofa]) (results [])) (ebay_url "lamp") start
    = (Ret (page (document [lamp; untitled; sofa])), after (ebay_url "lamp"))
  ∧ Forall (λ b, has_title b = false ∨ well_formed b = true)
      (ebay_blocks (page (document [lamp; untitled; sofa])))
  ∧ ∃ items,
      find_ebay_items (market (document [lamp; untitled; sofa]) (results [])) "lamp"
        None start =
        (Ret items,
         add_log (replicate
                    (length (List.filter (λ b, negb (has_title b))
                               (ebay_blocks (page (document [lamp; untitled; sofa])))))
                    ebay_warning
                  ++ [found (length items) "eBay"]) (after (ebay_url "lamp")))
      ∧ length items =
          length (List.filter (λ b, well_formed b && within None (ebay_price b))
                    (ebay_blocks (page (document [lamp; untitled; sofa]))))
      ∧ ((None : option float) = None →
         length items =
           length (List.filter well_formed
                     (ebay_blocks (page (document [lamp; untitled; sofa]))))).
Proof.
  assert (Hfetch : fetch_url (market (document [lamp; untitled; sofa]) (results []))
                     (ebay_url "lamp") start
                   = (Ret (page (document [lamp; untitled; sofa])),
                      after (ebay_url "lamp")))
    by (vm_compute; reflexivity).
  assert (Hblocks : ebay_blocks (page (document [lamp; untitled; sofa]))
                    = [lamp; untitled; sofa])
    by (vm_compute; reflexivity).
  assert (Hall : Forall (λ b, has_title b = false ∨ well_formed b = true)
                   (ebay_blocks (page (document [lamp; untitled; sofa])))).
  { rewrite Hblocks.
    repeat (constructor;
            [first [left; vm_compute; reflexivity|right; vm_compute; reflexivity]|]).
    constructor. }
  split_and!; [exact Hfetch|exact Hall|].
  exact (malformed_blocks_skipped _ "lamp" None start _ _ Hfetch Hall).
Defined.

(** C3 fails on the code (a defect of the code).  A listing block with a
    title and no link makes [find_ebay_items] raise a [TypeError], and one
    whose price text is a range makes it raise a [ValueError]: the loop
    handles only [AttributeError].  In [find_etsy_items] a result that is
    not an object raises an [AttributeError] the loop does not handle. *)
Theorem find_ebay_items_raises :
  (find_ebay_items (market (document [lamp; unlinked; sofa]) (results [])) "chair"
     None start).1 = Raise TypeError
  ∧ (find_ebay_items (market (document [lamp; ranged; sofa]) (results [])) "desk"
       None start).1 = Raise ValueError
  ∧ (find_etsy_items (market (document []) (results [mug; PyInt 7])) "mug"
       None start).1 = Raise AttributeError.
Proof. split_and!; vm_compute; reflexivity. Qed.

(** C4, as stated, fails: without a ceiling the result object "Vase", whose
    price "call us" is neither ['N/A'] nor a number, is in the output, and
    no warning is logged. *)
Lemma non_numeric_price_counterexample :
  etsy_price_numeric vase = Raise ValueError
  ∧ find_etsy_items (market (document []) (results [vase])) "vase" None start
    = (Ret [item_dict (PyStr "Vase") (PyStr "$call us") (PyStr "http://y/3")
              (PyStr "N/A")],
       World [found 1 "Etsy"] [etsy_url "key" "vase"] [] Unset).
Proof. split_and!; vm_compute; reflexivity. Qed.

(** The statement of C4 on the payload of "Mug", "Vase" and a nameless
    object under the ceiling 10.0. *)
Lemma non_numeric_price_skipped_witness :
  falsy (environ (market (document []) (results [mug; vase; nameless]))
           !! "ETSY_API_KEY") = false
  ∧ fetch_url (market (document []) (results [mug; vase; nameless]))
      (etsy_url "key" "mug") start
    = (Ret (api (results [mug; vase; nameless])), after (etsy_url "key" "mug"))
  ∧ etsy_results (api (results [mug; vase; nameless])) = Ret [mug; vase; nameless]
  ∧ Forall (λ x, is_dict x = true ∧ etsy_price_handled x) [mug; vase; nameless]
  ∧ ∃ items,
      find_etsy_items (market (document []) (results [mug; vase; nameless])) "mug"
        (Some 10%float) start =
        (Ret items,
         add_log (omap etsy_warning [mug; vase; nameless]
                  ++ [found (length items) "Etsy"]) (after (etsy_url "key" "mug")))
      ∧ items = omap etsy_record
                  (List.filter (λ x, within (Some 10%float) (etsy_price x))
                     [mug; vase; nameless]).
Proof.
  assert (Hkey : falsy (environ (market (document []) (results [mug; vase; nameless]))
                          !! "ETSY_API_KEY") = false)
    by (vm_compute; reflexivity).
  assert (Hfetch : fetch_url (market (document []) (results [mug; vase; nameless]))
                     (etsy_url (default "" (environ (market (document [])
                                              (results [mug; vase; nameless]))
                                            !! "ETSY_API_KEY")) "mug") start
                   = (Ret (api (results [mug; vase; nameless])),
                      after (etsy_url "key" "mug")))
    by (vm_compute; reflexivity).
  assert (Hresults : etsy_results (api (results [mug; vase; nameless]))
                     = Ret [mug; vase; nameless])
    by (vm_compute; reflexivity).
  assert (Hall : Forall (λ x, is_dict x = true ∧ etsy_price_handled x)
                   [mug; vase; nameless]).
  { repeat (constructor; [split; [reflexivity|vm_compute; auto]|]). constructor. }
  split_and!; [exact Hkey|vm_compute; reflexivity|exact Hresults|exact Hall|].
  exact (proj1 (proj2 (proj2 (non_numeric_price_skipped
                                (market (document []) (results [mug; vase; nameless]))
                                "mug" (Some 10%float) start))
                  10%float _ _ _ eq_refl Hkey Hfetch Hresults Hall)).
Defined.

(** The statement of C5 in an environment without the key. *)
Lemma etsy_missing_credential_witness :
  environ (keyless (api mug_payload)) !! "ETSY_API_KEY" = None
  ∧ find_etsy_items (keyless (api mug_payload)) "mug" None start =
      (Ret [],
       add_log [LogRecord ERROR
                  "Etsy API key not found. Please set the ETSY_API_KEY environment variable."
                  None] start)
  ∧ sent (find_etsy_items (keyless (api mug_payload)) "mug" None start).2 = sent start
  ∧ ∀ E', network E' = network (keyless (api mug_payload)) →
      find_ebay_items E' "mug" None start
      = find_ebay_items (keyless (api mug_payload)) "mug" None start.
Proof.
  assert (Hkey : environ (keyless (api mug_payload)) !! "ETSY_API_KEY" = None)
    by (vm_compute; reflexivity).
  split; [exact Hkey|].
  exact (etsy_missing_credential (keyless (api mug_payload)) "mug" None start Hkey).
Defined.

(** The statement of C6 on a session whose second save fails: the first
    row is committed all the same. *)
Lemma commit_on_exit_witness :
  session (sqlite3.set_conn (Connected None) start)
    = (Raise sqlite3_Error,
       World [LogRecord INFO "Setting up the database." None;
              LogRecord INFO "Saving item 'Mug' to the database." None;
              LogRecord INFO "Saving item 'None' to the database." None]
         [] [("listings", Table [] 0)] (Connected (Some saved)))
  ∧ DatabaseManager.with_ session start
    = (Raise sqlite3_Error,
       World ([LogRecord INFO "Setting up the database." None;
               LogRecord INFO "Saving item 'Mug' to the database." None;
               LogRecord INFO "Saving item 'None' to the database." None]
              ++ [LogRecord ERROR "Database operation failed" (Some sqlite3_Error)])
         [] saved Closed).
Proof.
  assert (Hbody : session (sqlite3.set_conn (Connected None) start)
                  = (Raise sqlite3_Error,
                     World [LogRecord INFO "Setting up the database." None;
                            LogRecord INFO "Saving item 'Mug' to the database." None;
                            LogRecord INFO "Saving item 'None' to the database." None]
                       [] [("listings", Table [] 0)] (Connected (Some saved))))
    by (vm_compute; reflexivity).
  split; [exact Hbody|].
  exact (commit_on_exit session start _ _ (Some saved) Hbody eq_refl).
Defined.

(** The statement of C7 on a fresh connection to an empty file. *)
Lemma setup_database_idempotent_witness :
  conn (sqlite3.set_conn (Connected None) start) = Connected None
  ∧ ∃ w1 w2,
      DatabaseManager.setup_database (sqlite3.set_conn (Connected None) start)
        = (Ret tt, w1)
      ∧ DatabaseManager.setup_database w1 = (Ret tt, w2)
      ∧ file w2 = file w1
      ∧ conn w2 = conn w1
      ∧ ((sqlite3.count_tables "listings"
            (sqlite3.view (sqlite3.set_conn (Connected None) start)) ≤ 1)%nat →
         sqlite3.count_tables "listings" (sqlite3.view w2) = 1).
Proof.
  split; [reflexivity|].
  exact (setup_database_idempotent (sqlite3.set_conn (Connected None) start) None eq_refl).
Defined.

(** C8, as stated, fails: a result object whose title is the empty string,
    and a listing block whose title node holds no text, each give a record
    with an empty title. *)
Lemma title_counterexample :
  (find_etsy_items (market (document []) (results [nameless])) "mug" None start).1
    = Ret [item_dict (PyStr "") (PyStr "$3") (PyStr "http://y/4") (PyStr "N/A")]
  ∧ (find_ebay_items (market (document [blank]) (results [])) "lamp" None start).1
    = Ret [item_dict (PyStr "") (PyStr "N/A") (PyStr "http://x/4") (PyStr "N/A")].
Proof. split_and!; vm_compute; reflexivity. Qed.

(** The statement of C8 on the page of "Vintage Lamp". *)
Lemma title_present_witness :
  (item_dict (PyStr "Vintage Lamp") (PyStr "$45.00") (PyStr "http://x/1") (PyStr "N/A")
     ∈ [item_dict (PyStr "Vintage Lamp") (PyStr "$45.00") (PyStr "http://x/1")
          (PyStr "N/A")])
  ∧ find_ebay_items (market (document [lamp]) (results [mug])) "lamp" None start
    = (Ret [item_dict (PyStr "Vintage Lamp") (PyStr "$45.00") (PyStr "http://x/1")
              (PyStr "N/A")],
       World [found 1 "eBay"] [ebay_url "lamp"] [] Unset)
  ∧ ∃ block h3,
      block ∈ ebay_listing_blocks (market (document [lamp]) (results [mug])) "lamp" start
      ∧ bs4.find "h3" "s-item__title" block = Some h3
      ∧ item_dict (PyStr "Vintage Lamp") (PyStr "$45.00") (PyStr "http://x/1")
          (PyStr "N/A") !! "title"
        = Some (PyStr (bs4.get_text_strip h3)).
Proof.
  assert (Hd : item_dict (PyStr "Vintage Lamp") (PyStr "$45.00") (PyStr "http://x/1")
                 (PyStr "N/A")
               ∈ [item_dict (PyStr "Vintage Lamp") (PyStr "$45.00") (PyStr "http://x/1")
                    (PyStr "N/A")])
    by apply list_elem_of_here.
  assert (Hrun : find_ebay_items (market (document [lamp]) (results [mug])) "lamp"
                   None start
                 = (Ret [item_dict (PyStr "Vintage Lamp") (PyStr "$45.00")
                           (PyStr "http://x/1") (PyStr "N/A")],
                    World [found 1 "eBay"] [ebay_url "lamp"] [] Unset))
    by (vm_compute; reflexivity).
  split_and!; [exact Hd|exact Hrun|].
  exact (proj1 (title_present (market (document [lamp]) (results [mug])) "lamp" None
                  start _ _ _ Hd) Hrun).
Defined.


(** The statement of C10 on a page with three blocks, the second without
    its title. *)
Lemma source_order_preserved_witness :
  find_ebay_items (market (document [lamp; untitled; sofa]) (results [])) "lamp"
    None start
    = (Ret [item_dict (PyStr "Vintage Lamp") (PyStr "$45.00") (PyStr "http://x/1")
              (PyStr "N/A");
            item_dict (PyStr "Sofa") (PyStr "N/A") (PyStr "http://x/2") (PyStr "N/A")],
       World [ebay_warning; found 2 "eBay"] [ebay_url "lamp"] [] Unset)
  ∧ ∃ sel,
      sel `sublist_of` ebay_listing_blocks
                         (market (document [lamp; untitled; sofa]) (results []))
                         "lamp" start
      ∧ Forall2 (λ block d, contribution (ebay_try None) block = Ret (Some d)) sel
          [item_dict (PyStr "Vintage Lamp") (PyStr "$45.00") (PyStr "http://x/1")
             (PyStr "N/A");
           item_dict (PyStr "Sofa") (PyStr "N/A") (PyStr "http://x/2") (PyStr "N/A")].
Proof.
  assert (Hrun : find_ebay_items (market (document [lamp; untitled; sofa]) (results []))
                   "lamp" None start
                 = (Ret [item_dict (PyStr "Vintage Lamp") (PyStr "$45.00")
                           (PyStr "http://x/1") (PyStr "N/A");
                         item_dict (PyStr "Sofa") (PyStr "N/A") (PyStr "http://x/2")
                           (PyStr "N/A")],
                    World [ebay_warning; found 2 "eBay"] [ebay_url "lamp"] [] Unset))
    by (vm_compute; reflexivity).
  split; [exact Hrun|].
  exact (proj1 (source_order_preserved
                  (market (document [lamp; untitled; sofa]) (results [])) "lamp" None
                  start _ _) Hrun).
Defined.


(** ** The further statements on the example inputs *)

#[local] Existing Instance example_methods.methods.

(** The statement of X4 on a server that is unavailable. *)
Lemma ebay_fetch_failure_witness :
  attempt_outcome (serving unavailable) (length (sent start)) (ebay_url "lamp")
    = Raise RequestException
  ∧ attempt_outcome (serving unavailable) (length (sent start) + 1) (ebay_url "lamp")
    = Raise RequestException
  ∧ attempt_outcome (serving unavailable) (length (sent start) + 2) (ebay_url "lamp")
    = Raise RequestException
  ∧ find_ebay_items (serving unavailable) "lamp" None start =
      if bool_decide (RequestException = RequestException)
      then (Ret [],
            add_log [LogRecord ERROR "Failed to retrieve eBay items: "
                       (Some RequestException)]
              (add_sent [ebay_url "lamp"; ebay_url "lamp"; ebay_url "lamp"] start))
      else (Raise RequestException,
            add_sent [ebay_url "lamp"; ebay_url "lamp"; ebay_url "lamp"] start).
Proof.
  split_and!; [reflexivity..|].
  exact (ebay_fetch_failure (serving unavailable) "lamp" None start
           RequestException RequestException RequestException
           eq_refl eq_refl eq_refl).
Defined.

(** The statement of X5 on a response whose body is not JSON. *)
Lemma etsy_fetch_failure_witness :
  falsy (environ (serving (page (document []))) !! "ETSY_API_KEY") = false
  ∧ fetch_url (serving (page (document [])))
      (etsy_url (default "" (environ (serving (page (document [])))
                             !! "ETSY_API_KEY")) "mug") start
    = (Ret (page (document [])), after (etsy_url "key" "mug"))
  ∧ json (page (document [])) = Raise RequestException
  ∧ find_etsy_items (serving (page (document []))) "mug" None start =
      (Ret [],
       add_log [LogRecord ERROR "Failed to retrieve Etsy items: "
                  (Some RequestException)] (after (etsy_url "key" "mug"))).
Proof.
  assert (Hkey : falsy (environ (serving (page (document []))) !! "ETSY_API_KEY")
                 = false) by (vm_compute; reflexivity).
  assert (Hfetch : fetch_url (serving (page (document [])))
                     (etsy_url (default "" (environ (serving (page (document [])))
                                            !! "ETSY_API_KEY")) "mug") start
                   = (Ret (page (document [])), after (etsy_url "key" "mug")))
    by (vm_compute; reflexivity).
  split_and!; [exact Hkey|exact Hfetch|reflexivity|].
  exact (proj2 (etsy_fetch_failure (serving (page (document []))) "mug" None start
                  Hkey) _ _ Hfetch eq_refl).
Defined.

(** The statement of X6 on the payload [{}]. *)
Lemma etsy_no_results_witness :
  falsy (environ (serving (api (PyDict ∅))) !! "ETSY_API_KEY") = false
  ∧ fetch_url (serving (api (PyDict ∅)))
      (etsy_url (default "" (environ (serving (api (PyDict ∅))) !! "ETSY_API_KEY"))
         "mug") start
    = (Ret (api (PyDict ∅)), after (etsy_url "key" "mug"))
  ∧ json (api (PyDict ∅)) = Ret (PyDict ∅)
  ∧ ((∅ : gmap string pyval) !! "results" = None
     ∨ (∅ : gmap string pyval) !! "results" = Some (PyList []))
  ∧ find_etsy_items (serving (api (PyDict ∅))) "mug" (Some 10%float) start
    = (Ret [], add_log [found 0 "Etsy"] (after (etsy_url "key" "mug"))).
Proof.
  assert (Hkey : falsy (environ (serving (api (PyDict ∅))) !! "ETSY_API_KEY") = false)
    by (vm_compute; reflexivity).
  assert (Hfetch : fetch_url (serving (api (PyDict ∅)))
                     (etsy_url (default "" (environ (serving (api (PyDict ∅)))
                                            !! "ETSY_API_KEY")) "mug") start
                   = (Ret (api (PyDict ∅)), after (etsy_url "key" "mug")))
    by (vm_compute; reflexivity).
  split_and!; [exact Hkey|exact Hfetch|reflexivity|by left|].
  exact (etsy_no_results (serving (api (PyDict ∅))) "mug" (Some 10%float) start _ _ ∅
           Hkey Hfetch eq_refl (or_introl eq_refl)).
Defined.

(** The statement of X7 on the first save into a fresh table, of a title
    that is a number and a description that is [None]. *)
Lemma save_appends_row_witness :
  conn set_up = Connected None
  ∧ listings (sqlite3.view set_up) = Some (Table [] 0)
  ∧ storable [PyStr "Etsy"; PyInt 7; PyStr "$3"; PyStr "http://y/7";
              PyNone; PyStr "a gift"] = true
  ∧ sqlite3.new_rowid (Table [] 0) = Some 1%Z
  ∧ ∃ w',
      DatabaseManager.save_to_database (PyStr "Etsy") (PyInt 7) (PyStr "$3")
        (PyStr "http://y/7") PyNone (PyStr "a gift") set_up
        = (Ret tt, w')
      ∧ listings (sqlite3.view w') =
          Some (Table (rows (Table [] 0)
                       ++ [Row 1 (stored [PyStr "Etsy"; PyInt 7; PyStr "$3";
                                          PyStr "http://y/7"; PyNone;
                                          PyStr "a gift"])])
                  1)
      ∧ Forall (λ r, (row_id r < 1)%Z) (rows (Table [] 0))
      ∧ (seq (Table [] 0) < 1)%Z
      ∧ file w' = file set_up
      ∧ (∀ i v,
           [PyStr "Etsy"; PyInt 7; PyStr "$3"; PyStr "http://y/7"; PyNone;
            PyStr "a gift"] !! i = Some v →
           ∃ b, sqlite3.bind v = Ret b
                ∧ stored [PyStr "Etsy"; PyInt 7; PyStr "$3"; PyStr "http://y/7";
                          PyNone; PyStr "a gift"] !! i
                  = Some (sqlite3.text_affinity b))
      ∧ (∀ i s,
           [PyStr "Etsy"; PyInt 7; PyStr "$3"; PyStr "http://y/7"; PyNone;
            PyStr "a gift"] !! i = Some (PyStr s) →
           stored [PyStr "Etsy"; PyInt 7; PyStr "$3"; PyStr "http://y/7";
                   PyNone; PyStr "a gift"] !! i
           = Some (TEXT s))
      ∧ (∀ i z,
           [PyStr "Etsy"; PyInt 7; PyStr "$3"; PyStr "http://y/7"; PyNone;
            PyStr "a gift"] !! i = Some (PyInt z) →
           stored [PyStr "Etsy"; PyInt 7; PyStr "$3"; PyStr "http://y/7";
                   PyNone; PyStr "a gift"] !! i
           = Some (TEXT (pretty z)))
      ∧ (∀ i,
           [PyStr "Etsy"; PyInt 7; PyStr "$3"; PyStr "http://y/7"; PyNone;
            PyStr "a gift"] !! i = Some PyNone →
           stored [PyStr "Etsy"; PyInt 7; PyStr "$3"; PyStr "http://y/7";
                   PyNone; PyStr "a gift"] !! i
           = Some NULL).
Proof.
  split_and!; [reflexivity..|].
  exact (save_appends_row (PyStr "Etsy") (PyInt 7) (PyStr "$3")
           (PyStr "http://y/7") PyNone (PyStr "a gift") set_up None
           (Table [] 0) 1 eq_refl eq_refl eq_refl eq_refl).
Defined.


(** The statement of X9 on a fresh table. *)
Lemma keys_stay_fresh_witness :
  conn set_up = Connected None
  ∧ keys_fresh_in (sqlite3.view set_up)
  ∧ keys_fresh_in (file set_up)
  ∧ (keys_fresh_in (sqlite3.view (DatabaseManager.setup_database set_up).2)
     ∧ keys_fresh_in (file (DatabaseManager.setup_database set_up).2))
  ∧ (listings (sqlite3.view set_up) = None →
     listings (sqlite3.view (DatabaseManager.setup_database set_up).2)
     = Some (Table [] 0))
  ∧ (keys_fresh_in
       (sqlite3.view
          (DatabaseManager.save_to_database (PyStr "Etsy") (PyStr "Mug")
             (PyStr "$12") (PyStr "http://y/2") (PyStr "N/A") (PyStr "a gift")
             set_up).2)
     ∧ keys_fresh_in
         (file
            (DatabaseManager.save_to_database (PyStr "Etsy") (PyStr "Mug")
               (PyStr "$12") (PyStr "http://y/2") (PyStr "N/A") (PyStr "a gift")
               set_up).2)).
Proof.
  assert (Hfresh : keys_fresh_in [("listings", Table [] 0)]).
  { intros t [= <-]. split; [apply NoDup_nil_2|constructor]. }
  refine (conj eq_refl (conj Hfresh (conj Hfresh _))).
  exact (keys_stay_fresh (PyStr "Etsy") (PyStr "Mug") (PyStr "$12")
           (PyStr "http://y/2") (PyStr "N/A") (PyStr "a gift") set_up None
           eq_refl Hfresh Hfresh).
Defined.

(** The statement of X10 on a session that saves "Mug" into a new file. *)
Lemma saved_listing_persists_witness :
  storable [PyStr "Etsy"; PyStr "Mug"; PyStr "$12"; PyStr "http://y/2";
            PyStr "N/A"; PyStr "a gift"] = true
  ∧ sqlite3.new_rowid (default (Table [] 0) (listings (file start))) = Some 1%Z
  ∧ ∃ w',
      DatabaseManager.with_
        (DatabaseManager.setup_database;;
         DatabaseManager.save_to_database (PyStr "Etsy") (PyStr "Mug") (PyStr "$12")
           (PyStr "http://y/2") (PyStr "N/A") (PyStr "a gift"))
        start = (Ret tt, w')
      ∧ conn w' = Closed
      ∧ listings (file w') =
          Some (Table (rows (default (Table [] 0) (listings (file start)))
                       ++ [Row 1 (stored [PyStr "Etsy"; PyStr "Mug"; PyStr "$12";
                                          PyStr "http://y/2"; PyStr "N/A";
                                          PyStr "a gift"])])
                  1).
Proof.
  split_and!; [reflexivity..|].
  exact (saved_listing_persists (PyStr "Etsy") (PyStr "Mug") (PyStr "$12")
           (PyStr "http://y/2") (PyStr "N/A") (PyStr "a gift") start 1
           eq_refl eq_refl).
Defined.

(** The statement of X15 on a first answer that is refused. *)
Lemma get_user_input_first_accepted_witness :
  get_user_input "Enter the platform to search (eBay or Etsy): "
    (Some platform_validator) (typed ["amazon"; " eBay "; "lamp"]) start
  = (Ret "eBay", Terminal ["lamp"] [ask_platform; complaint; ask_platform], start)
  ∧ ∃ rejected line,
      stdin (typed ["amazon"; " eBay "; "lamp"])
        = rejected ++ line
                      :: stdin (Terminal ["lamp"] [ask_platform; complaint; ask_platform])
      ∧ "eBay" = str_strip line
      ∧ accepts (Some platform_validator) "eBay"
      ∧ Forall (λ l, rejects (Some platform_validator) (str_strip l)) rejected
      ∧ (Some platform_validator = None → rejected = [])
      ∧ stdout (Terminal ["lamp"] [ask_platform; complaint; ask_platform]) =
          stdout (typed ["amazon"; " eBay "; "lamp"])
          ++ reprompts "Enter the platform to search (eBay or Etsy): " rejected
          ++ [Prompted (Fore.CYAN +:+ "Enter the platform to search (eBay or Etsy): ")]
      ∧ start = start.
Proof.
  assert (Hrun : get_user_input "Enter the platform to search (eBay or Etsy): "
                   (Some platform_validator) (typed ["amazon"; " eBay "; "lamp"]) start
                 = (Ret "eBay",
                    Terminal ["lamp"] [ask_platform; complaint; ask_platform], start))
    by (vm_compute; reflexivity).
  split; [exact Hrun|].
  exact (get_user_input_first_accepted _ _ _ _ _ _ _ Hrun).
Defined.

(** The statement of X16 on answers that are all refused. *)
Lemma get_user_input_eof_witness :
  Forall (λ l, rejects (Some platform_validator) (str_strip l))
    (stdin (typed ["amazon"; "x"]))
  ∧ get_user_input "Enter the platform to search (eBay or Etsy): "
      (Some platform_validator) (typed ["amazon"; "x"]) start =
      (Raise EOFError,
       Terminal []
         (stdout (typed ["amazon"; "x"])
          ++ reprompts "Enter the platform to search (eBay or Etsy): "
               (stdin (typed ["amazon"; "x"]))
          ++ [Prompted (Fore.CYAN +:+ "Enter the platform to search (eBay or Etsy): ")]),
       start).
Proof.
  assert (Hall : Forall (λ l, rejects (Some platform_validator) (str_strip l))
                   (stdin (typed ["amazon"; "x"])))
    by (cbn [stdin typed]; each_by_computation).
  split; [exact Hall|].
  exact (get_user_input_eof _ _ _ start Hall).
Defined.

(** The statement of X18 on a session that asks Etsy without the key. *)
Lemma main_no_items_witness :
  get_user_input_lines "Enter the platform to search (eBay or Etsy): "
    (Some platform_validator) (stdin (typed ["etsy"; "mug"; ""]))
    (stdout (typed ["etsy"; "mug"; ""])) = (Ret "etsy", after_platform ["mug"; ""])
  ∧ get_user_input_lines "Enter the item you want to search for: "
      (Some query_validator) (stdin (after_platform ["mug"; ""]))
      (stdout (after_platform ["mug"; ""])) = (Ret "mug", after_query [""])
  ∧ get_user_input_lines "Enter the maximum price (or leave blank for no limit): "
      (Some price_validator) (stdin (after_query [""])) (stdout (after_query [""]))
    = (Ret "", after_price [])
  ∧ search (keyless (api mug_payload)) "etsy" "mug" (max_price_of "") (ready start)
    = (Ret [],
       searched [LogRecord ERROR
                   "Etsy API key not found. Please set the ETSY_API_KEY environment variable."
                   None] [])
  ∧ main (keyless (api mug_payload)) (typed ["etsy"; "mug"; ""]) start =
      (Ret tt,
       Terminal (stdin (after_price []))
         (stdout (after_price []) ++ [Printed (Fore.YELLOW +:+ "No items found.")]),
       World
         (log (searched [LogRecord ERROR
                           "Etsy API key not found. Please set the ETSY_API_KEY environment variable."
                           None] []))
         (sent (searched [LogRecord ERROR
                            "Etsy API key not found. Please set the ETSY_API_KEY environment variable."
                            None] []))
         (sqlite3.create_table_if_not_exists "listings" (file start)) Closed).
Proof.
  assert (H1 : get_user_input_lines "Enter the platform to search (eBay or Etsy): "
                 (Some platform_validator) (stdin (typed ["etsy"; "mug"; ""]))
                 (stdout (typed ["etsy"; "mug"; ""]))
               = (Ret "etsy", after_platform ["mug"; ""]))
    by (vm_compute; reflexivity).
  assert (H2 : get_user_input_lines "Enter the item you want to search for: "
                 (Some query_validator) (stdin (after_platform ["mug"; ""]))
                 (stdout (after_platform ["mug"; ""])) = (Ret "mug", after_query [""]))
    by (vm_compute; reflexivity).
  assert (H3 : get_user_input_lines
                 "Enter the maximum price (or leave blank for no limit): "
                 (Some price_validator) (stdin (after_query [""]))
                 (stdout (after_query [""])) = (Ret "", after_price []))
    by (vm_compute; reflexivity).
  assert (H4 : search (keyless (api mug_payload)) "etsy" "mug" (max_price_of "")
                 (ready start)
               = (Ret [],
                  searched [LogRecord ERROR
                              "Etsy API key not found. Please set the ETSY_API_KEY environment variable."
                              None] []))
    by (vm_compute; reflexivity).
  split_and!; [exact H1|exact H2|exact H3|exact H4|].
  exact (main_no_items _ _ start _ _ _ _ _ _ _ H1 H2 H3 H4).
Defined.

(** The statement of X19 on a session that finds "Mug" and an item whose
    title is the number 7 on Etsy, with the notes "gift" and " x ": the
    title is saved as the text "7". *)
Lemma main_saves_items_witness :
  get_user_input_lines "Enter the platform to search (eBay or Etsy): "
    (Some platform_validator) (stdin (typed ["etsy"; "mug"; ""; "gift"; " x "]))
    (stdout (typed ["etsy"; "mug"; ""; "gift"; " x "]))
  = (Ret "etsy", after_platform ["mug"; ""; "gift"; " x "])
  ∧ get_user_input_lines "Enter the item you want to search for: "
      (Some query_validator) (stdin (after_platform ["mug"; ""; "gift"; " x "]))
      (stdout (after_platform ["mug"; ""; "gift"; " x "]))
    = (Ret "mug", after_query [""; "gift"; " x "])
  ∧ get_user_input_lines "Enter the maximum price (or leave blank for no limit): "
      (Some price_validator) (stdin (after_query [""; "gift"; " x "]))
      (stdout (after_query [""; "gift"; " x "]))
    = (Ret "", after_price ["gift"; " x "])
  ∧ search (market (document []) (results [mug; numbered])) "etsy" "mug"
      (max_price_of "") (ready start)
    = (Ret (mug_record :: [numbered_record]),
       searched [found 2 "Etsy"] [etsy_url "key" "mug"])
  ∧ stdin (after_price ["gift"; " x "]) = ["gift"; " x "] ++ []
  ∧ Forall2 (saveable "etsy") (mug_record :: [numbered_record]) ["gift"; " x "]
  ∧ append_rows (default (Table [] 0) (listings (file start)))
      (zip_with (stored_values "etsy") (mug_record :: [numbered_record])
         ["gift"; " x "])
    = Some both_saved
  ∧ ∃ w' keys,
      main (market (document []) (results [mug; numbered]))
        (typed ["etsy"; "mug"; ""; "gift"; " x "]) start =
        (Ret tt,
         Terminal [] (stdout (after_price ["gift"; " x "])
                      ++ shown (mug_record :: [numbered_record])),
         w')
      ∧ conn w' = Closed
      ∧ sent w' = sent (searched [found 2 "Etsy"] [etsy_url "key" "mug"])
      ∧ listings (file w') = Some both_saved
      ∧ rows both_saved =
          rows (default (Table [] 0) (listings (file start)))
          ++ zip_with Row keys
               (zip_with (stored_values "etsy") (mug_record :: [numbered_record])
                  ["gift"; " x "])
      ∧ length keys = length (mug_record :: [numbered_record])
      ∧ Forall (λ k, Forall (λ r, (row_id r < k)%Z)
                       (rows (default (Table [] 0) (listings (file start))))) keys.
Proof.
  assert (H1 : get_user_input_lines "Enter the platform to search (eBay or Etsy): "
                 (Some platform_validator)
                 (stdin (typed ["etsy"; "mug"; ""; "gift"; " x "]))
                 (stdout (typed ["etsy"; "mug"; ""; "gift"; " x "]))
               = (Ret "etsy", after_platform ["mug"; ""; "gift"; " x "]))
    by (vm_compute; reflexivity).
  assert (H2 : get_user_input_lines "Enter the item you want to search for: "
                 (Some query_validator)
                 (stdin (after_platform ["mug"; ""; "gift"; " x "]))
                 (stdout (after_platform ["mug"; ""; "gift"; " x "]))
               = (Ret "mug", after_query [""; "gift"; " x "]))
    by (vm_compute; reflexivity).
  assert (H3 : get_user_input_lines
                 "Enter the maximum price (or leave blank for no limit): "
                 (Some price_validator) (stdin (after_query [""; "gift"; " x "]))
                 (stdout (after_query [""; "gift"; " x "]))
               = (Ret "", after_price ["gift"; " x "]))
    by (vm_compute; reflexivity).
  assert (H4 : search (market (document []) (results [mug; numbered])) "etsy" "mug"
                 (max_price_of "") (ready start)
               = (Ret (mug_record :: [numbered_record]),
                  searched [found 2 "Etsy"] [etsy_url "key" "mug"]))
    by (vm_compute; reflexivity).
  assert (Hall : Forall2 (saveable "etsy") (mug_record :: [numbered_record])
                   ["gift"; " x "]).
  { constructor; [|constructor; [|constructor]];
      (split_and!; [by eexists; vm_compute..|vm_compute; reflexivity]). }
  assert (Happ : append_rows (default (Table [] 0) (listings (file start)))
                   (zip_with (stored_values "etsy") (mug_record :: [numbered_record])
                      ["gift"; " x "])
                 = Some both_saved)
    by (vm_compute; reflexivity).
  split_and!; [exact H1|exact H2|exact H3|exact H4|reflexivity|exact Hall|exact Happ|].
  exact (main_saves_items _ _ start _ _ _ _ _ _ _ _ ["gift"; " x "] [] _ _
           H1 H2 H3 H4 eq_refl Hall Happ).
Defined.

(** The statement of X20 on a session that finds "Mug" and a result whose
    title is [null] on Etsy: the second save violates NOT NULL. *)
Lemma main_failed_save_commits_witness :
  get_user_input_lines "Enter the platform to search (eBay or Etsy): "
    (Some platform_validator) (stdin (typed ["etsy"; "mug"; ""; "gift"; "x"]))
    (stdout (typed ["etsy"; "mug"; ""; "gift"; "x"]))
  = (Ret "etsy", after_platform ["mug"; ""; "gift"; "x"])
  ∧ get_user_input_lines "Enter the item you want to search for: "
      (Some query_validator) (stdin (after_platform ["mug"; ""; "gift"; "x"]))
      (stdout (after_platform ["mug"; ""; "gift"; "x"]))
    = (Ret "mug", after_query [""; "gift"; "x"])
  ∧ get_user_input_lines "Enter the maximum price (or leave blank for no limit): "
      (Some price_validator) (stdin (after_query [""; "gift"; "x"]))
      (stdout (after_query [""; "gift"; "x"]))
    = (Ret "", after_price ["gift"; "x"])
  ∧ search (market (document []) (results [mug; untitled_object])) "etsy" "mug"
      (max_price_of "") (ready start)
    = (Ret ([mug_record] ++ untitled_record :: []),
       searched [found 2 "Etsy"] [etsy_url "key" "mug"])
  ∧ stdin (after_price ["gift"; "x"]) = ["gift"] ++ "x" :: []
  ∧ Forall2 (saveable "etsy") [mug_record] ["gift"]
  ∧ append_rows (default (Table [] 0) (listings (file start)))
      (zip_with (stored_values "etsy") [mug_record] ["gift"])
    = Some mug_saved
  ∧ (is_Some (untitled_record !! "title") ∧ is_Some (untitled_record !! "price")
     ∧ is_Some (untitled_record !! "link"))
  ∧ storable (saved_values "etsy" untitled_record "x") = false
  ∧ is_Some (sqlite3.new_rowid mug_saved)
  ∧ ∃ w' keys,
      main (market (document []) (results [mug; untitled_object]))
        (typed ["etsy"; "mug"; ""; "gift"; "x"]) start =
        (Raise (save_error (saved_values "etsy" untitled_record "x")),
         Terminal [] (stdout (after_price ["gift"; "x"])
                      ++ shown ([mug_record] ++ [untitled_record])), w')
      ∧ conn w' = Closed
      ∧ last (log w') =
          Some (LogRecord ERROR "Database operation failed"
                  (Some (save_error (saved_values "etsy" untitled_record "x"))))
      ∧ listings (file w') = Some mug_saved
      ∧ rows mug_saved =
          rows (default (Table [] 0) (listings (file start)))
          ++ zip_with Row keys (zip_with (stored_values "etsy") [mug_record] ["gift"])
      ∧ length keys = length [mug_record].
Proof.
  assert (H1 : get_user_input_lines "Enter the platform to search (eBay or Etsy): "
                 (Some platform_validator)
                 (stdin (typed ["etsy"; "mug"; ""; "gift"; "x"]))
                 (stdout (typed ["etsy"; "mug"; ""; "gift"; "x"]))
               = (Ret "etsy", after_platform ["mug"; ""; "gift"; "x"]))
    by (vm_compute; reflexivity).
  assert (H2 : get_user_input_lines "Enter the item you want to search for: "
                 (Some query_validator)
                 (stdin (after_platform ["mug"; ""; "gift"; "x"]))
                 (stdout (after_platform ["mug"; ""; "gift"; "x"]))
               = (Ret "mug", after_query [""; "gift"; "x"]))
    by (vm_compute; reflexivity).
  assert (H3 : get_user_input_lines
                 "Enter the maximum price (or leave blank for no limit): "
                 (Some price_validator) (stdin (after_query [""; "gift"; "x"]))
                 (stdout (after_query [""; "gift"; "x"]))
               = (Ret "", after_price ["gift"; "x"]))
    by (vm_compute; reflexivity).
  assert (H4 : search (market (document []) (results [mug; untitled_object])) "etsy"
                 "mug" (max_price_of "") (ready start)
               = (Ret ([mug_record] ++ untitled_record :: []),
                  searched [found 2 "Etsy"] [etsy_url "key" "mug"]))
    by (vm_compute; reflexivity).
  assert (Hall : Forall2 (saveable "etsy") [mug_record] ["gift"]).
  { constructor; [|constructor].
    split_and!; [by eexists; vm_compute..|vm_compute; reflexivity]. }
  assert (Happ : append_rows (default (Table [] 0) (listings (file start)))
                   (zip_with (stored_values "etsy") [mug_record] ["gift"])
                 = Some mug_saved)
    by (vm_compute; reflexivity).
  assert (Hfields : is_Some (untitled_record !! "title")
                    ∧ is_Some (untitled_record !! "price")
                    ∧ is_Some (untitled_record !! "link"))
    by (split_and!; by eexists; vm_compute).
  assert (Hbad : storable (saved_values "etsy" untitled_record "x") = false)
    by (vm_compute; reflexivity).
  assert (Hleft : is_Some (sqlite3.new_rowid mug_saved))
    by (by eexists; vm_compute).
  split_and!; [exact H1|exact H2|exact H3|exact H4|reflexivity|exact Hall|exact Happ
              |apply Hfields..|exact Hbad|exact Hleft|].
  exact (main_failed_save_commits _ _ start _ _ _ _ _ _ [mug_record] untitled_record
           [] ["gift"] "x" [] _ _ H1 H2 H3 H4 eq_refl Hall Happ Hfields Hbad Hleft).
Defined.


(** The statement of X12 on a result object without a price. *)
Lemma etsy_record_fields_witness :
  contribution (etsy_try None) bowl
  = Ret (Some (item_dict (PyStr "Bowl") (PyStr "$N/A") (PyStr "N/A") (PyStr "N/A")))
  ∧ ∃ d,
      bowl = PyDict d
      ∧ item_dict (PyStr "Bowl") (PyStr "$N/A") (PyStr "N/A") (PyStr "N/A") =
          item_dict (default (PyStr "N/A") (d !! "title"))
            (PyStr ("$" +:+ builtins.str (default (PyStr "N/A") (d !! "price"))))
            (default (PyStr "N/A") (d !! "url"))
            (default (PyStr "N/A") (d !! "description"))
      ∧ (d !! "price" = None →
         item_dict (PyStr "Bowl") (PyStr "$N/A") (PyStr "N/A") (PyStr "N/A") !! "price"
         = Some (PyStr "$N/A")).
Proof.
  assert (Hr : contribution (etsy_try None) bowl
               = Ret (Some (item_dict (PyStr "Bowl") (PyStr "$N/A") (PyStr "N/A")
                              (PyStr "N/A"))))
    by (vm_compute; reflexivity).
  split; [exact Hr|].
  exact (etsy_record_fields None bowl _ Hr).
Defined.

(** The statement of X13 on the record of "Vintage Lamp". *)
Lemma ebay_records_saveable_witness :
  contribution (ebay_try None) lamp = Ret (Some lamp_record)
  ∧ (∃ s, lamp_record !! "link" = Some (PyStr s))
  ∧ saveable "eBay" lamp_record " nice ".
Proof.
  assert (Hd : contribution (ebay_try None) lamp = Ret (Some lamp_record))
    by (vm_compute; reflexivity).
  assert (Hlink : ∃ s, lamp_record !! "link" = Some (PyStr s))
    by (by eexists; vm_compute).
  split_and!; [exact Hd|exact Hlink|].
  exact (ebay_records_saveable None lamp lamp_record "eBay" " nice " Hd Hlink).
Defined.
